(** * LangchainAgent: the adapter of a langchain agent to the crew's agent
      interface (src/crewai/agents/Third_Party_Agents/langchain_custom/agent.py)

    The class is glue: it builds keyword arguments for external constructors
    and calls external collaborators.  The embedding keeps that shape.  A
    Python object of an external library is an opaque reference; every call
    into a collaborator is an entry of the type [ext], answered by an
    environment that may raise and may change the outside world, and every
    such call is recorded, with its outcome, in a trace.  The methods of the
    class are computations in a state-and-exception monad over that
    environment. *)

From Stdlib Require Import List NArith ZArith Bool String Ascii Lia.
Import ListNotations.

(** ** Python strings *)

(** A Python [str] is a sequence of Unicode code points. *)
Definition codepoint := N.
Definition str := list codepoint.

(** [py "..."] is the [str] of an ASCII literal of the source. *)
Definition py (s : string) : str := map N_of_ascii (list_ascii_of_string s).

(** The line feed of the source's [\n]. *)
Definition newline : str := [10%N].

Definition codepoint_eqb : codepoint -> codepoint -> bool := N.eqb.

Fixpoint str_eqb (a b : str) : bool :=
  match a, b with
  | [], [] => true
  | c :: a', d :: b' => codepoint_eqb c d && str_eqb a' b'
  | _, _ => false
  end.

(** [str.isspace] on one character: the code points CPython lists as
    whitespace. *)
Definition isspace (c : codepoint) : bool :=
  ((9 <=? c) && (c <=? 13) || (28 <=? c) && (c <=? 32)
   || (c =? 133) || (c =? 160) || (c =? 5760)
   || (8192 <=? c) && (c <=? 8202)
   || (c =? 8232) || (c =? 8233) || (c =? 8239) || (c =? 8287)
   || (c =? 12288))%N.

Fixpoint lstrip (s : str) : str :=
  match s with
  | [] => []
  | c :: s' => if isspace c then lstrip s' else s
  end.

Definition rstrip (s : str) : str := rev (lstrip (rev s)).

(** [s.strip()] *)
Definition strip (s : str) : str := rstrip (lstrip s).

(** [s.startswith(sep)] *)
Fixpoint startswith (sep s : str) : bool :=
  match sep, s with
  | [], _ => true
  | _ :: _, [] => false
  | c :: sep', d :: s' => codepoint_eqb c d && startswith sep' s'
  end.

(** [s.split(sep)] for a non-empty [sep] (Python raises ValueError on an
    empty separator; the class only splits on a constant marker).  The scan
    goes left to right over non-overlapping occurrences: [cur] is the piece
    being collected, [skip] counts the characters of a matched separator
    still to be passed over. *)
Fixpoint split_go (sep s : str) (skip : nat) (cur : str) : list str :=
  match s with
  | [] => [cur]
  | c :: s' =>
      match skip with
      | S k => split_go sep s' k cur
      | O =>
          if startswith sep s
          then cur :: split_go sep s' (List.length sep - 1) []
          else split_go sep s' 0 (cur ++ [c])
      end
  end.

Definition str_split (s sep : str) : list str := split_go sep s 0 [].

(** [sep in s]: [sep] occurs in [s]. *)
Definition contains (sep s : str) : Prop :=
  exists a b, s = a ++ sep ++ b.

(** [sep in s], computed: [sep] starts [s] or occurs further on. *)
Fixpoint str_contains (sep s : str) : bool :=
  startswith sep s
  || match s with
     | [] => false
     | _ :: s' => str_contains sep s'
     end.

(** [s] is [a], then the first occurrence of [sep], then [b]. *)
Definition split_at_first (sep s a b : str) : Prop :=
  s = a ++ sep ++ b
  /\ forall a' b', s = a' ++ sep ++ b' -> List.length a <= List.length a'.

(** [sep.join(parts)] *)
Fixpoint str_join (sep : str) (parts : list str) : str :=
  match parts with
  | [] => []
  | [p] => p
  | p :: rest => p ++ sep ++ str_join sep rest
  end.

(** ** Exceptions *)

(** The exception classes the class can meet, with single inheritance for
    classes defined elsewhere. *)
Inductive exn_class : Type :=
| ModuleNotFoundError
| ImportError
| IndexError
| KeyError
| TypeError
| AttributeError
| ValueError
| Exception_
| UserError (name : string) (base : exn_class).

Inductive exn : Type :=
| PyExn (cls : exn_class) (msg : string).

Definition exn_cls (e : exn) : exn_class := let (c, _) := e in c.

(** [isinstance(e, ModuleNotFoundError)]: what [except ModuleNotFoundError]
    catches. *)
Fixpoint is_ModuleNotFoundError_class (c : exn_class) : bool :=
  match c with
  | ModuleNotFoundError => true
  | UserError _ base => is_ModuleNotFoundError_class base
  | _ => false
  end.

Definition is_ModuleNotFoundError (e : exn) : bool :=
  is_ModuleNotFoundError_class (exn_cls e).

Definition result (A : Type) : Type := (exn + A)%type.

(** ** Data *)

(** An object of an external library, known by its identity only. *)
Definition obj := N.

(** [langchain_core.agents.AgentAction] *)
Record AgentAction : Type := {
  tool : str;
  tool_input : obj;
  log : str
}.

(** Truth value of an [Optional[List[...]]]: [None] and [[]] are false. *)
Definition truthy_list {A} (l : option (list A)) : bool :=
  match l with
  | Some (_ :: _) => true
  | _ => false
  end.

(** Truth value of an [Optional[str]]: [None] and the empty string are false. *)
Definition truthy_str (s : option str) : bool := truthy_list s.

(** Truth value of an [Optional[int]]: [None] and [0] are false. *)
Definition truthy_int (n : option Z) : bool :=
  match n with
  | Some z => negb (Z.eqb z 0)
  | None => false
  end.

(** [a or b] on optional lists. *)
Definition py_or {A} (a b : option (list A)) : option (list A) :=
  if truthy_list a then a else b.

(** ** format_log_to_str (lines 145-156) *)

(** The loop body: [thoughts += action.log] and then
    [thoughts += f"\n{observation_prefix}{observation}\n{llm_prefix}"]. *)
Definition format_log_step (observation_prefix llm_prefix : str)
    (thoughts : str) (step : AgentAction * str) : str :=
  let (action, observation) := step in
  let thoughts := thoughts ++ log action in
  thoughts ++ (newline ++ observation_prefix ++ observation ++ newline ++ llm_prefix).

Definition format_log_to_str_with (observation_prefix llm_prefix : str)
    (intermediate_steps : list (AgentAction * str)) : str :=
  fold_left (format_log_step observation_prefix llm_prefix) intermediate_steps [].

(** The default arguments: [observation_prefix="Observation: "],
    [llm_prefix=""]. *)
Definition format_log_to_str (intermediate_steps : list (AgentAction * str)) : str :=
  format_log_to_str_with (py "Observation: ") [] intermediate_steps.

(** ** The agent and the executor's keyword arguments *)

(** [crewai.Crew], as far as the class reads it. *)
Record Crew : Type := {
  crew_ref : obj;
  memory : bool;
  _short_term_memory : obj;
  _long_term_memory : obj;
  _entity_memory : obj
}.

(** A bound method [receiver.name], not called. *)
Inductive bound_method : Type :=
| BoundMethod (receiver : obj) (name : string).

Module Agent.
(** The fields of a [LangchainAgent] that the methods read.  The first
    group is inherited from [BaseAgent]; an object-valued optional field is
    true exactly when it is not [None]. *)
Record t : Type := {
  role : str;
  goal : str;
  backstory : str;
  i18n : obj;
  crew : option Crew;
  tools : option (list obj);
  verbose : bool;
  max_iter : option Z;
  max_rpm : option Z;
  _rpm_controller : option obj;
  tools_handler : option obj;
  max_execution_time : option Z;
  cache_handler : option obj;
  step_callback : option obj;
  llm : obj;
  function_calling_llm : option obj;
  callbacks : option (list obj);
  system_template : option str;
  prompt_template : option str;
  response_template : option str
}.
End Agent.

Module Executor.
(** The keyword arguments [executor_args] given to [CrewAgentExecutor];
    [request_within_rpm_limit] is [None] when the key is absent. *)
Record t : Type := {
  llm : obj;
  i18n : obj;
  crew : option Crew;
  crew_agent : Agent.t;
  tools : list obj;
  verbose : bool;
  original_tools : option (list obj);
  handle_parsing_errors : bool;
  max_iterations : option Z;
  max_execution_time : option Z;
  step_callback : option obj;
  tools_handler : option obj;
  function_calling_llm : option obj;
  callbacks : option (list obj);
  request_within_rpm_limit : option bound_method
}.
End Executor.

(** The input of the agent's runnable: the dict the lambdas of [agent_args]
    index. *)
Record chain_input : Type := {
  input : str;
  tools : str;
  tool_names : str;
  intermediate_steps : list (AgentAction * str)
}.

(** The dict [agent_args] of the four lambdas (lines 166-173). *)
Definition agent_args : list (str * (chain_input -> str)) :=
  [ (py "input", fun x => input x);
    (py "tools", fun x => tools x);
    (py "tool_names", fun x => tool_names x);
    (py "agent_scratchpad", fun x => format_log_to_str (intermediate_steps x)) ].

(** The left operand of [|]: the dict of lambdas or a runnable. *)
Inductive operand : Type :=
| Mapping (d : list (str * (chain_input -> str)))
| Runnable (r : obj).

(** ** Calls into the collaborators *)

(** One constructor per operation of an external collaborator, indexed by
    the type of what it returns.  [RPMController_check_or_wait] belongs to
    the controller's interface; the class hands it over and never calls it. *)
Inductive ext : Type -> Type :=
| ToolsHandler_set_last_used_tool (handler : obj) : ext unit
| Task_prompt (task : obj) : ext str
| I18N_slice (i18n : obj) (key : str) : ext str
| ContextualMemory_new (stm ltm em : obj) : ext obj
| ContextualMemory_build_context_for_task
    (cm task : obj) (context : option str) : ext str
| Import_crewai_tools : ext unit
| Tool_to_langchain (tool : obj) : ext obj
| Tool_name (tool : obj) : ext str
| Render_text_description (tools : list obj) : ext str
| Prompts_new (i18n : obj) (tools : option (list obj))
    (system_template prompt_template response_template : option str) : ext obj
| Prompts_task_execution (prompts : obj) : ext obj
| Prompt_partial (prompt : obj) (goal role backstory : str) : ext obj
| LLM_bind (llm : obj) (stop : list str) : ext obj
| Runnable_or (lhs : operand) (rhs : obj) : ext obj
| CrewAgentParser_new (agent : Agent.t) : ext obj
| RunnableAgent_new (runnable : obj) : ext obj
| CrewAgentExecutor_new (agent : obj) (kw : Executor.t) : ext obj
| Executor_set_tools (executor : obj) (tools : list obj) : ext unit
| Executor_set_task (executor task : obj) : ext unit
| Executor_set_tools_description (executor : obj) (d : str) : ext unit
| Executor_set_tools_names (executor : obj) (names : str) : ext unit
| Executor_invoke (executor : obj) (inputs : list (str * str))
    : ext (list (str * str))
| RPMController_check_or_wait (controller : obj) : ext bool
| RPMController_stop_rpm_counter (controller : obj) : ext unit.

(** A call together with its outcome. *)
Inductive event : Type :=
| Ev {R : Type} (call : ext R) (outcome : result R).

(** [repr(key)] of a [str] without quotes or escapes in it, as a message. *)
Definition repr (key : str) : string :=
  String "'" (string_of_list_ascii (map ascii_of_N key) ++ "'")%string.

(** [d[key]] on a dict given as an association list. *)
Fixpoint dict_get (d : list (str * str)) (key : str) : result str :=
  match d with
  | [] => inl (PyExn KeyError (repr key))
  | (k, v) :: d' => if str_eqb k key then inr v else dict_get d' key
  end.

(** ** Vocabulary of the properties *)

(** The configuration fields of the agent, as keyword arguments of the
    executor. *)
Definition forwards_configuration (self : Agent.t) (kw : Executor.t) : Prop :=
  Executor.llm kw = Agent.llm self
  /\ Executor.max_iterations kw = Agent.max_iter self
  /\ Executor.max_execution_time kw = Agent.max_execution_time self
  /\ Executor.step_callback kw = Agent.step_callback self
  /\ Executor.function_calling_llm kw = Agent.function_calling_llm self
  /\ Executor.callbacks kw = Agent.callbacks self
  /\ Executor.tools_handler kw = Agent.tools_handler self.

(** Every construction of a [CrewAgentExecutor] among the events has keyword
    arguments that satisfy [P]. *)
Definition constructs (P : Executor.t -> Prop) (ev : event) : Prop :=
  match ev with
  | Ev c _ =>
      match c with
      | CrewAgentExecutor_new _ kw => P kw
      | _ => True
      end
  end.

(** The calls made inside the [try] of [_parse_tools]. *)
Definition in_try_block {R} (c : ext R) : bool :=
  match c with
  | Import_crewai_tools => true
  | Tool_to_langchain _ => true
  | _ => false
  end.

Definition parse_event (ev : event) : Prop :=
  match ev with
  | Ev c _ => in_try_block c = true
  end.

(** The exception an event ended with, if any. *)
Definition raised (ev : event) : option exn :=
  match ev with
  | Ev _ (inl e) => Some e
  | Ev _ (inr _) => None
  end.

(** An event that is either a normal return or an exception that the
    [except ModuleNotFoundError] of [_parse_tools] takes. *)
Definition absorbed (ev : event) : Prop :=
  match ev with
  | Ev c (inl e) => is_ModuleNotFoundError e = true /\ in_try_block c = true
  | Ev _ (inr _) => True
  end.

(** A call of a method of the rate-limit controller. *)
Definition rpm_event (ev : event) : bool :=
  match ev with
  | Ev c _ =>
      match c with
      | RPMController_check_or_wait _ => true
      | RPMController_stop_rpm_counter _ => true
      | _ => false
      end
  end.

(** An event that is no call to the rate-limit controller and that, if it
    constructs an executor, gives it keyword arguments that satisfy [P]. *)
Definition plain (P : Executor.t -> Prop) (ev : event) : Prop :=
  constructs P ev /\ rpm_event ev = false.

(** An event other than a slice of the translations that was returned. *)
Definition not_sliced (ev : event) : Prop :=
  match ev with
  | Ev c (inr _) =>
      match c with
      | I18N_slice _ _ => False
      | _ => True
      end
  | Ev _ (inl _) => True
  end.

(** What became of the exceptions the collaborators raised during a run
    with events [d] and result [r]: each was taken by the [except] of
    [_parse_tools], but possibly the one of the last call, which is the
    result of the run. *)
Definition propagated {A} (d : list event) (r : result A) : Prop :=
  Forall absorbed d
  \/ exists d0 ev e,
       d = d0 ++ [ev] /\ Forall absorbed d0 /\ raised ev = Some e /\ r = inl e.

(** The calls to the rate-limit controller among the events [d] of a run of
    [execute_task]: none, or [stop_rpm_counter] alone, as the last call, on
    the agent's controller and with [max_rpm] true. *)
Definition stops_counter_at_most (self : Agent.t) (d : list event) : Prop :=
  filter rpm_event d = []
  \/ exists controller outcome d0,
       Agent._rpm_controller self = Some controller
       /\ truthy_int (Agent.max_rpm self) = true
       /\ d = d0 ++ [Ev (RPMController_stop_rpm_counter controller) outcome]
       /\ filter rpm_event d0 = [].

(** ** The collaborators *)

(** What the class is run against: the outside world, the collaborators'
    behaviour in it (a call returns or raises, and may change the world),
    [isinstance(tool, CrewAITool)] for the class imported from
    [crewai_tools], and the builtin [str.format] called with keyword
    arguments only. *)
Class Collaborators : Type := {
  World : Type;
  env : forall R : Type, ext R -> World -> result R * World;
  isinstance_CrewAITool : obj -> bool;
  str_format : str -> list (str * str) -> result str
}.

(** ** The methods of the class *)

Section Model.

Context {C : Collaborators}.

(** The state a method runs in: the world, the calls made so far and the
    agent's own mutable attribute [self.agent_executor]. *)
Record State : Type := {
  world : World;
  trace : list event;
  agent_executor : option obj
}.

Definition M (A : Type) : Type := State -> result A * State.

Definition ret {A} (a : A) : M A := fun s => (inr a, s).

Definition raise {A} (e : exn) : M A := fun s => (inl e, s).

Definition bind {A B} (m : M A) (k : A -> M B) : M B :=
  fun s =>
    match m s with
    | (inl e, s') => (inl e, s')
    | (inr a, s') => k a s'
    end.

Notation "x <- m ;; k" := (bind m (fun x => k))
  (at level 61, m at next level, right associativity).
Notation "m ;; k" := (bind m (fun _ => k))
  (at level 61, right associativity).

(** A value or an exception of the language itself. *)
Definition lift {A} (r : result A) : M A :=
  match r with
  | inl e => raise e
  | inr a => ret a
  end.

(** A call into a collaborator: the environment answers, the call and its
    outcome are recorded, an exception propagates. *)
Definition call {R} (c : ext R) : M R :=
  fun s =>
    let (outcome, w) := env _ c (world s) in
    (outcome,
     {| world := w; trace := trace s ++ [Ev c outcome];
        agent_executor := agent_executor s |}).

(** The body of a [try]: the exception, if any, is handed to the code that
    follows instead of propagating. *)
Definition attempt {A} (m : M A) : M (result A) :=
  fun s => let (r, s') := m s in (inr r, s').

(** [self.agent_executor = executor] *)
Definition store_agent_executor (executor : obj) : M unit :=
  fun s =>
    (inr tt,
     {| world := world s; trace := trace s; agent_executor := Some executor |}).

(** [self.agent_executor], about to be used for its attribute [attr]:
    [None] has no such attribute. *)
Definition read_agent_executor (attr : string) : M obj :=
  fun s =>
    match agent_executor s with
    | Some executor => (inr executor, s)
    | None =>
        (inl (PyExn AttributeError
                ("'NoneType' object has no attribute '" ++ attr ++ "'")), s)
    end.

(** [for tool in tools]: [None] is not iterable. *)
Definition iterate (tools : option (list obj)) : result (list obj) :=
  match tools with
  | Some l => inr l
  | None => inl (PyExn TypeError "'NoneType' object is not iterable")
  end.

(** The loop inside the [try] of [_parse_tools] (lines 237-241).  It returns
    [tools_list] as the loop leaves it and the exception that ended it, if
    any: the list is shared with the [except] branch. *)
Fixpoint convert_loop (tools tools_list : list obj) : M (list obj * option exn) :=
  match tools with
  | [] => ret (tools_list, None)
  | tool :: rest =>
      if isinstance_CrewAITool tool
      then
        r <- attempt (call (Tool_to_langchain tool)) ;;
        match r with
        | inl e => ret (tools_list, Some e)
        | inr converted => convert_loop rest (tools_list ++ [converted])
        end
      else convert_loop rest (tools_list ++ [tool])
  end.

(** [_parse_tools] (lines 230-245) *)
Definition _parse_tools (tools : option (list obj)) : M (list obj) :=
  let tools_list := [] in
  tried <-
    (imported <- attempt (call Import_crewai_tools) ;;
     match imported with
     | inl e => ret (tools_list, Some e)
     | inr _ =>
         match iterate tools with
         | inl e => ret (tools_list, Some e)
         | inr l => convert_loop l tools_list
         end
     end) ;;
  let (tools_list, raised) := tried : list obj * option exn in
  match raised with
  | None => ret tools_list
  | Some e =>
      if is_ModuleNotFoundError e
      then l <- lift (iterate tools) ;; ret (tools_list ++ l)
      else raise e
  end.

(** [[t.name for t in tools]] *)
Fixpoint tool_name_list (tools : list obj) : M (list str) :=
  match tools with
  | [] => ret []
  | t :: rest =>
      n <- call (Tool_name t) ;;
      ns <- tool_name_list rest ;;
      ret (n :: ns)
  end.

(** [__tools_names] (lines 247-249) *)
Definition __tools_names (tools : list obj) : M str :=
  names <- tool_name_list tools ;;
  ret (str_join (py ", ") names).

(** The marker the response template is split on. *)
Definition response_marker : str := py "{{ .Response }}".

(** [pieces[i]] *)
Definition list_index (pieces : list str) (i : nat) : result str :=
  match nth_error pieces i with
  | Some p => inr p
  | None => inl (PyExn IndexError "list index out of range")
  end.

(** The stop words (lines 211-216). *)
Definition stop_words_of (observation : str) (response_template : option str)
  : result (list str) :=
  let stop_words := [observation] in
  match response_template with
  | Some ((_ :: _) as template) =>
      match list_index (str_split template response_marker) 1 with
      | inl e => inl e
      | inr piece => inr (stop_words ++ [strip piece])
      end
  | _ => inr stop_words
  end.

(** The dict [executor_args] (lines 175-195), given the parsed tools. *)
Definition executor_args (self : Agent.t) (tools : option (list obj))
    (parsed : list obj) : Executor.t :=
  {| Executor.llm := Agent.llm self;
     Executor.i18n := Agent.i18n self;
     Executor.crew := Agent.crew self;
     Executor.crew_agent := self;
     Executor.tools := parsed;
     Executor.verbose := Agent.verbose self;
     Executor.original_tools := tools;
     Executor.handle_parsing_errors := true;
     Executor.max_iterations := Agent.max_iter self;
     Executor.max_execution_time := Agent.max_execution_time self;
     Executor.step_callback := Agent.step_callback self;
     Executor.tools_handler := Agent.tools_handler self;
     Executor.function_calling_llm := Agent.function_calling_llm self;
     Executor.callbacks := Agent.callbacks self;
     Executor.request_within_rpm_limit :=
       match Agent._rpm_controller self with
       | Some controller => Some (BoundMethod controller "check_or_wait")
       | None => None
       end |}.

(** [create_agent_executor] (lines 158-223) *)
Definition create_agent_executor (self : Agent.t) (tools : option (list obj))
  : M unit :=
  let tools := py_or tools (Agent.tools self) in
  parsed <- _parse_tools tools ;;
  let executor_args := executor_args self tools parsed in
  prompts <- call (Prompts_new (Agent.i18n self) tools
                     (Agent.system_template self) (Agent.prompt_template self)
                     (Agent.response_template self)) ;;
  prompt <- call (Prompts_task_execution prompts) ;;
  execution_prompt <- call (Prompt_partial prompt (Agent.goal self)
                              (Agent.role self) (Agent.backstory self)) ;;
  observation <- call (I18N_slice (Agent.i18n self) (py "observation")) ;;
  stop_words <- lift (stop_words_of observation (Agent.response_template self)) ;;
  bound <- call (LLM_bind (Agent.llm self) stop_words) ;;
  r1 <- call (Runnable_or (Mapping agent_args) execution_prompt) ;;
  r2 <- call (Runnable_or (Runnable r1) bound) ;;
  parser <- call (CrewAgentParser_new self) ;;
  inner_agent <- call (Runnable_or (Runnable r2) parser) ;;
  runnable_agent <- call (RunnableAgent_new inner_agent) ;;
  executor <- call (CrewAgentExecutor_new runnable_agent executor_args) ;;
  store_agent_executor executor.

(** The memory step of [execute_task] (lines 114-122). *)
Definition memory_step (self : Agent.t) (task : obj) (context : option str)
    (task_prompt : str) : M str :=
  match Agent.crew self with
  | Some crew =>
      if memory crew
      then
        contextual_memory <-
          call (ContextualMemory_new (_short_term_memory crew)
                  (_long_term_memory crew) (_entity_memory crew)) ;;
        mem <- call (ContextualMemory_build_context_for_task
                       contextual_memory task context) ;;
        if negb (str_eqb (strip mem) [])
        then
          template <- call (I18N_slice (Agent.i18n self) (py "memory")) ;;
          text <- lift (str_format template [(py "memory", mem)]) ;;
          ret (task_prompt ++ text)
        else ret task_prompt
      else ret task_prompt
  | None => ret task_prompt
  end.

(** [execute_task] (lines 87-143).  The attributes assigned on the executor
    are read back as assigned when the dict for [invoke] is built. *)
Definition execute_task (self : Agent.t) (task : obj) (context : option str)
    (tools : option (list obj)) : M str :=
  match Agent.tools_handler self with
  | Some handler => call (ToolsHandler_set_last_used_tool handler)
  | None => ret tt
  end ;;
  task_prompt <- call (Task_prompt task) ;;
  task_prompt <-
    match context with
    | Some ((_ :: _) as ctx) =>
        template <- call (I18N_slice (Agent.i18n self) (py "task_with_context")) ;;
        lift (str_format template [(py "task", task_prompt); (py "context", ctx)])
    | _ => ret task_prompt
    end ;;
  task_prompt <- memory_step self task context task_prompt ;;
  let tools := py_or tools (Agent.tools self) in
  parsed_tools <- _parse_tools (py_or tools (Some [])) ;;
  create_agent_executor self tools ;;
  executor <- read_agent_executor "tools" ;;
  call (Executor_set_tools executor parsed_tools) ;;
  executor <- read_agent_executor "task" ;;
  call (Executor_set_task executor task) ;;
  tools_description <- call (Render_text_description parsed_tools) ;;
  executor <- read_agent_executor "tools_description" ;;
  call (Executor_set_tools_description executor tools_description) ;;
  tools_names <- __tools_names parsed_tools ;;
  executor <- read_agent_executor "tools_names" ;;
  call (Executor_set_tools_names executor tools_names) ;;
  executor <- read_agent_executor "invoke" ;;
  output <- call (Executor_invoke executor
                    [(py "input", task_prompt);
                     (py "tool_names", tools_names);
                     (py "tools", tools_description)]) ;;
  result_ <- lift (dict_get output (py "output")) ;;
  (if truthy_int (Agent.max_rpm self)
   then
     match Agent._rpm_controller self with
     | Some controller => call (RPMController_stop_rpm_counter controller)
     | None =>
         raise (PyExn AttributeError
                  "'NoneType' object has no attribute 'stop_rpm_counter'")
     end
   else ret tt) ;;
  ret result_.

(** The events a computation adds to the trace when run from [s]. *)
Definition new_events {A} (m : M A) (s : State) : list event :=
  skipn (List.length (trace s)) (trace (snd (m s))).

(** [m] only extends the trace, and what it adds relates to its result
    as [Q] says, from every state. *)
Definition traces {A} (Q : list event -> result A -> Prop) (m : M A) : Prop :=
  forall s, exists d, trace (snd (m s)) = trace s ++ d /\ Q d (fst (m s)).

(** In the events [d], [p] is what parsing made of the tool [t]: the object
    its [to_langchain()] returned for a tool of [crewai_tools], the tool
    itself otherwise. *)
Definition parsed_from (d : list event) (t p : obj) : Prop :=
  if isinstance_CrewAITool t
  then In (Ev (Tool_to_langchain t) (inr p)) d
  else p = t.

(** Every event [m] adds satisfies [P]. *)
Definition emits {A} (P : event -> Prop) (m : M A) : Prop :=
  traces (fun d _ => Forall P d) m.


End Model.

(** The calls of [create_agent_executor] after the tools are parsed, when
    every one returns: the prompt is built, the stop words bound to the
    model, the runnable piped together and the executor constructed. *)
Definition construction_events (self : Agent.t) (tools : option (list obj))
    (parsed : list obj) (stop : list str)
    (prompts prompt execution_prompt bound r1 r2 parser inner_agent
       runnable_agent executor : obj)
    (observation : str) : list event :=
  [ Ev (Prompts_new (Agent.i18n self) tools (Agent.system_template self)
          (Agent.prompt_template self) (Agent.response_template self))
       (inr prompts);
    Ev (Prompts_task_execution prompts) (inr prompt);
    Ev (Prompt_partial prompt (Agent.goal self) (Agent.role self)
          (Agent.backstory self))
       (inr execution_prompt);
    Ev (I18N_slice (Agent.i18n self) (py "observation")) (inr observation);
    Ev (LLM_bind (Agent.llm self) stop) (inr bound);
    Ev (Runnable_or (Mapping agent_args) execution_prompt) (inr r1);
    Ev (Runnable_or (Runnable r1) bound) (inr r2);
    Ev (CrewAgentParser_new self) (inr parser);
    Ev (Runnable_or (Runnable r2) parser) (inr inner_agent);
    Ev (RunnableAgent_new inner_agent) (inr runnable_agent);
    Ev (CrewAgentExecutor_new runnable_agent (executor_args self tools parsed))
       (inr executor) ].

(** The end of [execute_task]: the counter is stopped when [max_rpm] is
    true. *)
Definition stop_events (self : Agent.t) : list event :=
  if truthy_int (Agent.max_rpm self)
  then
    match Agent._rpm_controller self with
    | Some controller =>
        [Ev (RPMController_stop_rpm_counter controller) (inr tt)]
    | None => []
    end
  else [].

(** ** Concrete collaborators, for runs on explicit inputs *)

(** [str.format] on templates whose braces only delimit plain keyword
    fields (no doubled braces, conversions or format specs): the text is
    copied and each field replaced by the value of its keyword. *)
Fixpoint simple_format_go (template : str) (kwargs : list (str * str))
    (field : option str) (out : str) : result str :=
  match template with
  | [] =>
      match field with
      | None => inr out
      | Some _ => inl (PyExn ValueError "expected '}' before end of string")
      end
  | c :: rest =>
      match field with
      | Some name =>
          if codepoint_eqb c 125%N
          then
            match dict_get kwargs name with
            | inr v => simple_format_go rest kwargs None (out ++ v)
            | inl e => inl e
            end
          else simple_format_go rest kwargs (Some (name ++ [c])) out
      | None =>
          if codepoint_eqb c 123%N
          then simple_format_go rest kwargs (Some []) out
          else simple_format_go rest kwargs None (out ++ [c])
      end
  end.

Definition simple_format (template : str) (kwargs : list (str * str)) : result str :=
  simple_format_go template kwargs None [].

(** The slices of the English translation file that the class asks for. *)
Definition english_slice (key : str) : str :=
  if str_eqb key (py "observation") then newline ++ py "Observation"
  else if str_eqb key (py "memory")
  then newline ++ newline ++ py "# Useful context: " ++ newline ++ py "{memory}"
  else if str_eqb key (py "task_with_context")
  then py "{task}" ++ newline ++ newline
       ++ py "This is the context you're working with:" ++ newline ++ py "{context}"
  else [].

(** A world that only counts the objects created so far; every collaborator
    answers, constructors return fresh objects, and [crewai_tools] is present
    or not according to [installed]. *)
Definition scripted_env (installed : bool) (R : Type) (c : ext R) (w : N)
  : result R * N :=
  match c in ext T return result T * N with
  | ToolsHandler_set_last_used_tool _ => (inr tt, w)
  | Task_prompt _ => (inr (py "Summarise the report"), w)
  | I18N_slice _ key => (inr (english_slice key), w)
  | ContextualMemory_new _ _ _ => (inr w, N.succ w)
  | ContextualMemory_build_context_for_task _ _ _ => (inr (py "Earlier findings"), w)
  | Import_crewai_tools =>
      if installed then (inr tt, w)
      else (inl (PyExn ModuleNotFoundError "No module named 'crewai_tools'"), w)
  | Tool_to_langchain _ => (inr w, N.succ w)
  | Tool_name _ => (inr (py "search"), w)
  | Render_text_description _ => (inr (py "search: looks things up"), w)
  | Prompts_new _ _ _ _ _ => (inr w, N.succ w)
  | Prompts_task_execution _ => (inr w, N.succ w)
  | Prompt_partial _ _ _ _ => (inr w, N.succ w)
  | LLM_bind _ _ => (inr w, N.succ w)
  | Runnable_or _ _ => (inr w, N.succ w)
  | CrewAgentParser_new _ => (inr w, N.succ w)
  | RunnableAgent_new _ => (inr w, N.succ w)
  | CrewAgentExecutor_new _ _ => (inr w, N.succ w)
  | Executor_set_tools _ _ => (inr tt, w)
  | Executor_set_task _ _ => (inr tt, w)
  | Executor_set_tools_description _ _ => (inr tt, w)
  | Executor_set_tools_names _ _ => (inr tt, w)
  | Executor_invoke _ _ => (inr [(py "output", py "done")], w)
  | RPMController_check_or_wait _ => (inr true, w)
  | RPMController_stop_rpm_counter _ => (inr tt, w)
  end.

(** Objects numbered from 100 on are tools of [crewai_tools]. *)
Definition scripted (installed : bool) : Collaborators :=
  {| World := N;
     env := scripted_env installed;
     isinstance_CrewAITool := fun t => (100 <=? t)%N;
     str_format := simple_format |}.

(** The state before a first call: objects are numbered from 1000 on. *)
Definition fresh_state (installed : bool) : @State (scripted installed) :=
  @Build_State (scripted installed) 1000%N [] None.

Definition research_crew : Crew :=
  {| crew_ref := 10%N; memory := true; _short_term_memory := 11%N;
     _long_term_memory := 12%N; _entity_memory := 13%N |}.

(** An agent with a crew that has memory, a rate limit, and two tools: a
    langchain tool (1) and a tool of [crewai_tools] (100). *)
Definition researcher : Agent.t :=
  {| Agent.role := py "Researcher";
     Agent.goal := py "Find facts";
     Agent.backstory := py "A careful reader";
     Agent.i18n := 20%N;
     Agent.crew := Some research_crew;
     Agent.tools := Some [1; 100]%N;
     Agent.verbose := false;
     Agent.max_iter := Some 25%Z;
     Agent.max_rpm := Some 10%Z;
     Agent._rpm_controller := Some 30%N;
     Agent.tools_handler := Some 31%N;
     Agent.max_execution_time := None;
     Agent.cache_handler := Some 32%N;
     Agent.step_callback := None;
     Agent.llm := 40%N;
     Agent.function_calling_llm := None;
     Agent.callbacks := None;
     Agent.system_template := None;
     Agent.prompt_template := None;
     Agent.response_template := None |}.

(** The same agent with a response template. *)
Definition with_response_template (template : str) (a : Agent.t) : Agent.t :=
  {| Agent.role := Agent.role a;
     Agent.goal := Agent.goal a;
     Agent.backstory := Agent.backstory a;
     Agent.i18n := Agent.i18n a;
     Agent.crew := Agent.crew a;
     Agent.tools := Agent.tools a;
     Agent.verbose := Agent.verbose a;
     Agent.max_iter := Agent.max_iter a;
     Agent.max_rpm := Agent.max_rpm a;
     Agent._rpm_controller := Agent._rpm_controller a;
     Agent.tools_handler := Agent.tools_handler a;
     Agent.max_execution_time := Agent.max_execution_time a;
     Agent.cache_handler := Agent.cache_handler a;
     Agent.step_callback := Agent.step_callback a;
     Agent.llm := Agent.llm a;
     Agent.function_calling_llm := Agent.function_calling_llm a;
     Agent.callbacks := Agent.callbacks a;
     Agent.system_template := Agent.system_template a;
     Agent.prompt_template := Agent.prompt_template a;
     Agent.response_template := Some template |}.

(** ** Vocabulary of the further properties *)

(** The first call of [execute_task]: [last_used_tool] is reset when the
    agent has a tools handler. *)
Definition handler_events (self : Agent.t) : list event :=
  match Agent.tools_handler self with
  | Some handler => [Ev (ToolsHandler_set_last_used_tool handler) (inr tt)]
  | None => []
  end.

(** The reads of [t.name], tool by tool, that returned [names]. *)
Definition name_events (tools : list obj) (names : list str) : list event :=
  map (fun tn => Ev (Tool_name (fst tn)) (inr (snd tn))) (combine tools names).

(** The four assignments on the executor and the call of [invoke] that end
    [execute_task] before the counter is stopped, around the reads of the
    tools' names. *)
Definition setup_events (executor task : obj) (parsed : list obj)
    (description : str) : list event :=
  [ Ev (Executor_set_tools executor parsed) (inr tt);
    Ev (Executor_set_task executor task) (inr tt);
    Ev (Render_text_description parsed) (inr description);
    Ev (Executor_set_tools_description executor description) (inr tt) ].

Definition invoke_events (executor : obj) (task_prompt names description : str)
    (output : list (str * str)) : list event :=
  [ Ev (Executor_set_tools_names executor names) (inr tt);
    Ev (Executor_invoke executor
          [(py "input", task_prompt); (py "tool_names", names);
           (py "tools", description)])
       (inr output) ].

(** An import of [crewai_tools]. *)
Definition is_import (ev : event) : bool :=
  match ev with
  | Ev c _ =>
      match c with
      | Import_crewai_tools => true
      | _ => false
      end
  end.

(** A construction of an executor, or a call of [invoke]. *)
Definition is_construction_or_invoke (ev : event) : bool :=
  match ev with
  | Ev c _ =>
      match c with
      | CrewAgentExecutor_new _ _ => true
      | Executor_invoke _ _ => true
      | _ => false
      end
  end.

Section Slot.

Context {C : Collaborators}.

(** [m] leaves [self.agent_executor] as it is. *)
Definition keeps {A} (m : M A) : Prop :=
  forall s, agent_executor (snd (m s)) = agent_executor s.

End Slot.

Section ExecuteTaskVocabulary.

Context {C : Collaborators}.

(** The task prompt after the context step of [execute_task] (lines
    107-112), given what [task.prompt()] returned. *)
Definition context_step_events (self : Agent.t) (context : option str)
    (task_prompt task_prompt' : str) (d : list event) : Prop :=
  (truthy_str context = false /\ d = [] /\ task_prompt' = task_prompt)
  \/ exists ctx template,
      context = Some ctx /\ ctx <> []
      /\ d = [Ev (I18N_slice (Agent.i18n self) (py "task_with_context"))
                (inr template)]
      /\ str_format template [(py "task", task_prompt); (py "context", ctx)]
         = inr task_prompt'.

(** Neither an import, nor a construction of an executor, nor [invoke]. *)
Definition ordinary (ev : event) : Prop :=
  is_construction_or_invoke ev = false /\ is_import ev = false.

(** A call of [invoke]. *)
Definition is_invoke (ev : event) : bool :=
  match ev with
  | Ev c _ =>
      match c with
      | Executor_invoke _ _ => true
      | _ => false
      end
  end.

End ExecuteTaskVocabulary.

(** ** Further agents and worlds *)

(** An agent with another crew, other tools and another rate-limit
    controller. *)
Definition reconfigured (crew : option Crew) (tools : option (list obj))
    (controller : option obj) (a : Agent.t) : Agent.t :=
  {| Agent.role := Agent.role a;
     Agent.goal := Agent.goal a;
     Agent.backstory := Agent.backstory a;
     Agent.i18n := Agent.i18n a;
     Agent.crew := crew;
     Agent.tools := tools;
     Agent.verbose := Agent.verbose a;
     Agent.max_iter := Agent.max_iter a;
     Agent.max_rpm := Agent.max_rpm a;
     Agent._rpm_controller := controller;
     Agent.tools_handler := Agent.tools_handler a;
     Agent.max_execution_time := Agent.max_execution_time a;
     Agent.cache_handler := Agent.cache_handler a;
     Agent.step_callback := Agent.step_callback a;
     Agent.llm := Agent.llm a;
     Agent.function_calling_llm := Agent.function_calling_llm a;
     Agent.callbacks := Agent.callbacks a;
     Agent.system_template := Agent.system_template a;
     Agent.prompt_template := Agent.prompt_template a;
     Agent.response_template := Agent.response_template a |}.


Definition unequipped : Agent.t :=
  reconfigured (Agent.crew researcher) None (Agent._rpm_controller researcher)
    researcher.

Definition uncontrolled : Agent.t :=
  reconfigured (Agent.crew researcher) (Agent.tools researcher) None researcher.

(** A world with [crewai_tools] in which the conversion of tool 101 needs a
    module that is missing. *)
Definition failing_conversion_env (R : Type) (c : ext R) (w : N)
  : result R * N :=
  match c in ext T return result T * N with
  | Tool_to_langchain t =>
      if (t =? 101)%N
      then (inl (PyExn ModuleNotFoundError "No module named 'langchain_community'"), w)
      else (inr w, N.succ w)
  | c' => scripted_env true _ c' w
  end.

Definition failing_conversion : Collaborators :=
  {| World := N;
     env := failing_conversion_env;
     isinstance_CrewAITool := fun t => (100 <=? t)%N;
     str_format := simple_format |}.

Definition fresh_failing_state : @State failing_conversion :=
  @Build_State failing_conversion 1000%N [] None.

(** A later state of the scripted world: the agent already has executor
    77. *)
Definition later_state : @State (scripted true) :=
  @Build_State (scripted true) 2000%N [] (Some 77%N).

(** ** __init__ (lines 61-63) *)

(** A keyword argument: a dict with string keys, or an object that is no
    mapping. *)
Inductive value : Type :=
| Opaque (o : obj)
| Dict (entries : list (str * obj)).

(** A dict of keyword arguments, in insertion order. *)
Definition kwargs := list (str * value).

(** [d.pop(key, default)]: the value of [key], if any, and [d] without it. *)
Fixpoint dict_pop (d : kwargs) (key : str) : option value * kwargs :=
  match d with
  | [] => (None, [])
  | (k, v) :: d' =>
      if str_eqb k key then (Some v, d')
      else let (found, rest) := dict_pop d' key in (found, (k, v) :: rest)
  end.

(** [key in d] *)
Definition has_key {V} (d : list (str * V)) (key : str) : bool :=
  existsb (fun kv => str_eqb (fst kv) key) d.

(** The first key of [data] that [config] has too: the one the call of
    [super().__init__] with both dicts unpacked complains about. *)
Fixpoint repeated_key (config : list (str * obj)) (data : kwargs) : option str :=
  match data with
  | [] => None
  | (k, _) :: data' =>
      if has_key config k then Some k else repeated_key config data'
  end.

(** [__init__]: the keyword arguments that [super().__init__] is called
    with, or the exception raised before that call is made.  Unpacking
    [config] needs a mapping, and a keyword given twice is a [TypeError]. *)
Definition __init__ (data : kwargs) : result kwargs :=
  let (popped, data) := dict_pop data (py "config") in
  let config :=
    match popped with
    | Some v => v
    | None => Dict []
    end in
  match config with
  | Opaque _ => inl (PyExn TypeError "argument after ** must be a mapping")
  | Dict entries =>
      match repeated_key entries data with
      | Some k =>
          inl (PyExn TypeError
                 ("got multiple values for keyword argument " ++ repr k))
      | None => inr (map (fun kv => (fst kv, Opaque (snd kv))) entries ++ data)
      end
  end.

(** [d.get(key)] on keyword arguments. *)
Fixpoint kwargs_get {V} (d : list (str * V)) (key : str) : option V :=
  match d with
  | [] => None
  | (k, v) :: d' => if str_eqb k key then Some v else kwargs_get d' key
  end.

(** ** The validator set_agent_executor (lines 65-85) *)

Module Validator.

(** The attribute [callbacks] of the language model: missing, a value that
    is not a list ([None] for one), or a list of handlers. *)
Inductive callbacks_attr : Type :=
| NoAttribute
| NotAList (value : obj)
| HandlerList (handlers : list obj).

(** The language model as the validator reads and changes it; [model_name]
    is [None] when the object has no such attribute. *)
Record Llm : Type := {
  model_name : option obj;
  callbacks : callbacks_attr
}.

(** The agent as the validator reads and changes it.  [cache_handler] is
    [None] or a handler, whose truth value the collaborators give;
    [agent_executor] is [None] or an executor, and an executor is taken to
    be true. *)
Record Agent : Type := {
  llm : Llm;
  token_process : obj;
  cache_handler : option obj;
  agent_executor : option obj
}.

(** The calls the validator makes; [set_cache_handler] is a method of
    [BaseAgent] and may change the agent, so it is given the agent and
    returns it. *)
Inductive ext : Type -> Type :=
| TokenCalcHandler_new (model_name token_process : obj) : ext obj
| CacheHandler_new : ext obj
| set_cache_handler (self : Agent) (cache_handler : obj) : ext Agent.

Inductive event : Type :=
| Ev {R : Type} (call : ext R) (outcome : result R).

(** Besides the calls, what the validator asks of an object: whether it is
    an instance of [TokenCalcHandler], and its truth value ([bool(o)], which
    a class may define through [__bool__] or [__len__]). *)
Class Collaborators : Type := {
  World : Type;
  env : forall R : Type, ext R -> World -> result R * World;
  isinstance_TokenCalcHandler : obj -> bool;
  truthy : obj -> bool
}.

Section Model.

Context {C : Collaborators}.

Record State : Type := {
  world : World;
  trace : list event
}.

Definition V (A : Type) : Type := State -> result A * State.

Definition ret {A} (a : A) : V A := fun s => (inr a, s).

Definition raise {A} (e : exn) : V A := fun s => (inl e, s).

Definition bind {A B} (m : V A) (k : A -> V B) : V B :=
  fun s =>
    match m s with
    | (inl e, s') => (inl e, s')
    | (inr a, s') => k a s'
    end.

Notation "x <- m ;; k" := (bind m (fun x => k))
  (at level 61, m at next level, right associativity).

Definition call {R} (c : ext R) : V R :=
  fun s =>
    let (outcome, w) := env _ c (world s) in
    (outcome, {| world := w; trace := trace s ++ [Ev c outcome] |}).

(** [self.llm.callbacks = handlers] *)
Definition with_callbacks (self : Agent) (handlers : list obj) : Agent :=
  {| llm := {| model_name := model_name (llm self);
               callbacks := HandlerList handlers |};
     token_process := token_process self;
     cache_handler := cache_handler self;
     agent_executor := agent_executor self |}.

(** [self.cache_handler = handler] *)
Definition with_cache_handler (self : Agent) (handler : obj) : Agent :=
  {| llm := llm self;
     token_process := token_process self;
     cache_handler := Some handler;
     agent_executor := agent_executor self |}.

(** The first block of the validator (lines 68-79): a [TokenCalcHandler] is
    constructed, [callbacks] is made a list, and the handler is appended
    unless the list has an instance of the class. *)
Definition set_token_handler (self : Agent) : V Agent :=
  match model_name (llm self) with
  | None => ret self
  | Some name =>
      token_handler <- call (TokenCalcHandler_new name (token_process self)) ;;
      handlers <-
        match callbacks (llm self) with
        | NoAttribute =>
            raise (PyExn AttributeError "object has no attribute 'callbacks'")
        | NotAList _ => ret []
        | HandlerList handlers => ret handlers
        end ;;
      if existsb isinstance_TokenCalcHandler handlers
      then ret (with_callbacks self handlers)
      else ret (with_callbacks self (handlers ++ [token_handler]))
  end.

(** The agent's cache handler, when [self.cache_handler] is true: when it
    is not [None] and not an object that is false. *)
Definition true_cache_handler (self : Agent) : option obj :=
  match cache_handler self with
  | Some handler => if truthy handler then Some handler else None
  | None => None
  end.

(** [self.cache_handler = CacheHandler()] (line 83): the agent with the new
    handler, and the handler. *)
Definition new_cache_handler (self : Agent) : V (Agent * obj) :=
  handler <- call CacheHandler_new ;;
  ret (with_cache_handler self handler, handler).

(** The second block (lines 81-84): an agent without an executor gets a
    cache handler, a new one if the one it has is [None] or an object that
    is false ([if not self.cache_handler]); [current] is the agent and its
    [cache_handler] after line 83. *)
Definition set_cache (self : Agent) : V Agent :=
  match agent_executor self with
  | Some _ => ret self
  | None =>
      current <-
        match cache_handler self with
        | Some handler =>
            if truthy handler then ret (self, handler)
            else new_cache_handler self
        | None => new_cache_handler self
        end ;;
      call (set_cache_handler (fst current) (snd current))
  end.

(** [set_agent_executor] (lines 65-85) *)
Definition set_agent_executor (self : Agent) : V Agent :=
  self <- set_token_handler self ;;
  set_cache self.

(** The events a computation adds to the trace when run from [s]. *)
Definition new_events {A} (m : V A) (s : State) : list event :=
  skipn (List.length (trace s)) (trace (snd (m s))).

End Model.

(** The handlers the model has when the validator starts; a value that is
    not a list counts for none. *)
Definition handlers_of (self : Agent) : list obj :=
  match callbacks (llm self) with
  | HandlerList handlers => handlers
  | _ => []
  end.

(** Handlers of the class [TokenCalcHandler] in a list. *)
Definition token_handlers {C : Collaborators} (handlers : list obj) : list obj :=
  filter isinstance_TokenCalcHandler handlers.

(** A world that counts the objects created; the handlers of the class are
    the objects numbered from 500 on, every object but 0 is true, and
    [set_cache_handler] leaves the agent as it is. *)
Definition counting_env (R : Type) (c : ext R) (w : N) : result R * N :=
  match c in ext T return result T * N with
  | TokenCalcHandler_new _ _ => (inr w, N.succ w)
  | CacheHandler_new => (inr w, N.succ w)
  | set_cache_handler self _ => (inr self, w)
  end.

Definition counting : Collaborators :=
  {| World := N;
     env := counting_env;
     isinstance_TokenCalcHandler := fun h => (500 <=? h)%N;
     truthy := fun o => negb (o =? 0)%N |}.

(** Objects are numbered from 500 on. *)
Definition start : @State counting := @Build_State counting 500%N [].

(** An agent whose model has a name and one callback that is no
    [TokenCalcHandler], with no cache handler and no executor yet. *)
Definition fresh_agent : Agent :=
  {| llm := {| model_name := Some 1%N; callbacks := HandlerList [2%N] |};
     token_process := 3%N;
     cache_handler := None;
     agent_executor := None |}.

End Validator.

(** * Properties *)

(** ** The scratchpad *)

(** What one step adds to the scratchpad. *)
Lemma format_log_step_app (op lp thoughts : str) (step : AgentAction * str) :
  format_log_step op lp thoughts step
  = thoughts ++ format_log_step op lp [] step.
Proof.
  destruct step as [action observation]. unfold format_log_step.
  simpl. now rewrite <- app_assoc.
Qed.

Lemma fold_format_log_step (op lp : str) (steps : list (AgentAction * str)) :
  forall thoughts,
    fold_left (format_log_step op lp) steps thoughts
    = thoughts ++ fold_left (format_log_step op lp) steps [].
Proof.
  induction steps as [|step steps IH]; intros thoughts; simpl.
  - now rewrite app_nil_r.
  - rewrite IH. rewrite (IH (format_log_step op lp [] step)).
    rewrite (format_log_step_app op lp thoughts). now rewrite app_assoc.
Qed.

(** C8: [format_log_to_str] sends the empty list to the empty string and the
    concatenation of two lists of steps to the concatenation of their
    scratchpads, for the default prefixes and for any others; every pair
    contributes, in list order, [action.log], a newline, the observation
    prefix, the observation, a newline and the llm prefix. *)
Theorem format_log_to_str_homomorphism :
  forall (observation_prefix llm_prefix : str)
         (xs ys : list (AgentAction * str)),
    format_log_to_str [] = []
    /\ format_log_to_str (xs ++ ys) = format_log_to_str xs ++ format_log_to_str ys
    /\ format_log_to_str xs
       = List.concat (map (fun step =>
                        log (fst step) ++ newline ++ py "Observation: "
                        ++ snd step ++ newline ++ [])
                   xs)
    /\ format_log_to_str_with observation_prefix llm_prefix []  = []
    /\ format_log_to_str_with observation_prefix llm_prefix (xs ++ ys)
       = format_log_to_str_with observation_prefix llm_prefix xs
         ++ format_log_to_str_with observation_prefix llm_prefix ys
    /\ format_log_to_str_with observation_prefix llm_prefix xs
       = List.concat (map (fun step =>
                        log (fst step) ++ newline ++ observation_prefix
                        ++ snd step ++ newline ++ llm_prefix)
                   xs).
Proof.
  intros op lp xs ys.
  assert (Happ : forall o l a b,
             format_log_to_str_with o l (a ++ b)
             = format_log_to_str_with o l a ++ format_log_to_str_with o l b).
  { intros o l a b. unfold format_log_to_str_with.
    rewrite fold_left_app. apply fold_format_log_step. }
  assert (Hcat : forall o l a,
             format_log_to_str_with o l a
             = List.concat (map (fun step =>
                              log (fst step) ++ newline ++ o
                              ++ snd step ++ newline ++ l) a)).
  { intros o l a. induction a as [|[action observation] a IH].
    - reflexivity.
    - change ((action, observation) :: a) with ([(action, observation)] ++ a).
      rewrite Happ, IH. reflexivity. }
  unfold format_log_to_str.
  repeat split; auto.
Qed.

(** ** Splitting on a separator *)

Lemma startswith_prefix (sep s : str) :
  startswith sep s = true <-> exists b, s = sep ++ b.
Proof.
  revert s. induction sep as [|c sep IH]; intros s; simpl.
  - split; [intros _; now exists s | reflexivity].
  - destruct s as [|d s].
    + split; [discriminate | intros [b Hb]; discriminate].
    + unfold codepoint_eqb. rewrite andb_true_iff, N.eqb_eq, IH. split.
      * intros [-> [b ->]]. now exists b.
      * intros [b Hb]. injection Hb as -> ->. split; [reflexivity | now exists b].
Qed.

Lemma contains_str_contains (sep s : str) :
  contains sep s -> str_contains sep s = true.
Proof.
  intros (a & b & ->). induction a as [|c a IH].
  - simpl. destruct (sep ++ b) eqn:E; simpl; rewrite <- ?E;
      (replace (startswith sep (sep ++ b)) with true;
       [reflexivity | symmetry; apply startswith_prefix; now exists b]).
  - simpl. rewrite IH. apply orb_true_r.
Qed.

Lemma split_go_nonempty (sep s : str) :
  forall skip cur, split_go sep s skip cur <> [].
Proof.
  induction s as [|c s IH]; intros skip cur; simpl.
  - discriminate.
  - destruct skip; [destruct (startswith sep (c :: s))|]; try discriminate; apply IH.
Qed.

Lemma split_go_skip (sep x b cur : str) :
  split_go sep (x ++ b) (List.length x) cur = split_go sep b 0 cur.
Proof.
  induction x as [|c x IH]; simpl; [destruct b; reflexivity | exact IH].
Qed.

Lemma split_go_match (sep b cur : str) :
  sep <> [] ->
  split_go sep (sep ++ b) 0 cur = cur :: split_go sep b 0 [].
Proof.
  intros Hsep. destruct sep as [|c sep]; [congruence|].
  change ((c :: sep) ++ b) with (c :: (sep ++ b)).
  cbn [split_go].
  assert (H : startswith (c :: sep) (c :: sep ++ b) = true).
  { apply startswith_prefix. now exists b. }
  rewrite H. f_equal.
  replace (List.length (c :: sep) - 1) with (List.length sep) by (simpl; lia).
  apply split_go_skip.
Qed.

Lemma split_go_absent (sep s : str) :
  ~ contains sep s ->
  forall cur, split_go sep s 0 cur = [cur ++ s].
Proof.
  induction s as [|c s IH]; intros Habs cur; simpl.
  - now rewrite app_nil_r.
  - destruct (startswith sep (c :: s)) eqn:Hst.
    + exfalso. apply Habs. apply startswith_prefix in Hst as [b Hb].
      exists [], b. exact Hb.
    + rewrite IH.
      * now rewrite <- app_assoc.
      * intros (a & b & Hab). apply Habs. exists (c :: a), b. now rewrite Hab.
Qed.

Lemma split_go_first (sep a b : str) :
  sep <> [] ->
  forall s cur,
    split_at_first sep s a b ->
    split_go sep s 0 cur = (cur ++ a) :: split_go sep b 0 [].
Proof.
  intros Hsep. induction a as [|c a IH]; intros s cur [Hs Hmin].
  - subst s. simpl. rewrite app_nil_r. now apply split_go_match.
  - subst s. change ((c :: a) ++ sep ++ b) with (c :: (a ++ sep ++ b)).
    cbn [split_go].
    destruct (startswith sep (c :: a ++ sep ++ b)) eqn:Hst.
    + exfalso. apply startswith_prefix in Hst as [b' Hb'].
      specialize (Hmin [] b' Hb'). simpl in Hmin. lia.
    + rewrite (IH (a ++ sep ++ b) (cur ++ [c])).
      * now rewrite <- app_assoc.
      * split; [reflexivity|]. intros a' b' Hab.
        specialize (Hmin (c :: a') b'). simpl in Hmin.
        rewrite Hab in Hmin. specialize (Hmin eq_refl). lia.
Qed.

(** [s.split(sep)] when [sep] does not occur: the string alone. *)
Lemma str_split_absent (sep s : str) :
  ~ contains sep s -> str_split s sep = [s].
Proof.
  intros H. unfold str_split. now rewrite split_go_absent.
Qed.

(** [s.split(sep)] at the first occurrence: the text before it, then the
    split of the text after it. *)
Lemma str_split_first (sep s a b : str) :
  sep <> [] -> split_at_first sep s a b ->
  str_split s sep = a :: str_split b sep.
Proof.
  intros Hsep H. unfold str_split. now rewrite (split_go_first sep a b Hsep s [] H).
Qed.

Lemma str_split_hd (sep s : str) :
  exists rest, str_split s sep = hd [] (str_split s sep) :: rest.
Proof.
  unfold str_split. destruct (split_go sep s 0 []) as [|p ps] eqn:H.
  - now apply split_go_nonempty in H.
  - now exists ps.
Qed.

Lemma response_marker_nonempty : response_marker <> [].
Proof. discriminate. Qed.

(** The stop words, case by case on the response template. *)
Lemma stop_words_of_unset (observation : str) (template : option str) :
  truthy_str template = false ->
  stop_words_of observation template = inr [observation].
Proof.
  destruct template as [[|c t]|]; simpl; intros H; try reflexivity; discriminate.
Qed.

Lemma stop_words_of_absent (observation template : str) :
  template <> [] -> ~ contains response_marker template ->
  stop_words_of observation (Some template)
  = inl (PyExn IndexError "list index out of range").
Proof.
  intros Hne Habs. destruct template as [|c t]; [congruence|].
  unfold stop_words_of. now rewrite str_split_absent.
Qed.

Lemma stop_words_of_present (observation template a b : str) :
  split_at_first response_marker template a b ->
  stop_words_of observation (Some template)
  = inr [observation; strip (hd [] (str_split b response_marker))].
Proof.
  intros H. destruct template as [|c t].
  - destruct H as [H _]. destruct a; discriminate.
  - unfold stop_words_of.
    rewrite (str_split_first _ _ _ _ response_marker_nonempty H).
    destruct (str_split_hd response_marker b) as [rest ->]. reflexivity.
Qed.

(** ** Runs and their traces *)

Section Runs.

Context {C : Collaborators}.

Lemma new_events_of {A} (m : M A) (s : State) (d : list event) :
  trace (snd (m s)) = trace s ++ d -> new_events m s = d.
Proof.
  intros H. unfold new_events. rewrite H.
  rewrite skipn_app, skipn_all, Nat.sub_diag. reflexivity.
Qed.

Lemma traces_new_events {A} (Q : list event -> result A -> Prop) (m : M A) :
  traces Q m -> forall s, Q (new_events m s) (fst (m s)).
Proof.
  intros H s. destruct (H s) as (d & Hd & HQ).
  now rewrite (new_events_of m s d Hd).
Qed.


Lemma traces_silent {A} (Q : list event -> result A -> Prop) (m : M A) :
  (forall s, trace (snd (m s)) = trace s) ->
  (forall r, Q [] r) ->
  traces Q m.
Proof.
  intros Hm HQ s. exists []. rewrite app_nil_r. auto.
Qed.

Lemma traces_call {R} (Q : list event -> result R -> Prop) (c : ext R) :
  (forall outcome, Q [Ev c outcome] outcome) -> traces Q (call c).
Proof.
  intros HQ s. unfold call. destruct (env _ c (world s)) as [outcome w].
  exists [Ev c outcome]. simpl. auto.
Qed.

Lemma traces_bind {A B} (Q1 : list event -> result A -> Prop)
    (Q2 : A -> list event -> result B -> Prop)
    (Q : list event -> result B -> Prop) (m : M A) (k : A -> M B) :
  traces Q1 m ->
  (forall a, traces (Q2 a) (k a)) ->
  (forall d e, Q1 d (inl e) -> Q d (inl e)) ->
  (forall d1 a d2 r, Q1 d1 (inr a) -> Q2 a d2 r -> Q (d1 ++ d2) r) ->
  traces Q (bind m k).
Proof.
  intros Hm Hk Hl Hr s. unfold bind.
  destruct (Hm s) as (d1 & Hd1 & HQ1).
  destruct (m s) as [[e|a] s1]; simpl in *.
  - exists d1. auto.
  - destruct (Hk a s1) as (d2 & Hd2 & HQ2).
    exists (d1 ++ d2). rewrite Hd2, Hd1, app_assoc. eauto.
Qed.

Lemma traces_attempt {A} (Q : list event -> result (result A) -> Prop)
    (Q1 : list event -> result A -> Prop) (m : M A) :
  traces Q1 m ->
  (forall d r, Q1 d r -> Q d (inr r)) ->
  traces Q (attempt m).
Proof.
  intros Hm HQ s. unfold attempt.
  destruct (Hm s) as (d & Hd & HQ1).
  destruct (m s) as [r s1]; simpl in *. exists d. auto.
Qed.

(** *** Every event of a run satisfies a predicate *)

Lemma emits_ret {A} (P : event -> Prop) (a : A) : emits P (ret a).
Proof. apply traces_silent; intros; [reflexivity | constructor]. Qed.

Lemma emits_raise {A} (P : event -> Prop) (e : exn) : emits P (@raise _ A e).
Proof. apply traces_silent; intros; [reflexivity | constructor]. Qed.

Lemma emits_lift {A} (P : event -> Prop) (r : result A) : emits P (lift r).
Proof. destruct r; [apply emits_raise | apply emits_ret]. Qed.

Lemma emits_store (P : event -> Prop) (executor : obj) :
  emits P (store_agent_executor executor).
Proof. apply traces_silent; intros; [reflexivity | constructor]. Qed.

Lemma emits_read (P : event -> Prop) (attr : string) :
  emits P (read_agent_executor attr).
Proof.
  apply traces_silent; intros; [|constructor].
  unfold read_agent_executor. now destruct (agent_executor s).
Qed.

Lemma emits_call {R} (P : event -> Prop) (c : ext R) :
  (forall outcome, P (Ev c outcome)) -> emits P (call c).
Proof. intros H. apply traces_call. intros. constructor; auto. Qed.

Lemma emits_bind {A B} (P : event -> Prop) (m : M A) (k : A -> M B) :
  emits P m -> (forall a, emits P (k a)) -> emits P (bind m k).
Proof.
  intros Hm Hk.
  apply (traces_bind _ (fun _ d _ => Forall P d) _ m k Hm Hk); auto.
  intros. apply Forall_app; auto.
Qed.

Lemma emits_attempt {A} (P : event -> Prop) (m : M A) :
  emits P m -> emits P (attempt m).
Proof. intros H. apply (traces_attempt _ _ m H). auto. Qed.

Lemma emits_In {A} (P : event -> Prop) (m : M A) (s : State) (ev : event) :
  emits P m -> In ev (new_events m s) -> P ev.
Proof.
  intros H Hin. pose proof (traces_new_events _ m H s) as HF. simpl in HF.
  rewrite Forall_forall in HF. auto.
Qed.

End Runs.

(** One step of a walk through a computation built from calls. *)
Ltac emits_step :=
  first
    [ apply emits_bind; [|intros]
    | apply emits_ret
    | apply emits_raise
    | apply emits_lift
    | apply emits_store
    | apply emits_read
    | apply emits_attempt
    | apply emits_call; intros; simpl; auto
    | match goal with
      | |- emits _ (match ?x with _ => _ end) => destruct x
      | |- emits _ (let (_, _) := ?x in _) => destruct x
      end ].

(** ** What the methods call *)

Section Calls.

Context {C : Collaborators}.

Lemma py_or_falsy {A} (a b : option (list A)) :
  truthy_list a = false -> py_or a b = b.
Proof. unfold py_or. now intros ->. Qed.

Lemma py_or_same {A} (a : option (list A)) : py_or a a = a.
Proof. unfold py_or. now destruct (truthy_list a). Qed.

Lemma py_or_again {A} (a b : option (list A)) : py_or (py_or a b) b = py_or a b.
Proof.
  unfold py_or. destruct (truthy_list a) eqn:Ha.
  - now rewrite Ha.
  - now destruct (truthy_list b).
Qed.

Lemma emits_convert_loop (P : event -> Prop) :
  (forall ev, parse_event ev -> P ev) ->
  forall tools tools_list, emits P (convert_loop tools tools_list).
Proof.
  intros HP tools. induction tools as [|tool rest IH]; intros tools_list; simpl.
  - apply emits_ret.
  - destruct (isinstance_CrewAITool tool); [|apply IH].
    apply emits_bind.
    + apply emits_attempt, emits_call. intros. now apply HP.
    + intros [e|converted]; [apply emits_ret | apply IH].
Qed.

Lemma emits_parse_tools (P : event -> Prop) :
  (forall ev, parse_event ev -> P ev) ->
  forall tools, emits P (_parse_tools tools).
Proof.
  intros HP tools. unfold _parse_tools.
  apply emits_bind.
  - apply emits_bind.
    + apply emits_attempt, emits_call. intros. now apply HP.
    + intros [e|[]]; [apply emits_ret|].
      destruct (iterate tools); [apply emits_ret | now apply emits_convert_loop].
  - intros [tools_list [e|]]; [|apply emits_ret].
    destruct (is_ModuleNotFoundError e); repeat emits_step.
Qed.

Lemma emits_tool_name_list (P : event -> Prop) :
  (forall t outcome, P (Ev (Tool_name t) outcome)) ->
  forall tools, emits P (tool_name_list tools).
Proof.
  intros HP tools. induction tools as [|t rest IH]; simpl; repeat emits_step.
  exact IH.
Qed.

Lemma parse_event_plain (P : Executor.t -> Prop) (ev : event) :
  parse_event ev -> plain P ev.
Proof.
  destruct ev as [R c outcome].
  destruct c; simpl; intros H; try discriminate; split; simpl; auto.
Qed.

(** Every construction of an executor in [create_agent_executor] is given
    the dict [executor_args], and the rate-limit controller is not called. *)
Lemma create_agent_executor_plain (P : Executor.t -> Prop)
    (self : Agent.t) (tools : option (list obj)) :
  (forall parsed,
      P (executor_args self (py_or tools (Agent.tools self)) parsed)) ->
  emits (plain P) (create_agent_executor self tools).
Proof.
  intros HP. unfold create_agent_executor.
  apply emits_bind.
  - apply emits_parse_tools. apply parse_event_plain.
  - intros parsed. unfold plain. repeat emits_step.
Qed.

Lemma memory_step_plain (P : Executor.t -> Prop) (self : Agent.t)
    (task : obj) (context : option str) (task_prompt : str) :
  emits (plain P) (memory_step self task context task_prompt).
Proof.
  unfold memory_step, plain.
  destruct (Agent.crew self) as [crew|]; [|apply emits_ret].
  destruct (memory crew); [|apply emits_ret].
  repeat emits_step.
Qed.

Lemma tools_names_plain (P : Executor.t -> Prop) (tools : list obj) :
  emits (plain P) (__tools_names tools).
Proof.
  unfold __tools_names. apply emits_bind; [|intros; apply emits_ret].
  apply emits_tool_name_list. intros. split; simpl; auto.
Qed.

(** A computation that starts with plain events. *)
Lemma plain_bind {A B} (P : Executor.t -> Prop) (self : Agent.t)
    (m : M A) (k : A -> M B) :
  emits (plain P) m ->
  (forall a,
      traces (fun d _ => Forall (constructs P) d /\ stops_counter_at_most self d)
        (k a)) ->
  traces (fun d _ => Forall (constructs P) d /\ stops_counter_at_most self d)
    (bind m k).
Proof.
  intros Hm Hk.
  assert (Hplain : forall d, Forall (plain P) d ->
                             Forall (constructs P) d /\ filter rpm_event d = []).
  { induction d as [|ev d IH]; intros HF; [split; [constructor | reflexivity]|].
    inversion HF as [|? ? [Hc Hr] HF']; subst.
    destruct (IH HF') as [IH1 IH2]. split; [now constructor|].
    simpl. now rewrite Hr. }
  apply (traces_bind _ (fun _ d _ => Forall (constructs P) d
                                     /\ stops_counter_at_most self d)
           _ m k Hm Hk).
  - intros d e HF. destruct (Hplain d HF) as [H1 H2]. split; [exact H1 | now left].
  - intros d1 a d2 r HF [H1 H2]. destruct (Hplain d1 HF) as [G1 G2].
    split; [now apply Forall_app|].
    destruct H2 as [H2|(c & out & d0 & Hc & Hm' & -> & H0)].
    + left. now rewrite filter_app, G2, H2.
    + right. exists c, out, (d1 ++ d0).
      repeat split; auto; [now rewrite app_assoc | now rewrite filter_app, G2, H0].
Qed.

(** [execute_task]: the executor is given [executor_args], and the
    rate-limit controller is called at most once, to stop its counter, as
    the last call and only when [max_rpm] is true. *)
Lemma execute_task_calls (P : Executor.t -> Prop) (self : Agent.t)
    (task : obj) (context : option str) (tools : option (list obj)) :
  (forall parsed,
      P (executor_args self (py_or tools (Agent.tools self)) parsed)) ->
  traces (fun d _ => Forall (constructs P) d /\ stops_counter_at_most self d)
    (execute_task self task context tools).
Proof.
  intros HP. unfold execute_task.
  apply plain_bind;
    [unfold plain; destruct (Agent.tools_handler self); repeat emits_step|].
  intros _. apply plain_bind; [unfold plain; repeat emits_step|].
  intros task_prompt. apply plain_bind.
  { unfold plain. destruct context as [[|c ctx]|]; repeat emits_step. }
  intros task_prompt'. apply plain_bind; [apply memory_step_plain|].
  intros task_prompt''. apply plain_bind.
  { apply emits_parse_tools. apply parse_event_plain. }
  intros parsed_tools. apply plain_bind.
  { apply create_agent_executor_plain. now rewrite py_or_again. }
  intros _.
  do 7 (apply plain_bind; [unfold plain; repeat emits_step | intros]).
  apply plain_bind; [apply tools_names_plain|].
  intros tools_names.
  do 5 (apply plain_bind; [unfold plain; repeat emits_step | intros]).
  destruct (truthy_int (Agent.max_rpm self)) eqn:Hrpm.
  - destruct (Agent._rpm_controller self) as [controller|] eqn:Hc.
    + intros s. unfold bind, call, ret.
      destruct (env _ (RPMController_stop_rpm_counter controller) (world s))
        as [[e|[]] w]; simpl;
        (eexists; split; [reflexivity|]); (split; [repeat constructor|]);
        right; exists controller; eexists; exists []; repeat split; auto.
    + intros s. exists []. unfold bind, raise. simpl. rewrite app_nil_r.
      repeat split; auto. now left.
  - intros s. exists []. unfold bind, ret. simpl. rewrite app_nil_r.
    repeat split; auto. now left.
Qed.

End Calls.

(** ** Runs that return *)

Section Returns.

Context {C : Collaborators}.

Lemma bind_inr {A B} (m : M A) (k : A -> M B) (s s' : State) (b : B) :
  bind m k s = (inr b, s') ->
  exists a s1, m s = (inr a, s1) /\ k a s1 = (inr b, s').
Proof.
  unfold bind. destruct (m s) as [[e|a] s1]; intros H.
  - discriminate.
  - now exists a, s1.
Qed.

Lemma call_inr {R} (c : ext R) (s s1 : State) (a : R) :
  call c s = (inr a, s1) ->
  trace s1 = trace s ++ [Ev c (inr a)] /\ agent_executor s1 = agent_executor s.
Proof.
  unfold call. destruct (env _ c (world s)) as [outcome w].
  intros H. injection H as -> <-. simpl. auto.
Qed.

Lemma lift_inr {A} (r : result A) (s s1 : State) (a : A) :
  lift r s = (inr a, s1) -> r = inr a /\ s1 = s.
Proof.
  destruct r as [e|a']; simpl; unfold raise, ret; intros H.
  - discriminate.
  - injection H as -> ->. auto.
Qed.

Lemma store_inr (executor : obj) (s s1 : State) (u : unit) :
  store_agent_executor executor s = (inr u, s1) ->
  trace s1 = trace s /\ agent_executor s1 = Some executor.
Proof. unfold store_agent_executor. intros H. injection H as _ <-. auto. Qed.

(** The loop of the [try]: it ends normally with every tool parsed, or on
    the exception of one conversion. *)
Lemma convert_loop_traces (tools : list obj) :
  forall tools_list,
    traces
      (fun d r =>
         Forall parse_event d
         /\ exists out raised_,
             r = inr (out, raised_)
             /\ match raised_ with
                | None =>
                    exists ps, out = tools_list ++ ps
                               /\ Forall2 (parsed_from d) tools ps
                               /\ Forall absorbed d
                | Some e =>
                    exists d0 t, d = d0 ++ [Ev (Tool_to_langchain t) (inl e)]
                                 /\ Forall absorbed d0
                end)
      (convert_loop tools tools_list).
Proof.
  induction tools as [|tool rest IH]; intros tools_list s; simpl.
  - exists []. rewrite app_nil_r. split; [reflexivity|]. split; [constructor|].
    exists tools_list, None. split; auto. exists []. rewrite app_nil_r. auto.
  - destruct (isinstance_CrewAITool tool) eqn:Hinst.
    + unfold bind, attempt, call.
      destruct (env _ (Tool_to_langchain tool) (world s)) as [[e|converted] w].
      * exists [Ev (Tool_to_langchain tool) (inl e)]. simpl.
        split; [reflexivity|]. split; [repeat constructor|].
        exists tools_list, (Some e). split; auto. now exists [], tool.
      * match goal with |- context [convert_loop rest ?acc ?s1] =>
          destruct (IH acc s1) as (d & Hd & Hev & out & r' & Hr & Hpost)
        end.
        exists (Ev (Tool_to_langchain tool) (inr converted) :: d).
        simpl in Hd. rewrite Hd, <- app_assoc. simpl.
        split; [reflexivity|]. split; [constructor; [reflexivity | exact Hev]|].
        exists out, r'. split; auto.
        destruct r' as [e|].
        -- destruct Hpost as (d0 & t & -> & Habs).
           exists (Ev (Tool_to_langchain tool) (inr converted) :: d0), t.
           split; auto. constructor; simpl; auto.
        -- destruct Hpost as (ps & -> & HF & Habs).
           exists (converted :: ps). rewrite <- app_assoc. split; auto.
           split; [|constructor; simpl; auto].
           constructor.
           ++ unfold parsed_from. rewrite Hinst. now left.
           ++ eapply Forall2_impl; [|exact HF].
              intros t p. unfold parsed_from.
              destruct (isinstance_CrewAITool t); auto. now right.
    + destruct (IH (tools_list ++ [tool]) s) as (d & Hd & Hev & out & r' & Hr & Hpost).
      exists d. split; [exact Hd|]. split; [exact Hev|].
      exists out, r'. split; auto.
      destruct r' as [e|]; auto.
      destruct Hpost as (ps & -> & HF & Habs).
      exists (tool :: ps). rewrite <- app_assoc. split; auto.
      split; [|exact Habs].
      constructor; auto. unfold parsed_from. now rewrite Hinst.
Qed.

(** [_parse_tools]: its calls are those of the [try]; the only exceptions
    of a collaborator it keeps from its caller are the
    [ModuleNotFoundError]s raised there; and when it returns, the tools were
    a list: either the import raised and the list is returned as it is,
    or the import succeeded and, unless a conversion raised, every tool was
    parsed. *)
Lemma parse_tools_traces (tools : option (list obj)) :
  traces
    (fun d r =>
       Forall parse_event d
       /\ propagated d r
       /\ forall parsed,
           r = inr parsed ->
           exists l,
             tools = Some l
             /\ ((exists e, d = [Ev Import_crewai_tools (inl e)] /\ parsed = l)
                 \/ (exists dl,
                        d = Ev Import_crewai_tools (inr tt) :: dl
                        /\ ((forall t e,
                                ~ In (Ev (Tool_to_langchain t) (inl e)) dl) ->
                            Forall2 (parsed_from dl) l parsed))))
    (_parse_tools tools).
Proof.
  intros s. unfold _parse_tools.
  cbv beta delta [bind attempt call].
  destruct (env _ Import_crewai_tools (world s)) as [[e|[]] w]; cbv beta iota.
  - exists [Ev Import_crewai_tools (inl e)]. simpl.
    destruct (is_ModuleNotFoundError e) eqn:He; destruct tools as [l|]; simpl;
      (split; [reflexivity|]); (split; [repeat constructor|]);
      (split; [|intros parsed Hr; try discriminate]).
    + left. repeat constructor; auto.
    + injection Hr as <-. exists l. split; auto. left. now exists e.
    + left. repeat constructor; auto.
    + right. exists [], (Ev Import_crewai_tools (inl e)), e. repeat split; auto.
    + right. exists [], (Ev Import_crewai_tools (inl e)), e. repeat split; auto.
  - destruct (iterate tools) as [e|l] eqn:Hit.
    + exists [Ev Import_crewai_tools (inr tt)]. simpl.
      destruct tools; [discriminate|]. injection Hit as <-. simpl.
      (split; [reflexivity|]); (split; [repeat constructor|]).
      split; [left; repeat constructor|].
      intros parsed Hr. discriminate.
    + destruct tools as [l'|]; [|discriminate]. injection Hit as ->.
      match goal with |- context [convert_loop l [] ?s1] =>
        destruct (convert_loop_traces l [] s1)
          as (dl & Hd & Hev & out & r' & Hr & Hpost);
        destruct (convert_loop l [] s1) as [r1 s2]
      end.
      simpl in Hd, Hr. subst r1.
      exists (Ev Import_crewai_tools (inr tt) :: dl).
      destruct r' as [e|].
      * destruct Hpost as (d0 & t & -> & Habs).
        destruct (is_ModuleNotFoundError e) eqn:He; simpl;
          (split; [now rewrite Hd, <- app_assoc|]);
          (split; [constructor; [reflexivity | exact Hev]|]);
          (split; [|intros parsed Hr; try discriminate]).
        -- left. constructor; [exact I|]. apply Forall_app. split; [exact Habs|].
           repeat constructor; auto.
        -- exists l. split; auto. right. eexists. split; [reflexivity|].
           intros Hno. exfalso. apply (Hno t e). apply in_or_app. right. now left.
        -- right.
           exists (Ev Import_crewai_tools (inr tt) :: d0),
             (Ev (Tool_to_langchain t) (inl e)), e.
           repeat split; auto. constructor; [exact I | exact Habs].
      * destruct Hpost as (ps & -> & HF & Habs). simpl.
        (split; [now rewrite Hd, <- app_assoc|]);
          (split; [constructor; [reflexivity | exact Hev]|]).
        split; [left; constructor; [exact I | exact Habs]|].
        intros parsed Hr. injection Hr as <-.
        exists l. split; auto. right. eexists. split; [reflexivity|]. auto.
Qed.

Lemma create_agent_executor_inr (self : Agent.t) (tools : option (list obj))
    (s s' : State) :
  create_agent_executor self tools s = (inr tt, s') ->
  let eff := py_or tools (Agent.tools self) in
  exists parsed stop prompts prompt execution_prompt bound r1 r2 parser
         inner_agent runnable_agent executor observation,
    fst (_parse_tools eff s) = inr parsed
    /\ stop_words_of observation (Agent.response_template self) = inr stop
    /\ trace s'
       = trace s ++ new_events (_parse_tools eff) s
         ++ construction_events self eff parsed stop prompts prompt
              execution_prompt bound r1 r2 parser inner_agent runnable_agent
              executor observation
    /\ agent_executor s' = Some executor.
Proof.
  intros H eff. unfold create_agent_executor in H. fold eff in H.
  apply bind_inr in H as (parsed & s1 & Hparse & H).
  destruct (parse_tools_traces eff s) as (d0 & Hd0 & _).
  rewrite (new_events_of _ _ _ Hd0). rewrite Hparse in Hd0. simpl in Hd0.
  apply bind_inr in H as (prompts & s2 & H2 & H). apply call_inr in H2 as [T2 _].
  apply bind_inr in H as (prompt & s3 & H3 & H). apply call_inr in H3 as [T3 _].
  apply bind_inr in H as (execution_prompt & s4 & H4 & H).
  apply call_inr in H4 as [T4 _].
  apply bind_inr in H as (observation & s5 & H5 & H). apply call_inr in H5 as [T5 _].
  apply bind_inr in H as (stop & s6 & H6 & H). apply lift_inr in H6 as [Hstop ->].
  apply bind_inr in H as (bound & s7 & H7 & H). apply call_inr in H7 as [T7 _].
  apply bind_inr in H as (r1 & s8 & H8 & H). apply call_inr in H8 as [T8 _].
  apply bind_inr in H as (r2 & s9 & H9 & H). apply call_inr in H9 as [T9 _].
  apply bind_inr in H as (parser & s10 & H10 & H). apply call_inr in H10 as [T10 _].
  apply bind_inr in H as (inner & s11 & H11 & H). apply call_inr in H11 as [T11 _].
  apply bind_inr in H as (ra & s12 & H12 & H). apply call_inr in H12 as [T12 _].
  apply bind_inr in H as (ex & s13 & H13 & H). apply call_inr in H13 as [T13 _].
  apply store_inr in H as [T14 Hex].
  exists parsed, stop, prompts, prompt, execution_prompt, bound, r1, r2, parser,
    inner, ra, ex, observation.
  split; [now rewrite Hparse|]. split; [exact Hstop|]. split; [|exact Hex].
  rewrite T14, T13, T12, T11, T10, T9, T8, T7, T5, T4, T3, T2, Hd0.
  unfold construction_events. repeat rewrite <- app_assoc. reflexivity.
Qed.

Lemma run_inr_unit (m : M unit) (s : State) :
  fst (m s) = inr tt -> m s = (inr tt, snd (m s)).
Proof. destruct (m s) as [r s']. simpl. now intros ->. Qed.

Lemma run_inr {A} (m : M A) (s : State) (a : A) :
  fst (m s) = inr a -> m s = (inr a, snd (m s)).
Proof. destruct (m s) as [r s']. simpl. now intros ->. Qed.

(** The events of a [create_agent_executor] that returns. *)
Lemma create_agent_executor_events (self : Agent.t) (tools : option (list obj))
    (s : State) :
  fst (create_agent_executor self tools s) = inr tt ->
  let eff := py_or tools (Agent.tools self) in
  exists parsed stop prompts prompt execution_prompt bound r1 r2 parser
         inner_agent runnable_agent executor observation,
    fst (_parse_tools eff s) = inr parsed
    /\ stop_words_of observation (Agent.response_template self) = inr stop
    /\ new_events (create_agent_executor self tools) s
       = new_events (_parse_tools eff) s
         ++ construction_events self eff parsed stop prompts prompt
              execution_prompt bound r1 r2 parser inner_agent runnable_agent
              executor observation
    /\ agent_executor (snd (create_agent_executor self tools s)) = Some executor.
Proof.
  intros H eff. apply run_inr_unit in H.
  destruct (create_agent_executor_inr self tools s _ H)
    as (parsed & stop & prompts & prompt & ep & bound & r1 & r2 & parser
        & inner & ra & ex & obs & Hp & Hs & Ht & Hex).
  exists parsed, stop, prompts, prompt, ep, bound, r1, r2, parser, inner, ra,
    ex, obs.
  repeat split; auto. now apply new_events_of.
Qed.

End Returns.

(** ** The executor's keyword arguments *)

Section ExecutorArguments.

Context {C : Collaborators}.

Lemma In_construction_last (self : Agent.t) (tools : option (list obj))
    (parsed : list obj) (stop : list str)
    (prompts prompt execution_prompt bound r1 r2 parser inner_agent
       runnable_agent executor : obj) (observation : str) :
  exists d1,
    construction_events self tools parsed stop prompts prompt execution_prompt
      bound r1 r2 parser inner_agent runnable_agent executor observation
    = d1 ++ [Ev (CrewAgentExecutor_new runnable_agent
                   (executor_args self tools parsed)) (inr executor)]
    /\ Forall (fun ev => raised ev = None) d1.
Proof.
  eexists (_ :: _ :: _ :: _ :: _ :: _ :: _ :: _ :: _ :: _ :: nil).
  split; [reflexivity|]. repeat constructor.
Qed.

(** C1: every [CrewAgentExecutor] that [create_agent_executor] constructs
    is given the agent's [llm], [max_iter] (as [max_iterations]),
    [max_execution_time], [step_callback], [function_calling_llm],
    [callbacks] and [tools_handler], each unchanged; and when
    [create_agent_executor] returns, the construction was its last call and
    its result is the agent's [agent_executor]. *)
Theorem create_agent_executor_forwards_configuration
    (self : Agent.t) (tools : option (list obj)) (s : State) :
  (forall runnable_agent kw outcome,
      In (Ev (CrewAgentExecutor_new runnable_agent kw) outcome)
        (new_events (create_agent_executor self tools) s) ->
      forwards_configuration self kw)
  /\ (fst (create_agent_executor self tools s) = inr tt ->
      exists d0 runnable_agent kw executor,
        new_events (create_agent_executor self tools) s
        = d0 ++ [Ev (CrewAgentExecutor_new runnable_agent kw) (inr executor)]
        /\ agent_executor (snd (create_agent_executor self tools s))
           = Some executor
        /\ forwards_configuration self kw).
Proof.
  assert (Hfwd : forall eff parsed,
             forwards_configuration self (executor_args self eff parsed)).
  { intros. unfold forwards_configuration. simpl. repeat split. }
  split.
  - intros ra kw outcome Hin.
    apply (emits_In (plain (forwards_configuration self)) _ s _
             (create_agent_executor_plain _ self tools (Hfwd _))) in Hin.
    exact (proj1 Hin).
  - intros Hret.
    destruct (create_agent_executor_events self tools s Hret)
      as (parsed & stop & prompts & prompt & ep & bound & r1 & r2 & parser
          & inner & ra & ex & obs & _ & _ & Hev & Hex).
    destruct (In_construction_last self (py_or tools (Agent.tools self)) parsed
                stop prompts prompt ep bound r1 r2 parser inner ra ex obs)
      as (d1 & Hd1 & _).
    exists (new_events (_parse_tools (py_or tools (Agent.tools self))) s ++ d1),
      ra, (executor_args self (py_or tools (Agent.tools self)) parsed), ex.
    split; [now rewrite Hev, Hd1, app_assoc|]. split; [exact Hex | apply Hfwd].
Qed.

(** C6, as amended: when [create_agent_executor] returns, its calls after
    the parsing of the tools are exactly these, in this order: [Prompts] is
    constructed from the agent's [i18n], the effective tool list ([tools or
    self.tools]: the list given when it is not empty, the agent's own tools
    otherwise) and the agent's three templates; [task_execution()] of that
    object gives the prompt;
    [partial] of that prompt with the agent's [goal], [role] and [backstory]
    gives the execution prompt; and that very object is the right operand of
    the first [|] of the runnable given to the executor. *)
Theorem execution_prompt_from_prompts
    (self : Agent.t) (tools : option (list obj)) (s : State) :
  fst (create_agent_executor self tools s) = inr tt ->
  let eff := py_or tools (Agent.tools self) in
  (truthy_list tools = false -> eff = Agent.tools self)
  /\ (truthy_list tools = true -> eff = tools)
  /\ exists d0 parsed stop prompts prompt execution_prompt bound r1 r2 parser
            inner_agent runnable_agent executor observation,
      Forall parse_event d0
      /\ new_events (create_agent_executor self tools) s
         = d0
           ++ [ Ev (Prompts_new (Agent.i18n self) eff
                      (Agent.system_template self) (Agent.prompt_template self)
                      (Agent.response_template self))
                  (inr prompts);
                Ev (Prompts_task_execution prompts) (inr prompt);
                Ev (Prompt_partial prompt (Agent.goal self) (Agent.role self)
                      (Agent.backstory self))
                  (inr execution_prompt);
                Ev (I18N_slice (Agent.i18n self) (py "observation"))
                  (inr observation);
                Ev (LLM_bind (Agent.llm self) stop) (inr bound);
                Ev (Runnable_or (Mapping agent_args) execution_prompt) (inr r1);
                Ev (Runnable_or (Runnable r1) bound) (inr r2);
                Ev (CrewAgentParser_new self) (inr parser);
                Ev (Runnable_or (Runnable r2) parser) (inr inner_agent);
                Ev (RunnableAgent_new inner_agent) (inr runnable_agent);
                Ev (CrewAgentExecutor_new runnable_agent
                      (executor_args self eff parsed))
                  (inr executor) ].
Proof.
  intros Hret eff. split; [apply py_or_falsy|].
  split; [intros Htruthy; unfold eff, py_or; now rewrite Htruthy|].
  destruct (create_agent_executor_events self tools s Hret)
    as (parsed & stop & prompts & prompt & ep & bound & r1 & r2 & parser
        & inner & ra & ex & obs & _ & _ & Hev & _).
  exists (new_events (_parse_tools eff) s), parsed, stop, prompts, prompt, ep,
    bound, r1, r2, parser, inner, ra, ex, obs.
  split; [|exact Hev].
  exact (proj1 (traces_new_events _ _ (parse_tools_traces eff) s)).
Qed.

Lemma parsed_from_more (d d' : list event) (t p : obj) :
  (forall ev, In ev d -> In ev d') -> parsed_from d t p -> parsed_from d' t p.
Proof.
  unfold parsed_from. destruct (isinstance_CrewAITool t); auto.
Qed.

(** C2, as amended: every executor that [create_agent_executor] constructs
    is given, as [original_tools], the effective tool list ([tools or
    self.tools]) unchanged.  When [create_agent_executor] returns, that list
    is a list and the [tools] argument is what [_parse_tools] made of it: the
    same elements when the import of [crewai_tools] raised, and otherwise,
    unless a conversion raised, element for element the tool itself or, for
    a tool of [crewai_tools], what its [to_langchain()] returned. *)
Theorem tools_forwarded_after_parsing
    (self : Agent.t) (tools : option (list obj)) (s : State) :
  let eff := py_or tools (Agent.tools self) in
  let d := new_events (create_agent_executor self tools) s in
  (forall runnable_agent kw outcome,
      In (Ev (CrewAgentExecutor_new runnable_agent kw) outcome) d ->
      Executor.original_tools kw = eff)
  /\ (fst (create_agent_executor self tools s) = inr tt ->
      exists l runnable_agent kw executor,
        eff = Some l
        /\ In (Ev (CrewAgentExecutor_new runnable_agent kw) (inr executor)) d
        /\ ((exists e,
                In (Ev Import_crewai_tools (inl e)) d
                /\ Executor.tools kw = l)
            \/ (In (Ev Import_crewai_tools (inr tt)) d
                /\ ((forall t e, ~ In (Ev (Tool_to_langchain t) (inl e)) d) ->
                    Forall2 (parsed_from d) l (Executor.tools kw))))).
Proof.
  intros eff d. split.
  - intros ra kw outcome Hin.
    apply (emits_In (plain (fun kw => Executor.original_tools kw = eff)) _ s _)
      in Hin; [exact (proj1 Hin)|].
    apply create_agent_executor_plain. reflexivity.
  - intros Hret.
    destruct (create_agent_executor_events self tools s Hret)
      as (parsed & stop & prompts & prompt & ep & bound & r1 & r2 & parser
          & inner & ra & ex & obs & Hparsed & _ & Hev & _).
    fold eff in Hparsed, Hev. fold d in Hev.
    destruct (traces_new_events _ _ (parse_tools_traces eff) s) as (_ & _ & Hpost).
    destruct (Hpost parsed Hparsed) as (l & Hl & Hcases).
    exists l, ra, (executor_args self eff parsed), ex.
    split; [exact Hl|]. split.
    { rewrite Hev. apply in_or_app. right. unfold construction_events.
      do 10 right. now left. }
    destruct Hcases as [(e & Hd0 & ->)|(dl & Hd0 & HF)].
    + left. exists e. split; [|reflexivity].
      rewrite Hev, Hd0. now left.
    + right. split; [rewrite Hev, Hd0; now left|].
      intros Hno. simpl.
      assert (Hsub : forall ev, In ev dl -> In ev d).
      { intros ev Hin. rewrite Hev, Hd0. right. apply in_or_app. now left. }
      eapply Forall2_impl; [intros t p; apply (parsed_from_more dl d t p Hsub)|].
      apply HF. intros t e Hin. apply (Hno t e). now apply Hsub.
Qed.

End ExecutorArguments.

(** ** Runs of [execute_task] that return *)

Section ExecuteTask.

Context {C : Collaborators}.

Lemma run_extends {A} (P : event -> Prop) (m : M A) :
  emits P m ->
  forall s r s1, m s = (r, s1) -> exists d, trace s1 = trace s ++ d.
Proof.
  intros H s r s1 Hrun. destruct (H s) as (d & Hd & _).
  rewrite Hrun in Hd. now exists d.
Qed.

Lemma read_inr (attr : string) (s s1 : State) (executor : obj) :
  read_agent_executor attr s = (inr executor, s1) -> s1 = s.
Proof.
  unfold read_agent_executor. destruct (agent_executor s); intros H.
  - now injection H as _ <-.
  - discriminate.
Qed.

Lemma ret_inr {A} (a b : A) (s s1 : State) :
  ret a s = (inr b, s1) -> a = b /\ s1 = s.
Proof. unfold ret. intros H. now injection H as -> ->. Qed.

(** When [execute_task] returns: the prompt that the memory step left is
    the input of [invoke], the value is the [output] of what [invoke]
    returned, and the only call after [invoke] stops the counter. *)
Lemma execute_task_inr (self : Agent.t) (task : obj) (context : option str)
    (tools : option (list obj)) (s s' : State) (result_ : str) :
  execute_task self task context tools s = (inr result_, s') ->
  exists task_prompt s0 task_prompt' s1 executor names description output
         d_before d_between,
    trace s0 = trace s ++ d_before
    /\ memory_step self task context task_prompt s0 = (inr task_prompt', s1)
    /\ trace s'
       = trace s ++ d_before
         ++ new_events (memory_step self task context task_prompt) s0
         ++ d_between
         ++ [Ev (Executor_invoke executor
                   [(py "input", task_prompt'); (py "tool_names", names);
                    (py "tools", description)])
               (inr output)]
         ++ stop_events self
    /\ dict_get output (py "output") = inr result_
    /\ (truthy_int (Agent.max_rpm self) = true ->
        exists controller, Agent._rpm_controller self = Some controller).
Proof.
  intros H. unfold execute_task in H.
  set (T := fun _ : Executor.t => True).
  apply bind_inr in H as (u1 & sa & H1 & H).
  assert (E1 : exists d, trace sa = trace s ++ d).
  { revert H1. apply (run_extends (plain T)). unfold plain.
    destruct (Agent.tools_handler self); repeat emits_step. }
  apply bind_inr in H as (p & sb & H2 & H). apply call_inr in H2 as [E2 _].
  apply bind_inr in H as (p0 & s0 & H3 & H).
  assert (E3 : exists d, trace s0 = trace sb ++ d).
  { revert H3. apply (run_extends (plain T)). unfold plain.
    destruct context as [[|c ctx]|]; repeat emits_step. }
  apply bind_inr in H as (p1 & s1 & H4 & H).
  assert (E4 : trace s1 = trace s0 ++ new_events (memory_step self task context p0) s0).
  { destruct (run_extends _ _ (memory_step_plain T self task context p0) _ _ _ H4)
      as [d Hd].
    rewrite (new_events_of (memory_step self task context p0) s0 d);
      [exact Hd | now rewrite H4]. }
  apply bind_inr in H as (parsed & s2 & H5 & H).
  assert (E5 : exists d, trace s2 = trace s1 ++ d).
  { revert H5. apply (run_extends (plain T)).
    apply emits_parse_tools, parse_event_plain. }
  apply bind_inr in H as (u6 & s3 & H6 & H).
  assert (E6 : exists d, trace s3 = trace s2 ++ d).
  { revert H6. apply (run_extends (plain T)).
    apply create_agent_executor_plain. intros; exact I. }
  apply bind_inr in H as (ex1 & s4 & H7 & H). apply read_inr in H7 as ->.
  apply bind_inr in H as (u8 & s5 & H8 & H). apply call_inr in H8 as [E8 _].
  apply bind_inr in H as (ex2 & s6 & H9 & H). apply read_inr in H9 as ->.
  apply bind_inr in H as (u10 & s7 & H10 & H). apply call_inr in H10 as [E10 _].
  apply bind_inr in H as (desc & s8 & H11 & H). apply call_inr in H11 as [E11 _].
  apply bind_inr in H as (ex3 & s9 & H12 & H). apply read_inr in H12 as ->.
  apply bind_inr in H as (u13 & s10 & H13 & H). apply call_inr in H13 as [E13 _].
  apply bind_inr in H as (names & s11 & H14 & H).
  assert (E14 : exists d, trace s11 = trace s10 ++ d).
  { revert H14. apply (run_extends (plain T)). apply tools_names_plain. }
  apply bind_inr in H as (ex4 & s12 & H15 & H). apply read_inr in H15 as ->.
  apply bind_inr in H as (u16 & s13 & H16 & H). apply call_inr in H16 as [E16 _].
  apply bind_inr in H as (ex & s14 & H17 & H). apply read_inr in H17 as ->.
  apply bind_inr in H as (output & s15 & H18 & H). apply call_inr in H18 as [E18 _].
  apply bind_inr in H as (res & s16 & H19 & H). apply lift_inr in H19 as [Hout ->].
  apply bind_inr in H as (u20 & s17 & H20 & H). apply ret_inr in H as [-> Hs'].
  assert (E20 : trace s17 = trace s15 ++ stop_events self
                /\ (truthy_int (Agent.max_rpm self) = true ->
                    exists controller,
                      Agent._rpm_controller self = Some controller)).
  { unfold stop_events. destruct (truthy_int (Agent.max_rpm self)).
    - destruct (Agent._rpm_controller self) as [controller|].
      + destruct u20. apply call_inr in H20 as [E20 _]. split; eauto.
      + discriminate.
    - apply ret_inr in H20 as [_ ->]. rewrite app_nil_r. split; [auto|discriminate]. }
  destruct E20 as [E20 Hctl].
  destruct E1 as [d1 E1], E3 as [d3 E3], E5 as [d5 E5], E6 as [d6 E6],
    E14 as [d14 E14].
  exists p0, s0, p1, s1, ex, names, desc, output.
  exists (d1 ++ [Ev (Task_prompt task) (inr p)] ++ d3).
  exists (d5 ++ d6
          ++ [Ev (Executor_set_tools ex1 parsed) (inr u8);
              Ev (Executor_set_task ex2 task) (inr u10);
              Ev (Render_text_description parsed) (inr desc);
              Ev (Executor_set_tools_description ex3 desc) (inr u13)]
          ++ d14 ++ [Ev (Executor_set_tools_names ex4 names) (inr u16)]).
  split; [rewrite E3, E2, E1; now rewrite <- !app_assoc|].
  split; [exact H4|]. split; [|split; [exact Hout | exact Hctl]].
  rewrite Hs', E20, E18, E16, E14, E13, E11, E10, E8, E6, E5, E4, E3, E2, E1.
  rewrite <- !app_assoc. cbn [app]. reflexivity.
Qed.

End ExecuteTask.

(** ** Exceptions of the collaborators *)

Section Exceptions.

Context {C : Collaborators}.











End Exceptions.


Section ExceptionsOfTheMethods.

Context {C : Collaborators}.






End ExceptionsOfTheMethods.

(** ** What is left to the collaborators *)

Section Delegation.

Context {C : Collaborators}.


Lemma new_events_run {A} (m : M A) (s s' : State) (r : result A)
    (d : list event) :
  m s = (r, s') -> trace s' = trace s ++ d -> new_events m s = d.
Proof. intros Hrun Ht. apply new_events_of. now rewrite Hrun. Qed.

Lemma str_eqb_nil (a : str) : str_eqb a [] = true <-> a = [].
Proof. destruct a; simpl; split; auto; discriminate. Qed.

(** C7, as amended: without a crew, or with a crew whose memory is off, the
    memory step makes no call and leaves the task prompt as it is.  With a
    crew whose memory is on, it builds a [ContextualMemory] from the crew's
    three memories and asks it for the context of the task; when what comes
    back is blank after stripping, the prompt is unchanged; otherwise the
    text appended is the [memory] slice of the translations formatted with
    [memory] bound to exactly what came back.  The prompt so obtained is the
    [input] that [execute_task] gives to [invoke]. *)
Theorem memory_appended_through_slice
    (self : Agent.t) (task : obj) (context : option str)
    (tools : option (list obj)) (task_prompt : str) (s : State) :
  ((Agent.crew self = None
    \/ exists crew, Agent.crew self = Some crew /\ memory crew = false) ->
   memory_step self task context task_prompt s = (inr task_prompt, s))
  /\ (forall crew task_prompt',
         Agent.crew self = Some crew ->
         memory crew = true ->
         fst (memory_step self task context task_prompt s) = inr task_prompt' ->
         exists contextual_memory mem rest,
           new_events (memory_step self task context task_prompt) s
           = Ev (ContextualMemory_new (_short_term_memory crew)
                   (_long_term_memory crew) (_entity_memory crew))
                (inr contextual_memory)
             :: Ev (ContextualMemory_build_context_for_task contextual_memory
                      task context)
                  (inr mem)
             :: rest
           /\ ((strip mem = [] /\ rest = [] /\ task_prompt' = task_prompt)
               \/ (strip mem <> []
                   /\ exists template text,
                       rest = [Ev (I18N_slice (Agent.i18n self) (py "memory"))
                                 (inr template)]
                       /\ str_format template [(py "memory", mem)] = inr text
                       /\ task_prompt' = task_prompt ++ text)))
  /\ (forall result_,
         fst (execute_task self task context tools s) = inr result_ ->
         exists prompt0 s0 prompt1 executor names description output
                d_before d_after,
           fst (memory_step self task context prompt0 s0) = inr prompt1
           /\ new_events (execute_task self task context tools) s
              = d_before ++ new_events (memory_step self task context prompt0) s0
                ++ d_after
           /\ In (Ev (Executor_invoke executor
                        [(py "input", prompt1); (py "tool_names", names);
                         (py "tools", description)])
                    (inr output))
                d_after).
Proof.
  split; [|split].
  - unfold memory_step. intros [->|(crew & -> & ->)]; reflexivity.
  - intros crew p' Hcrew Hmem Hret.
    destruct (memory_step self task context task_prompt s) as [r s'] eqn:Hrun.
    simpl in Hret. subst r. pose proof Hrun as Hret.
    unfold memory_step in Hret. rewrite Hcrew, Hmem in Hret.
    apply bind_inr in Hret as (cm & s1 & H1 & Hret). apply call_inr in H1 as [T1 _].
    apply bind_inr in Hret as (mem & s2 & H2 & Hret). apply call_inr in H2 as [T2 _].
    exists cm, mem.
    destruct (strip mem) as [|c rest] eqn:Hstrip; simpl in Hret.
    + apply ret_inr in Hret as [<- Hs]. exists []. split; [|left; auto].
      apply (new_events_run _ _ _ _ _ Hrun).
      rewrite Hs, T2, T1, <- app_assoc. reflexivity.
    + apply bind_inr in Hret as (template & s3 & H3 & Hret).
      apply call_inr in H3 as [T3 _].
      apply bind_inr in Hret as (text & s4 & H4 & Hret).
      apply lift_inr in H4 as [Hfmt ->].
      apply ret_inr in Hret as [<- Hs].
      exists [Ev (I18N_slice (Agent.i18n self) (py "memory")) (inr template)].
      split.
      * apply (new_events_run _ _ _ _ _ Hrun).
        rewrite Hs, T3, T2, T1, <- !app_assoc. reflexivity.
      * right. split; [discriminate|]. exists template, text. auto.
  - intros result_ Hret. apply run_inr in Hret.
    destruct (execute_task_inr self task context tools s _ result_ Hret)
      as (p0 & s0 & p1 & s1 & ex & names & desc & output & d1 & d2
          & _ & Hm & Ht & _ & _).
    exists p0, s0, p1, ex, names, desc, output, d1.
    exists (d2
            ++ [Ev (Executor_invoke ex
                      [(py "input", p1); (py "tool_names", names);
                       (py "tools", desc)])
                  (inr output)]
            ++ stop_events self).
    split; [now rewrite Hm|]. split.
    + apply new_events_of. rewrite Ht. reflexivity.
    + apply in_or_app. right. now left.
Qed.

(** An occurrence of the separator has a first one. *)
Lemma contains_first (sep s : str) :
  contains sep s -> exists a b, split_at_first sep s a b.
Proof.
  induction s as [|c s IH]; intros (a & b & Hab).
  - destruct a; [|discriminate]. exists [], b. split; [exact Hab|].
    intros. simpl. lia.
  - destruct (startswith sep (c :: s)) eqn:Hst.
    + apply startswith_prefix in Hst as [b' Hb'].
      exists [], b'. split; [exact Hb'|]. intros. simpl. lia.
    + destruct a as [|c' a].
      * exfalso. assert (H : startswith sep (c :: s) = true)
          by (apply startswith_prefix; now exists b).
        congruence.
      * injection Hab as <- Hs.
        destruct IH as (a1 & b1 & Hs1 & Hmin); [now exists a, b|].
        exists (c :: a1), b1. split; [now rewrite Hs1|].
        intros a' b' Hab'. destruct a' as [|c'' a'].
        -- exfalso. assert (H : startswith sep (c :: s) = true)
             by (apply startswith_prefix; now exists b').
           congruence.
        -- injection Hab' as _ Hs'. simpl. specialize (Hmin a' b' Hs'). lia.
Qed.

Lemma parse_event_not_sliced (ev : event) : parse_event ev -> not_sliced ev.
Proof.
  destruct ev as [R c [e|a]]; [exact (fun _ => I)|].
  destruct c; simpl; auto; discriminate.
Qed.

(** A run that starts with events other than returned slices. *)
Lemma not_sliced_bind {A B} (Q : list event -> result B -> Prop)
    (m : M A) (k : A -> M B) :
  emits not_sliced m ->
  (forall a, traces Q (k a)) ->
  (forall d e, Forall not_sliced d -> Q d (inl e)) ->
  (forall d1 d2 r, Forall not_sliced d1 -> Q d2 r -> Q (d1 ++ d2) r) ->
  traces Q (bind m k).
Proof.
  intros Hm Hk Hl Hr.
  apply (traces_bind _ (fun _ => Q) _ m k Hm Hk); eauto.
Qed.

(** With a non-empty response template that lacks the marker,
    [create_agent_executor] raises, and raises [IndexError] once the
    [observation] slice has been returned. *)
Lemma create_agent_executor_without_marker (self : Agent.t)
    (tools : option (list obj)) (template : str) :
  Agent.response_template self = Some template ->
  template <> [] ->
  ~ contains response_marker template ->
  traces
    (fun d r =>
       (exists e, r = inl e)
       /\ forall key observation,
           In (Ev (I18N_slice (Agent.i18n self) key) (inr observation)) d ->
           r = inl (PyExn IndexError "list index out of range")
           /\ exists d0,
               d = d0 ++ [Ev (I18N_slice (Agent.i18n self) (py "observation"))
                            (inr observation)])
    (create_agent_executor self tools).
Proof.
  intros Htemplate Hne Habs.
  set (Q := fun (d : list event) (r : result unit) =>
              (exists e, r = inl e)
              /\ forall key observation,
                  In (Ev (I18N_slice (Agent.i18n self) key) (inr observation)) d ->
                  r = inl (PyExn IndexError "list index out of range")
                  /\ exists d0,
                      d = d0 ++ [Ev (I18N_slice (Agent.i18n self)
                                       (py "observation"))
                                   (inr observation)]).
  assert (Hnot : forall d key observation,
             Forall not_sliced d ->
             ~ In (Ev (I18N_slice (Agent.i18n self) key) (inr observation)) d).
  { intros d key observation HF Hin. rewrite Forall_forall in HF.
    exact (HF _ Hin). }
  assert (Hl : forall d e, Forall not_sliced d -> Q d (inl e)).
  { intros d e HF. split; [now exists e|].
    intros key observation Hin. now apply Hnot in Hin. }
  assert (Hr : forall d1 d2 r, Forall not_sliced d1 -> Q d2 r -> Q (d1 ++ d2) r).
  { intros d1 d2 r HF [He HQ]. split; [exact He|].
    intros key observation Hin. apply in_app_or in Hin as [Hin|Hin].
    - now apply Hnot in Hin.
    - destruct (HQ key observation Hin) as [-> [d0 ->]]. split; [reflexivity|].
      exists (d1 ++ d0). now rewrite app_assoc. }
  unfold create_agent_executor.
  apply not_sliced_bind; auto.
  { apply emits_parse_tools, parse_event_not_sliced. }
  intros parsed.
  do 3 (apply not_sliced_bind; auto;
        [apply emits_call; intros [?|?]; exact I | intros]).
  intros s. cbv beta delta [bind call].
  destruct (env _ (I18N_slice (Agent.i18n self) (py "observation")) (world s))
    as [[e|observation] w]; cbv beta iota.
  - exists [Ev (I18N_slice (Agent.i18n self) (py "observation")) (inl e)].
    split; [reflexivity|]. apply Hl. repeat constructor.
  - rewrite Htemplate, (stop_words_of_absent observation template Hne Habs).
    unfold lift, raise. cbv beta iota.
    exists [Ev (I18N_slice (Agent.i18n self) (py "observation"))
              (inr observation)].
    split; [reflexivity|]. split; [eexists; reflexivity|].
    intros key observation' [Heq|[]]. split; [reflexivity|].
    exists []. simpl.
    pose (slice_of := fun ev : event =>
            match ev with
            | Ev c (inr a) =>
                match c in ext T return T -> option str with
                | I18N_slice _ _ => fun text => Some text
                | _ => fun _ => None
                end a
            | Ev _ (inl _) => None
            end).
    apply (f_equal slice_of) in Heq. simpl in Heq. now injection Heq as ->.
Qed.

(** C9, as amended: let the response template be a non-empty string.  If
    the marker does not occur in it, [create_agent_executor] raises, and
    what it raises once the [observation] slice has been returned is
    [IndexError].  If the marker occurs, it has a first occurrence, and when
    [create_agent_executor] returns, the stop words bound to the model are
    the [observation] slice followed by the stripped text that lies between
    that first occurrence and the next one (the rest of the template when
    there is no next one). *)
Theorem stop_words_from_response_template
    (self : Agent.t) (tools : option (list obj)) (s : State) (template : str) :
  Agent.response_template self = Some template ->
  template <> [] ->
  (~ contains response_marker template ->
   (exists e, fst (create_agent_executor self tools s) = inl e)
   /\ forall observation,
       In (Ev (I18N_slice (Agent.i18n self) (py "observation"))
             (inr observation))
         (new_events (create_agent_executor self tools) s) ->
       fst (create_agent_executor self tools s)
       = inl (PyExn IndexError "list index out of range"))
  /\ (contains response_marker template ->
      exists a b, split_at_first response_marker template a b)
  /\ (forall a b,
         split_at_first response_marker template a b ->
         (fst (create_agent_executor self tools s) = inr tt ->
          exists observation bound d0 d1,
            new_events (create_agent_executor self tools) s
            = d0
              ++ [ Ev (I18N_slice (Agent.i18n self) (py "observation"))
                     (inr observation);
                   Ev (LLM_bind (Agent.llm self)
                         [observation;
                          strip (hd [] (str_split b response_marker))])
                     (inr bound) ]
              ++ d1)
         /\ (~ contains response_marker b ->
             hd [] (str_split b response_marker) = b)
         /\ (forall b1 b2,
                split_at_first response_marker b b1 b2 ->
                hd [] (str_split b response_marker) = b1)).
Proof.
  intros Htemplate Hne. split; [|split].
  - intros Habs.
    destruct (traces_new_events _ _
                (create_agent_executor_without_marker self tools template
                   Htemplate Hne Habs) s) as [He Hobs].
    split; [exact He|]. intros observation Hin.
    exact (proj1 (Hobs _ _ Hin)).
  - apply contains_first.
  - intros a b Hfirst. split; [|split].
    + intros Hret.
      destruct (create_agent_executor_events self tools s Hret)
        as (parsed & stop & prompts & prompt & ep & bound & r1 & r2 & parser
            & inner & ra & ex & obs & _ & Hstop & Hev & _).
      rewrite Htemplate, (stop_words_of_present obs template a b Hfirst) in Hstop.
      injection Hstop as <-.
      exists obs, bound.
      eexists (new_events _ s ++ [_; _; _]). eexists [_; _; _; _; _; _].
      rewrite Hev. unfold construction_events. rewrite <- app_assoc.
      reflexivity.
    + intros Habs. now rewrite str_split_absent.
    + intros b1 b2 Hb.
      now rewrite (str_split_first _ _ _ _ response_marker_nonempty Hb).
Qed.


(** ** Runs against collaborators that do not raise *)

Lemma bind_run {A B} (m : M A) (k : A -> M B) (s s1 : State) (a : A) :
  m s = (inr a, s1) -> bind m k s = k a s1.
Proof. unfold bind. now intros ->. Qed.

Lemma call_returns {R} (c : ext R) (s : State) :
  (forall T (c' : ext T) w, exists a, fst (env T c' w) = inr a) ->
  exists a s1, call c s = (inr a, s1).
Proof.
  intros Henv. unfold call. destruct (Henv R c (world s)) as [a Ha].
  destruct (env R c (world s)) as [outcome w]. simpl in Ha. subst outcome.
  eauto.
Qed.

Lemma convert_loop_returns (tools : list obj) :
  (forall T (c' : ext T) w, exists a, fst (env T c' w) = inr a) ->
  forall tools_list s,
    exists out s1, convert_loop tools tools_list s = (inr (out, None), s1).
Proof.
  intros Henv. induction tools as [|tool rest IH]; intros tools_list s; simpl.
  - unfold ret. eauto.
  - destruct (isinstance_CrewAITool tool); [|apply IH].
    destruct (call_returns (Tool_to_langchain tool) s Henv) as (a & s1 & Hc).
    unfold bind, attempt. rewrite Hc. apply IH.
Qed.

Lemma parse_tools_returns (l : list obj) (s : State) :
  (forall T (c' : ext T) w, exists a, fst (env T c' w) = inr a) ->
  exists parsed s1, _parse_tools (Some l) s = (inr parsed, s1).
Proof.
  intros Henv. unfold _parse_tools.
  destruct (call_returns Import_crewai_tools s Henv) as ([] & s1 & Hc).
  destruct (convert_loop_returns l Henv [] s1) as (out & s2 & Hl).
  unfold bind, attempt. rewrite Hc. simpl. rewrite Hl. unfold ret. eauto.
Qed.

(** [create_agent_executor] returns when no collaborator raises, the
    effective tools are a list, and the response template is unset, empty or
    contains the marker. *)
Lemma create_agent_executor_returns (self : Agent.t)
    (tools : option (list obj)) (s : State) :
  (forall T (c' : ext T) w, exists a, fst (env T c' w) = inr a) ->
  (exists l, py_or tools (Agent.tools self) = Some l) ->
  (truthy_str (Agent.response_template self) = false
   \/ exists template,
       Agent.response_template self = Some template
       /\ contains response_marker template) ->
  fst (create_agent_executor self tools s) = inr tt.
Proof.
  intros Henv [l Hl] Htemplate. unfold create_agent_executor. rewrite Hl.
  assert (Hstop : forall observation,
             exists stop,
               stop_words_of observation (Agent.response_template self)
               = inr stop).
  { intros observation. destruct Htemplate as [H|(template & -> & H)].
    - rewrite (stop_words_of_unset observation _ H). eauto.
    - destruct (contains_first _ _ H) as (a & b & Hab).
      rewrite (stop_words_of_present observation template a b Hab). eauto. }
  destruct (parse_tools_returns l s Henv) as (parsed & s1 & H1).
  rewrite (bind_run _ _ _ _ _ H1).
  repeat match goal with
         | |- context [bind (call ?c) _ ?st] =>
             let a := fresh "a" in
             let s' := fresh "s" in
             let H := fresh "H" in
             destruct (call_returns c st Henv) as (a & s' & H);
             rewrite (bind_run _ _ _ _ _ H); clear H
         | |- context [bind (lift (stop_words_of ?o ?t)) _ ?st] =>
             let stop := fresh "stop" in
             let H := fresh "H" in
             destruct (Hstop o) as [stop H];
             rewrite H; unfold lift at 1;
             rewrite (bind_run _ _ st st stop eq_refl); clear H
         end.
  reflexivity.
Qed.

End Delegation.

(** ** Runs against the scripted collaborators *)

(** A run of [create_agent_executor] on the researcher: the configuration
    reaches the executor, which becomes the agent's. *)
Lemma create_agent_executor_forwards_configuration_run :
  exists d0 runnable_agent kw executor,
    new_events (create_agent_executor researcher None) (fresh_state true)
    = d0 ++ [Ev (CrewAgentExecutor_new runnable_agent kw) (inr executor)]
    /\ agent_executor
         (snd (create_agent_executor researcher None (fresh_state true)))
       = Some executor
    /\ forwards_configuration researcher kw.
Proof.
  apply (proj2 (create_agent_executor_forwards_configuration
                  researcher None (fresh_state true))).
  vm_compute. reflexivity.
Defined.

(** The same run, call by call after the tools are parsed. *)
Lemma execution_prompt_from_prompts_run :
  exists d0 parsed stop prompts prompt execution_prompt bound r1 r2 parser
         inner_agent runnable_agent executor observation,
    Forall parse_event d0
    /\ new_events (create_agent_executor researcher None) (fresh_state true)
       = d0 ++ construction_events researcher (Agent.tools researcher) parsed
                 stop prompts prompt execution_prompt bound r1 r2 parser
                 inner_agent runnable_agent executor observation.
Proof.
  assert (Hret : fst (create_agent_executor researcher None (fresh_state true))
                 = inr tt) by (vm_compute; reflexivity).
  exact (proj2 (proj2 (execution_prompt_from_prompts researcher None
                         (fresh_state true) Hret))).
Defined.

(** C6 as stated fails: when a list of tools is given, as [execute_task]
    gives the task's tools, [Prompts] is built from that list and not from
    the agent's tools. *)
Lemma prompts_built_from_the_tools_given :
  let given := Some [2]%N in
  Agent.tools researcher = Some [1; 100]%N
  /\ In (Ev (Prompts_new 20%N given None None None) (inr 1000%N))
       (new_events (create_agent_executor researcher given) (fresh_state true))
  /\ (forall prompts,
         ~ In (Ev (Prompts_new 20%N (Agent.tools researcher) None None None)
                 prompts)
             (new_events (create_agent_executor researcher given)
                (fresh_state true)))
  /\ In (Ev (Prompts_new 20%N given None None None) (inr 1001%N))
       (new_events (execute_task researcher 7%N None given) (fresh_state true)).
Proof.
  pose (built_from := fun ev : event =>
          match ev with
          | Ev c _ =>
              match c with
              | Prompts_new _ tools _ _ _ => Some tools
              | _ => None
              end
          end).
  intros given. split; [reflexivity|]. split; [|split].
  - vm_compute. right. left. reflexivity.
  - assert (Hd : map built_from
                   (new_events (create_agent_executor researcher given)
                      (fresh_state true))
                 = None :: Some given :: repeat None 10)
      by (vm_compute; reflexivity).
    intros prompts Hin. apply (in_map built_from) in Hin.
    rewrite Hd in Hin. simpl in Hin.
    repeat (destruct Hin as [Hin|Hin]; [discriminate Hin|]).
    exact Hin.
  - vm_compute. do 7 right. left. reflexivity.
Qed.

(** C2 as stated fails: the researcher's second tool is a tool of
    [crewai_tools]; the executor is given the list unchanged as
    [original_tools], but as [tools] a list whose second element is the
    object that the tool's [to_langchain()] returned. *)
Lemma tools_argument_is_parsed_not_verbatim :
  let given := [1; 100]%N in
  let kw := executor_args researcher (Some given) [1; 1000]%N in
  In (Ev (CrewAgentExecutor_new 1009%N kw) (inr 1010%N))
    (new_events (create_agent_executor researcher (Some given))
       (fresh_state true))
  /\ Executor.original_tools kw = Some given
  /\ Executor.tools kw <> given.
Proof.
  split; [|split].
  - vm_compute. do 12 right. left. reflexivity.
  - reflexivity.
  - discriminate.
Qed.

(** The amended C2 on that run. *)
Lemma tools_forwarded_after_parsing_run :
  exists l runnable_agent kw executor,
    Some [1; 100]%N = Some l
    /\ In (Ev (CrewAgentExecutor_new runnable_agent kw) (inr executor))
         (new_events (create_agent_executor researcher (Some [1; 100]%N))
            (fresh_state true))
    /\ Executor.original_tools kw = Some [1; 100]%N.
Proof.
  destruct (tools_forwarded_after_parsing researcher (Some [1; 100]%N)
              (fresh_state true)) as [Horig Hret].
  destruct Hret as (l & ra & kw & ex & Hl & Hin & _);
    [vm_compute; reflexivity|].
  exists l, ra, kw, ex. split; [exact Hl|]. split; [exact Hin|].
  exact (Horig ra kw (inr ex) Hin).
Defined.




(** C7 as stated fails: the memory component returns "Earlier findings";
    what the memory step appends to the prompt is the [memory] slice of the
    translations with that text in it, not the text alone, and that prompt
    is the input of [invoke]. *)
Lemma memory_is_appended_inside_the_slice :
  let prompt := py "Summarise the report" in
  let mem := py "Earlier findings" in
  let appended :=
    newline ++ newline ++ py "# Useful context: " ++ newline ++ mem in
  In (Ev (ContextualMemory_build_context_for_task 1000%N 7%N None) (inr mem))
    (new_events (memory_step researcher 7%N None prompt) (fresh_state true))
  /\ fst (memory_step researcher 7%N None prompt (fresh_state true))
     = inr (prompt ++ appended)
  /\ appended <> mem
  /\ In (Ev (Executor_invoke 1012%N
               [(py "input", prompt ++ appended);
                (py "tool_names", py "search, search");
                (py "tools", py "search: looks things up")])
           (inr [(py "output", py "done")]))
       (new_events (execute_task researcher 7%N None None) (fresh_state true)).
Proof.
  intros prompt mem appended.
  split; [vm_compute; right; left; reflexivity|].
  split; [vm_compute; reflexivity|].
  split; [vm_compute; discriminate|].
  vm_compute. do 27 right. left. reflexivity.
Qed.

(** The amended C7 on that run. *)
Lemma memory_appended_through_slice_run :
  exists contextual_memory mem rest,
    new_events
      (memory_step researcher 7%N None (py "Summarise the report"))
      (fresh_state true)
    = Ev (ContextualMemory_new 11%N 12%N 13%N) (inr contextual_memory)
      :: Ev (ContextualMemory_build_context_for_task contextual_memory 7%N None)
           (inr mem)
      :: rest
    /\ rest <> [].
Proof.
  destruct (memory_appended_through_slice researcher 7%N None None
              (py "Summarise the report") (fresh_state true))
    as (_ & Hmem & _).
  destruct (Hmem research_crew
              (py "Summarise the report" ++ newline ++ newline
               ++ py "# Useful context: " ++ newline ++ py "Earlier findings")
              eq_refl eq_refl)
    as (cm & mem & rest & Hev & Hcases); [vm_compute; reflexivity|].
  exists cm, mem, rest. split; [exact Hev|].
  destruct Hcases as [(_ & _ & Hp)|(_ & template & text & -> & _)].
  - exfalso. revert Hp. vm_compute. discriminate.
  - discriminate.
Defined.

(** C9 as stated fails twice.  A template in which the marker occurs two
    times gives as stop word the text up to the second occurrence, not the
    text after the first; and with the empty string as template, which
    lacks the marker, [create_agent_executor] returns. *)
Lemma stop_word_ends_at_next_marker :
  let template := py "a{{ .Response }}b{{ .Response }}c" in
  let after_first := py "b{{ .Response }}c" in
  split_at_first response_marker template (py "a") after_first
  /\ In (Ev (LLM_bind 40%N [newline ++ py "Observation"; py "b"]) (inr 1004%N))
       (new_events
          (create_agent_executor (with_response_template template researcher)
             None)
          (fresh_state true))
  /\ strip after_first <> py "b"
  /\ fst (create_agent_executor (with_response_template [] researcher) None
            (fresh_state true))
     = inr tt.
Proof.
  intros template after_first.
  split; [|split; [|split]].
  - split; [vm_compute; reflexivity|].
    intros a' b' H. destruct a' as [|c a']; [|simpl; lia].
    vm_compute in H. discriminate H.
  - vm_compute. do 6 right. left. reflexivity.
  - vm_compute. discriminate.
  - vm_compute. reflexivity.
Qed.

(** The amended C9 on two runs: a template that ends a response with a
    closing tag, and a template without the marker. *)
Lemma stop_words_from_response_template_run :
  (exists observation bound d0 d1,
      new_events
        (create_agent_executor
           (with_response_template (py "{{ .Response }}<|im_end|>") researcher)
           None)
        (fresh_state true)
      = d0
        ++ [ Ev (I18N_slice 20%N (py "observation")) (inr observation);
             Ev (LLM_bind 40%N
                   [observation;
                    strip (hd [] (str_split (py "<|im_end|>") response_marker))])
               (inr bound) ]
        ++ d1)
  /\ exists e,
      fst (create_agent_executor
             (with_response_template (py "Answer:") researcher) None
             (fresh_state true))
      = inl e.
Proof.
  split.
  - assert (Hne : py "{{ .Response }}<|im_end|>" <> [])
      by (vm_compute; discriminate).
    assert (Hfirst : split_at_first response_marker
                       (py "{{ .Response }}<|im_end|>") [] (py "<|im_end|>")).
    { split; [vm_compute; reflexivity|]. intros. simpl. lia. }
    destruct (stop_words_from_response_template
                (with_response_template (py "{{ .Response }}<|im_end|>")
                   researcher)
                None (fresh_state true) _ eq_refl Hne)
      as (_ & _ & Hpresent).
    destruct (Hpresent [] (py "<|im_end|>") Hfirst) as (Hrun & _).
    apply Hrun. vm_compute. reflexivity.
  - assert (Hne : py "Answer:" <> []) by (vm_compute; discriminate).
    destruct (stop_words_from_response_template
                (with_response_template (py "Answer:") researcher)
                None (fresh_state true) _ eq_refl Hne)
      as (Habsent & _).
    apply Habsent. intros Hc. apply contains_str_contains in Hc.
    vm_compute in Hc. discriminate Hc.
Defined.


(** * Further properties *)

(** ** The agent's executor across the methods *)

Section SlotKept.

Context {C : Collaborators}.

Lemma keeps_ret {A} (a : A) : keeps (ret a).
Proof. intros s. reflexivity. Qed.

Lemma keeps_raise {A} (e : exn) : keeps (@raise _ A e).
Proof. intros s. reflexivity. Qed.

Lemma keeps_lift {A} (r : result A) : keeps (lift r).
Proof. destruct r; [apply keeps_raise | apply keeps_ret]. Qed.

Lemma keeps_call {R} (c : ext R) : keeps (call c).
Proof.
  intros s. unfold call. now destruct (env _ c (world s)).
Qed.

Lemma keeps_read (attr : string) : keeps (read_agent_executor attr).
Proof.
  intros s. unfold read_agent_executor.
  destruct (agent_executor s) eqn:E; simpl; auto.
Qed.

Lemma keeps_attempt {A} (m : M A) : keeps m -> keeps (attempt m).
Proof.
  intros H s. unfold attempt. specialize (H s). now destruct (m s).
Qed.

Lemma keeps_bind {A B} (m : M A) (k : A -> M B) :
  keeps m -> (forall a, keeps (k a)) -> keeps (bind m k).
Proof.
  intros Hm Hk s. unfold bind. specialize (Hm s).
  destruct (m s) as [[e|a] s1]; simpl in *; [exact Hm|].
  now rewrite (Hk a s1).
Qed.

Lemma keeps_convert_loop (tools : list obj) :
  forall tools_list, keeps (convert_loop tools tools_list).
Proof.
  induction tools as [|tool rest IH]; intros tools_list; simpl.
  - apply keeps_ret.
  - destruct (isinstance_CrewAITool tool); [|apply IH].
    apply keeps_bind; [apply keeps_attempt, keeps_call|].
    intros [e|converted]; [apply keeps_ret | apply IH].
Qed.

Lemma keeps_parse_tools (tools : option (list obj)) :
  keeps (_parse_tools tools).
Proof.
  unfold _parse_tools. apply keeps_bind.
  - apply keeps_bind; [apply keeps_attempt, keeps_call|].
    intros [e|[]]; [apply keeps_ret|].
    destruct (iterate tools); [apply keeps_ret | apply keeps_convert_loop].
  - intros [tools_list [e|]]; [|apply keeps_ret].
    destruct (is_ModuleNotFoundError e); [|apply keeps_raise].
    apply keeps_bind; [apply keeps_lift | intros; apply keeps_ret].
Qed.

Lemma keeps_tool_name_list (tools : list obj) : keeps (tool_name_list tools).
Proof.
  induction tools as [|t rest IH]; simpl; [apply keeps_ret|].
  apply keeps_bind; [apply keeps_call|]. intros n.
  apply keeps_bind; [exact IH|]. intros ns. apply keeps_ret.
Qed.

End SlotKept.

(** One step of a walk that follows [self.agent_executor]. *)
Ltac keeps_step :=
  first
    [ apply keeps_parse_tools
    | apply keeps_tool_name_list
    | apply keeps_bind; [|intros]
    | apply keeps_ret
    | apply keeps_raise
    | apply keeps_lift
    | apply keeps_read
    | apply keeps_call
    | match goal with
      | |- keeps (match ?x with _ => _ end) => destruct x
      end ].

Section SlotOfTheMethods.

Context {C : Collaborators}.

Lemma keeps_memory_step (self : Agent.t) (task : obj) (context : option str)
    (task_prompt : str) :
  keeps (memory_step self task context task_prompt).
Proof. unfold memory_step. repeat keeps_step. Qed.

Lemma keeps_tools_names (tools : list obj) : keeps (__tools_names tools).
Proof. unfold __tools_names. repeat keeps_step. Qed.

(** [create_agent_executor] assigns [self.agent_executor] only as its last
    step: when it raises, the executor the agent had is still there. *)
Lemma create_agent_executor_keeps_on_error (self : Agent.t)
    (tools : option (list obj)) (s : State) (e : exn) :
  fst (create_agent_executor self tools s) = inl e ->
  agent_executor (snd (create_agent_executor self tools s)) = agent_executor s.
Proof.
  assert (G : forall {A B} (m : M A) (k : A -> M B),
             keeps m ->
             (forall a s1 e1, fst (k a s1) = inl e1 ->
                              agent_executor (snd (k a s1)) = agent_executor s1) ->
             forall s1 e1, fst (bind m k s1) = inl e1 ->
                           agent_executor (snd (bind m k s1)) = agent_executor s1).
  { intros A B m k Hm Hk s1 e1. unfold bind. specialize (Hm s1).
    destruct (m s1) as [[e'|a] s2]; simpl in *; intros H; [exact Hm|].
    rewrite (Hk a s2 e1 H). exact Hm. }
  revert s e. unfold create_agent_executor.
  apply G; [apply keeps_parse_tools|]. intros parsed.
  do 4 (apply G; [apply keeps_call|]; intros ?).
  apply G; [apply keeps_lift|]. intros stop.
  do 7 (apply G; [apply keeps_call|]; intros ?).
  intros s1 e1 H. discriminate H.
Qed.

End SlotOfTheMethods.

(** ** The calls of [execute_task], one by one *)

Section ExecuteTaskTrace.

Context {C : Collaborators}.

Lemma run_trace {A} (P : event -> Prop) (m : M A) (s s1 : State)
    (r : result A) :
  emits P m -> m s = (r, s1) -> trace s1 = trace s ++ new_events m s.
Proof.
  intros Hm Hrun. destruct (run_extends P m Hm s r s1 Hrun) as [d Hd].
  now rewrite (new_events_run m s s1 r d Hrun Hd).
Qed.

Lemma run_keeps {A} (m : M A) (s s1 : State) (r : result A) :
  keeps m -> m s = (r, s1) -> agent_executor s1 = agent_executor s.
Proof. intros Hm Hrun. specialize (Hm s). now rewrite Hrun in Hm. Qed.

Lemma read_value (attr : string) (s s1 : State) (executor : obj) :
  read_agent_executor attr s = (inr executor, s1) ->
  agent_executor s = Some executor /\ s1 = s.
Proof.
  unfold read_agent_executor. destruct (agent_executor s); intros H.
  - injection H as -> <-. auto.
  - discriminate.
Qed.

Lemma tool_name_list_inr (tools : list obj) :
  forall s s1 names,
    tool_name_list tools s = (inr names, s1) ->
    List.length names = List.length tools
    /\ trace s1 = trace s ++ name_events tools names.
Proof.
  induction tools as [|t rest IH]; intros s s1 names H; simpl in H.
  - apply ret_inr in H as [<- ->]. split; [reflexivity|].
    now rewrite app_nil_r.
  - apply bind_inr in H as (n & sa & Hc & H). apply call_inr in Hc as [T1 _].
    apply bind_inr in H as (ns & sb & Hl & H). apply ret_inr in H as [<- ->].
    destruct (IH _ _ _ Hl) as [Hlen T2]. split; [simpl; now rewrite Hlen|].
    rewrite T2, T1, <- app_assoc. reflexivity.
Qed.

(** A run of [execute_task] that returns, call by call. *)
Lemma execute_task_trace (self : Agent.t) (task : obj) (context : option str)
    (tools : option (list obj)) (s s' : State) (result_ : str) :
  execute_task self task context tools s = (inr result_, s') ->
  let eff := py_or tools (Agent.tools self) in
  exists prompt prompt0 prompt1 s0 s1 s2 parsed executor description names
         output d_context,
    context_step_events self context prompt prompt0 d_context
    /\ memory_step self task context prompt0 s0 = (inr prompt1, s1)
    /\ _parse_tools (py_or eff (Some [])) s1 = (inr parsed, s2)
    /\ fst (create_agent_executor self eff s2) = inr tt
    /\ agent_executor (snd (create_agent_executor self eff s2)) = Some executor
    /\ List.length names = List.length parsed
    /\ trace s'
       = trace s ++ handler_events self
         ++ [Ev (Task_prompt task) (inr prompt)] ++ d_context
         ++ new_events (memory_step self task context prompt0) s0
         ++ new_events (_parse_tools (py_or eff (Some []))) s1
         ++ new_events (create_agent_executor self eff) s2
         ++ setup_events executor task parsed description
         ++ name_events parsed names
         ++ invoke_events executor prompt1 (str_join (py ", ") names)
              description output
         ++ stop_events self
    /\ dict_get output (py "output") = inr result_
    /\ agent_executor s' = Some executor.
Proof.
  intros H eff. unfold execute_task in H. fold eff in H.
  set (T := fun _ : Executor.t => True).
  apply bind_inr in H as (u1 & sa & H1 & H).
  assert (E1 : trace sa = trace s ++ handler_events self).
  { unfold handler_events. destruct (Agent.tools_handler self).
    - destruct u1. now apply call_inr in H1 as [E1 _].
    - apply ret_inr in H1 as [_ ->]. now rewrite app_nil_r. }
  apply bind_inr in H as (p & sb & H2 & H). apply call_inr in H2 as [E2 _].
  apply bind_inr in H as (p0 & s0 & H3 & H).
  assert (E3 : exists d, trace s0 = trace sb ++ d
                         /\ context_step_events self context p p0 d).
  { destruct context as [[|c ctx]|].
    - apply ret_inr in H3 as [<- ->]. exists []. rewrite app_nil_r.
      split; [reflexivity|]. left. auto.
    - apply bind_inr in H3 as (template & sc & Hs & H3).
      apply call_inr in Hs as [Es _]. apply lift_inr in H3 as [Hf ->].
      exists [Ev (I18N_slice (Agent.i18n self) (py "task_with_context"))
                (inr template)].
      split; [exact Es|]. right. exists (c :: ctx), template.
      repeat split; auto. discriminate.
    - apply ret_inr in H3 as [<- ->]. exists []. rewrite app_nil_r.
      split; [reflexivity|]. left. auto. }
  destruct E3 as (d3 & E3 & Hctx).
  apply bind_inr in H as (p1 & s1 & H4 & H).
  pose proof (run_trace _ _ _ _ _ (memory_step_plain T self task context p0) H4)
    as E4.
  apply bind_inr in H as (parsed & s2 & H5 & H).
  pose proof (run_trace (plain T) _ _ _ _
                (emits_parse_tools _ (parse_event_plain T) _) H5) as E5.
  apply bind_inr in H as (u6 & s3 & H6 & H). destruct u6.
  pose proof (run_trace (plain T) _ _ _ _
                (create_agent_executor_plain T self eff (fun _ => I)) H6) as E6.
  assert (K6 : exists executor, agent_executor s3 = Some executor).
  { destruct (create_agent_executor_inr self eff s2 s3 H6)
      as (? & ? & ? & ? & ? & ? & ? & ? & ? & ? & ? & ex & ? & _ & _ & _ & Hex).
    now exists ex. }
  destruct K6 as [ex K6].
  apply bind_inr in H as (ex1 & s4 & H7 & H). apply read_value in H7 as [V7 ->].
  apply bind_inr in H as (u8 & s5 & H8 & H). apply call_inr in H8 as [E8 K8].
  apply bind_inr in H as (ex2 & s6 & H9 & H). apply read_value in H9 as [V9 ->].
  apply bind_inr in H as (u10 & s7 & H10 & H). apply call_inr in H10 as [E10 K10].
  apply bind_inr in H as (desc & s8 & H11 & H). apply call_inr in H11 as [E11 K11].
  apply bind_inr in H as (ex3 & s9 & H12 & H). apply read_value in H12 as [V12 ->].
  apply bind_inr in H as (u13 & s10 & H13 & H). apply call_inr in H13 as [E13 K13].
  apply bind_inr in H as (names & s11 & H14 & H).
  pose proof (run_keeps _ _ _ _ (keeps_tools_names parsed) H14) as K14.
  unfold __tools_names in H14.
  apply bind_inr in H14 as (ns & s11' & Hn & H14).
  apply ret_inr in H14 as [<- ->].
  destruct (tool_name_list_inr parsed _ _ _ Hn) as [Hlen E14].
  apply bind_inr in H as (ex4 & s12 & H15 & H). apply read_value in H15 as [V15 ->].
  apply bind_inr in H as (u16 & s13 & H16 & H). apply call_inr in H16 as [E16 K16].
  apply bind_inr in H as (ex5 & s14 & H17 & H). apply read_value in H17 as [V17 ->].
  apply bind_inr in H as (output & s15 & H18 & H). apply call_inr in H18 as [E18 K18].
  apply bind_inr in H as (res & s16 & H19 & H). apply lift_inr in H19 as [Hout ->].
  apply bind_inr in H as (u20 & s17 & H20 & H). apply ret_inr in H as [-> Hs'].
  assert (E20 : trace s17 = trace s15 ++ stop_events self
                /\ agent_executor s17 = agent_executor s15).
  { unfold stop_events. destruct (truthy_int (Agent.max_rpm self)).
    - destruct (Agent._rpm_controller self) as [controller|].
      + destruct u20. apply call_inr in H20 as [E20 K20]. auto.
      + discriminate.
    - apply ret_inr in H20 as [_ ->]. rewrite app_nil_r. auto. }
  destruct E20 as [E20 K20].
  assert (ex1 = ex) by congruence.
  assert (ex2 = ex) by congruence.
  assert (ex3 = ex) by congruence.
  assert (ex4 = ex) by congruence.
  assert (ex5 = ex) by congruence.
  subst ex1 ex2 ex3 ex4 ex5. destruct u8, u10, u13, u16.
  exists p, p0, p1, s0, s1, s2, parsed, ex, desc, ns, output, d3.
  split; [exact Hctx|]. split; [exact H4|]. split; [exact H5|].
  split; [now rewrite H6|]. split; [now rewrite H6|]. split; [exact Hlen|].
  split; [|split; [exact Hout | congruence]].
  rewrite Hs', E20, E18, E16, E14, E13, E11, E10, E8, E6, E5, E4, E3, E2, E1.
  unfold setup_events, invoke_events.
  rewrite <- !app_assoc. cbn [app]. reflexivity.
Qed.

Lemma execute_task_events (self : Agent.t) (task : obj) (context : option str)
    (tools : option (list obj)) (s : State) (result_ : str) :
  fst (execute_task self task context tools s) = inr result_ ->
  let eff := py_or tools (Agent.tools self) in
  exists prompt prompt0 prompt1 s0 s1 s2 parsed executor description names
         output d_context,
    context_step_events self context prompt prompt0 d_context
    /\ memory_step self task context prompt0 s0 = (inr prompt1, s1)
    /\ _parse_tools (py_or eff (Some [])) s1 = (inr parsed, s2)
    /\ fst (create_agent_executor self eff s2) = inr tt
    /\ agent_executor (snd (create_agent_executor self eff s2)) = Some executor
    /\ List.length names = List.length parsed
    /\ new_events (execute_task self task context tools) s
       = handler_events self
         ++ [Ev (Task_prompt task) (inr prompt)] ++ d_context
         ++ new_events (memory_step self task context prompt0) s0
         ++ new_events (_parse_tools (py_or eff (Some []))) s1
         ++ new_events (create_agent_executor self eff) s2
         ++ setup_events executor task parsed description
         ++ name_events parsed names
         ++ invoke_events executor prompt1 (str_join (py ", ") names)
              description output
         ++ stop_events self
    /\ dict_get output (py "output") = inr result_
    /\ agent_executor (snd (execute_task self task context tools s))
       = Some executor.
Proof.
  intros Hret eff. apply run_inr in Hret.
  destruct (execute_task_trace self task context tools s _ result_ Hret)
    as (p & p0 & p1 & s0 & s1 & s2 & parsed & ex & desc & ns & output & d3
        & H1 & H2 & H3 & H4 & H5 & H6 & H7 & H8 & H9).
  exists p, p0, p1, s0, s1, s2, parsed, ex, desc, ns, output, d3.
  repeat (split; [assumption|]). split; [|split; assumption].
  now apply new_events_of.
Qed.

End ExecuteTaskTrace.

(** ** More on [_parse_tools] *)

Section ParseTools.

Context {C : Collaborators}.

(** The loop of the [try], with what it leaves in [tools_list]: one element
    more per tool when it ends normally, and when a conversion raised, one
    per tool before the one whose conversion raised. *)
Lemma convert_loop_outcome (tools : list obj) :
  forall tools_list s,
    exists out raised_ d,
      fst (convert_loop tools tools_list s) = inr (out, raised_)
      /\ trace (snd (convert_loop tools tools_list s)) = trace s ++ d
      /\ Forall (fun ev => is_import ev = false) d
      /\ match raised_ with
         | None =>
             Forall (fun ev => raised ev = None) d
             /\ List.length out = List.length tools_list + List.length tools
             /\ (Forall (fun t => isinstance_CrewAITool t = false) tools ->
                 d = [] /\ out = tools_list ++ tools)
         | Some e =>
             exists d0 t ps,
               d = d0 ++ [Ev (Tool_to_langchain t) (inl e)]
               /\ Forall (fun ev => raised ev = None) d0
               /\ In t tools /\ isinstance_CrewAITool t = true
               /\ out = tools_list ++ ps
               /\ List.length ps < List.length tools
               /\ exists pre post,
                   tools = pre ++ t :: post
                   /\ Forall2 (parsed_from d0) pre ps
         end.
Proof.
  induction tools as [|tool rest IH]; intros tools_list s; simpl.
  - exists tools_list, None, []. rewrite !app_nil_r.
    split; [reflexivity|]. split; [reflexivity|]. split; [constructor|].
    split; [constructor|]. split; [simpl; lia | auto].
  - destruct (isinstance_CrewAITool tool) eqn:Hinst.
    + unfold bind, attempt, call.
      destruct (env _ (Tool_to_langchain tool) (world s)) as [[e|converted] w].
      * exists tools_list, (Some e), [Ev (Tool_to_langchain tool) (inl e)].
        simpl. split; [reflexivity|]. split; [reflexivity|].
        split; [repeat constructor|].
        exists [], tool, []. rewrite app_nil_r.
        split; [reflexivity|]. split; [constructor|]. split; [now left|].
        split; [exact Hinst|]. split; [reflexivity|]. split; [simpl; lia|].
        exists [], rest. split; [reflexivity | constructor].
      * match goal with |- context [convert_loop rest ?acc ?s1] =>
          destruct (IH acc s1) as (out & r' & d & Hr & Hd & Himp & Hpost)
        end.
        exists out, r', (Ev (Tool_to_langchain tool) (inr converted) :: d).
        split; [exact Hr|]. split; [simpl in Hd; now rewrite Hd, <- app_assoc|].
        split; [constructor; [reflexivity | exact Himp]|].
        destruct r' as [e|].
        -- destruct Hpost as (d0 & t & ps & -> & Hd0 & Hin & Ht & -> & Hlen
                              & pre & post & -> & Hpre).
           exists (Ev (Tool_to_langchain tool) (inr converted) :: d0), t,
             (converted :: ps).
           split; [reflexivity|].
           split; [constructor; [reflexivity | exact Hd0]|].
           split; [now right|]. split; [exact Ht|].
           split; [now rewrite <- app_assoc|]. split; [simpl; lia|].
           exists (tool :: pre), post. split; [reflexivity|].
           constructor.
           ++ unfold parsed_from. rewrite Hinst. now left.
           ++ eapply Forall2_impl; [|exact Hpre].
              intros a b. apply parsed_from_more. intros ev Hev. now right.
        -- destruct Hpost as (Hd0 & Hlen & _).
           split; [constructor; [reflexivity | exact Hd0]|].
           split; [rewrite Hlen, length_app; simpl; lia|].
           intros HF. inversion HF; subst. congruence.
    + destruct (IH (tools_list ++ [tool]) s)
        as (out & r' & d & Hr & Hd & Himp & Hpost).
      exists out, r', d. split; [exact Hr|]. split; [exact Hd|].
      split; [exact Himp|].
      destruct r' as [e|].
      * destruct Hpost as (d0 & t & ps & -> & Hd0 & Hin & Ht & -> & Hlen
                           & pre & post & -> & Hpre).
        exists d0, t, (tool :: ps).
        split; [reflexivity|]. split; [exact Hd0|]. split; [now right|].
        split; [exact Ht|]. split; [now rewrite <- app_assoc|].
        split; [simpl; lia|].
        exists (tool :: pre), post. split; [reflexivity|].
        constructor; [|exact Hpre]. unfold parsed_from. now rewrite Hinst.
      * destruct Hpost as (Hd0 & Hlen & Hid).
        split; [exact Hd0|]. split; [rewrite Hlen, length_app; simpl; lia|].
        intros HF. inversion HF; subst.
        destruct (Hid H2) as [-> ->]. split; [reflexivity|].
        now rewrite <- app_assoc.
Qed.

(** Every run of [_parse_tools], by its cases. *)
Lemma parse_tools_cases (tools : option (list obj)) (s : State) :
  exists imported dl,
    new_events (_parse_tools tools) s = Ev Import_crewai_tools imported :: dl
    /\ Forall (fun ev => is_import ev = false) dl
    /\ match imported with
       | inl e =>
           dl = []
           /\ fst (_parse_tools tools s)
              = (if is_ModuleNotFoundError e
                 then iterate tools
                 else inl e)
       | inr _ =>
           match tools with
           | None =>
               dl = []
               /\ fst (_parse_tools tools s)
                  = inl (PyExn TypeError "'NoneType' object is not iterable")
           | Some l =>
               (Forall (fun ev => raised ev = None) dl
                /\ exists parsed,
                    fst (_parse_tools tools s) = inr parsed
                    /\ List.length parsed = List.length l
                    /\ (Forall (fun t => isinstance_CrewAITool t = false) l ->
                        dl = [] /\ parsed = l))
               \/ exists d0 t e ps,
                   dl = d0 ++ [Ev (Tool_to_langchain t) (inl e)]
                   /\ Forall (fun ev => raised ev = None) d0
                   /\ In t l /\ isinstance_CrewAITool t = true
                   /\ List.length ps < List.length l
                   /\ fst (_parse_tools tools s)
                      = (if is_ModuleNotFoundError e
                         then inr (ps ++ l)
                         else inl e)
                   /\ exists pre post,
                       l = pre ++ t :: post
                       /\ Forall2 (parsed_from d0) pre ps
           end
       end.
Proof.
  assert (Hskip : forall t d : list event, skipn (List.length t) (t ++ d) = d).
  { intros t d. now rewrite skipn_app, skipn_all, Nat.sub_diag. }
  unfold new_events, _parse_tools.
  cbv beta delta [bind attempt call ret raise lift].
  destruct (env _ Import_crewai_tools (world s)) as [[e|[]] w]; cbv beta iota.
  - exists (inl e), [].
    destruct (is_ModuleNotFoundError e); destruct tools as [l|]; simpl;
      (split; [apply Hskip|]); (split; [constructor|]); split; reflexivity.
  - destruct tools as [l|]; simpl.
    + match goal with |- context [convert_loop l [] ?s1] =>
        destruct (convert_loop_outcome l [] s1)
          as (out & r' & dl & Hr & Hd & Himp & Hpost);
        destruct (convert_loop l [] s1) as [r1 s2]
      end.
      simpl in Hd, Hr. subst r1. exists (inr tt), dl.
      destruct r' as [e|].
      * destruct Hpost as (d0 & t & ps & -> & Hd0 & Hin & Ht' & -> & Hlen
                           & pre & post & Hl & Hpre).
        destruct (is_ModuleNotFoundError e) eqn:He; simpl;
          (split; [rewrite Hd, <- app_assoc; apply Hskip|]);
          (split; [exact Himp|]);
          right; exists d0, t, e, ps; rewrite He;
          (split; [reflexivity|]); (split; [exact Hd0|]);
          (split; [exact Hin|]); (split; [exact Ht'|]);
          (split; [exact Hlen|]); (split; [reflexivity|]);
          exists pre, post; (split; [exact Hl | exact Hpre]).
      * destruct Hpost as (Hd0 & Hlen & Hid). simpl.
        split; [rewrite Hd, <- app_assoc; apply Hskip|].
        split; [exact Himp|].
        left. split; [exact Hd0|]. exists out.
        split; [reflexivity|]. split; [exact Hlen|]. exact Hid.
    + exists (inr tt), []. split; [apply Hskip|].
      split; [constructor|]. split; reflexivity.
Qed.

(** What [_parse_tools] makes of a conversion that raises. *)
Lemma conversion_failure_outcome
    (l : list obj) (s : State) (t : obj) (e : exn) :
  In (Ev (Tool_to_langchain t) (inl e)) (new_events (_parse_tools (Some l)) s) ->
  In t l
  /\ isinstance_CrewAITool t = true
  /\ exists pre post ps,
      l = pre ++ t :: post
      /\ Forall2 (parsed_from (new_events (_parse_tools (Some l)) s)) pre ps
      /\ List.length ps < List.length l
      /\ fst (_parse_tools (Some l) s)
         = if is_ModuleNotFoundError e then inr (ps ++ l) else inl e.
Proof.
  intros Hin.
  destruct (parse_tools_cases (Some l) s) as (imported & dl & Hev & _ & Hcases).
  rewrite Hev in Hin. destruct Hin as [Heq|Hin].
  { apply (f_equal is_import) in Heq. discriminate. }
  assert (Hraised : forall d,
             Forall (fun ev => raised ev = None) d ->
             ~ In (Ev (Tool_to_langchain t) (inl e)) d).
  { intros d HF H. rewrite Forall_forall in HF. specialize (HF _ H).
    discriminate. }
  destruct imported as [e'|u].
  - destruct Hcases as [-> _]. destruct Hin.
  - destruct Hcases as [(Hd0 & _)
                       |(d0 & t' & e'' & ps & -> & Hd0 & Hin' & Ht & Hlen & Hr
                         & pre & post & Hl & Hpre)].
    + now apply Hraised in Hin.
    + apply in_app_or in Hin as [Hin|[Heq|[]]]; [now apply Hraised in Hin|].
      assert (Hfst : raised (Ev (Tool_to_langchain t') (inl e''))
                     = raised (Ev (Tool_to_langchain t) (inl e)))
        by now rewrite Heq.
      simpl in Hfst. injection Hfst as ->.
      pose (tool_of := fun ev : event =>
              match ev with
              | Ev c _ =>
                  match c with
                  | Tool_to_langchain tool => Some tool
                  | _ => None
                  end
              end).
      apply (f_equal tool_of) in Heq. simpl in Heq. injection Heq as ->.
      split; [exact Hin'|]. split; [exact Ht|]. exists pre, post, ps.
      split; [exact Hl|]. split; [|split; [exact Hlen | exact Hr]].
      rewrite Hev. eapply Forall2_impl; [|exact Hpre].
      intros a b. apply parsed_from_more. intros ev Hev'.
      right. apply in_or_app. now left.
Qed.

(** The list returned is never shorter than the list given. *)
Lemma parse_tools_length (l parsed : list obj) (s : State) :
  fst (_parse_tools (Some l) s) = inr parsed ->
  List.length l <= List.length parsed.
Proof.
  intros Hret.
  destruct (parse_tools_cases (Some l) s) as (imported & dl & _ & _ & Hcases).
  destruct imported as [e|u].
  - destruct Hcases as [_ Hr]. rewrite Hr in Hret.
    destruct (is_ModuleNotFoundError e); [|discriminate].
    simpl in Hret. injection Hret as <-. lia.
  - destruct Hcases as [(_ & parsed' & Hr & Hlen & _)
                       |(d0 & t & e & ps & _ & _ & _ & _ & _ & Hr & _)].
    + rewrite Hr in Hret. injection Hret as <-. lia.
    + rewrite Hr in Hret. destruct (is_ModuleNotFoundError e); [|discriminate].
      injection Hret as <-. rewrite length_app. lia.
Qed.

End ParseTools.

Section ParseToolsProperties.

Context {C : Collaborators}.

(** X1: tools that are not tools of [crewai_tools] pass through
    [_parse_tools] untouched, whether the package is installed or not: the
    only call is the import, and the list itself is returned unless the
    import raised something other than a [ModuleNotFoundError], which
    propagates. *)
Theorem parse_tools_passes_other_tools (l : list obj) (s : State) :
  Forall (fun t => isinstance_CrewAITool t = false) l ->
  exists imported,
    new_events (_parse_tools (Some l)) s = [Ev Import_crewai_tools imported]
    /\ fst (_parse_tools (Some l) s)
       = match imported with
         | inr _ => inr l
         | inl e => if is_ModuleNotFoundError e then inr l else inl e
         end.
Proof.
  intros Hl.
  destruct (parse_tools_cases (Some l) s) as (imported & dl & Hev & _ & Hcases).
  exists imported. destruct imported as [e|u].
  - destruct Hcases as [-> Hr]. split; [exact Hev|]. rewrite Hr.
    now destruct (is_ModuleNotFoundError e).
  - destruct Hcases as [(_ & parsed & Hr & _ & Hid)
                       |(d0 & t & e & ps & _ & _ & Hin & Ht & _)].
    + destruct (Hid Hl) as [-> ->]. auto.
    + rewrite Forall_forall in Hl. rewrite (Hl t Hin) in Ht. discriminate.
Qed.

(** X2: when [_parse_tools] returns and no conversion raised, the list it
    returns has as many elements as the list it was given. *)
Theorem parse_tools_keeps_length (l parsed : list obj) (s : State) :
  fst (_parse_tools (Some l) s) = inr parsed ->
  (forall t e,
      ~ In (Ev (Tool_to_langchain t) (inl e))
          (new_events (_parse_tools (Some l)) s)) ->
  List.length parsed = List.length l.
Proof.
  intros Hret Hno.
  destruct (parse_tools_cases (Some l) s) as (imported & dl & Hev & _ & Hcases).
  destruct imported as [e|u].
  - destruct Hcases as [_ Hr]. rewrite Hr in Hret.
    destruct (is_ModuleNotFoundError e); [|discriminate].
    simpl in Hret. now injection Hret as <-.
  - destruct Hcases as [(_ & parsed' & Hr & Hlen & _)
                       |(d0 & t & e & ps & -> & _)].
    + rewrite Hr in Hret. now injection Hret as <-.
    + exfalso. apply (Hno t e). rewrite Hev. right.
      apply in_or_app. right. now left.
Qed.

(** X3: when a conversion raises a [ModuleNotFoundError], the [except]
    branch appends the whole list given to what the loop had already
    appended: [_parse_tools] returns, for the tools before the one whose
    conversion raised, element for element the tool itself or what its
    [to_langchain()] returned, followed by every tool given, unconverted;
    any other exception of a conversion propagates. *)
Theorem parse_tools_after_failed_conversion
    (l : list obj) (s : State) (t : obj) (e : exn) :
  In (Ev (Tool_to_langchain t) (inl e)) (new_events (_parse_tools (Some l)) s) ->
  In t l
  /\ isinstance_CrewAITool t = true
  /\ exists pre post ps,
      l = pre ++ t :: post
      /\ Forall2 (parsed_from (new_events (_parse_tools (Some l)) s)) pre ps
      /\ List.length ps < List.length l
      /\ fst (_parse_tools (Some l) s)
         = if is_ModuleNotFoundError e then inr (ps ++ l) else inl e.
Proof. apply conversion_failure_outcome. Qed.

(** X4: [_parse_tools(None)] never returns.  It raises the [TypeError] of
    iterating [None], in the [try] when the import succeeded and in the
    [except] branch when the import raised [ModuleNotFoundError]; any other
    exception of the import propagates. *)
Theorem parse_tools_none_raises (s : State) :
  exists imported,
    new_events (_parse_tools None) s = [Ev Import_crewai_tools imported]
    /\ fst (_parse_tools None s)
       = match imported with
         | inr _ => inl (PyExn TypeError "'NoneType' object is not iterable")
         | inl e =>
             if is_ModuleNotFoundError e
             then inl (PyExn TypeError "'NoneType' object is not iterable")
             else inl e
         end.
Proof.
  destruct (parse_tools_cases None s) as (imported & dl & Hev & _ & Hcases).
  exists imported. destruct imported as [e|u].
  - destruct Hcases as [-> Hr]. split; [exact Hev|]. exact Hr.
  - destruct Hcases as [-> Hr]. auto.
Qed.

End ParseToolsProperties.

(** ** More on [execute_task] *)

Section ExecuteTaskProperties.

Context {C : Collaborators}.

Lemma ordinary_filters (d : list event) :
  Forall ordinary d ->
  filter is_construction_or_invoke d = [] /\ filter is_import d = [].
Proof.
  induction 1 as [|ev d [H1 H2] _ [IH1 IH2]]; [auto|].
  simpl. now rewrite H1, H2.
Qed.

Lemma ordinary_handler_events (self : Agent.t) :
  Forall ordinary (handler_events self).
Proof.
  unfold handler_events. destruct (Agent.tools_handler self);
    repeat constructor.
Qed.

Lemma ordinary_context_step (self : Agent.t) (context : option str)
    (p p0 : str) (d : list event) :
  context_step_events self context p p0 d -> Forall ordinary d.
Proof.
  intros [(_ & -> & _)|(ctx & template & _ & _ & -> & _)]; repeat constructor.
Qed.

Lemma ordinary_memory_step (self : Agent.t) (task : obj)
    (context : option str) (task_prompt : str) (s : State) :
  Forall ordinary (new_events (memory_step self task context task_prompt) s).
Proof.
  apply (traces_new_events (fun d _ => Forall ordinary d)).
  unfold memory_step.
  destruct (Agent.crew self) as [crew|]; [|apply emits_ret].
  destruct (memory crew); [|apply emits_ret].
  unfold ordinary. repeat emits_step.
Qed.



(** The calls of [create_agent_executor] before the construction. *)
Lemma construction_events_last (self : Agent.t) (tools : option (list obj))
    (parsed : list obj) (stop : list str)
    (prompts prompt execution_prompt bound r1 r2 parser inner_agent
       runnable_agent executor : obj) (observation : str) :
  exists d1,
    construction_events self tools parsed stop prompts prompt execution_prompt
      bound r1 r2 parser inner_agent runnable_agent executor observation
    = d1 ++ [Ev (CrewAgentExecutor_new runnable_agent
                   (executor_args self tools parsed)) (inr executor)]
    /\ Forall ordinary d1.
Proof.
  eexists (_ :: _ :: _ :: _ :: _ :: _ :: _ :: _ :: _ :: _ :: nil).
  split; [reflexivity|]. repeat constructor.
Qed.

Lemma parse_tools_import_first (tools : option (list obj)) (s : State) :
  exists imported dl,
    new_events (_parse_tools tools) s = Ev Import_crewai_tools imported :: dl
    /\ Forall ordinary dl.
Proof.
  destruct (parse_tools_cases tools s) as (imported & dl & Hev & Himp & _).
  exists imported, dl. split; [exact Hev|].
  pose proof (traces_new_events _ _
                (emits_parse_tools parse_event (fun ev H => H) tools) s) as Hp.
  simpl in Hp. rewrite Hev in Hp. inversion Hp as [|? ? _ Hp']; subst.
  rewrite Forall_forall in *. intros ev Hin. split; [|now apply Himp].
  specialize (Hp' ev Hin). destruct ev as [R c out].
  destruct c; simpl in *; auto; discriminate.
Qed.

(** X5: a run of [execute_task] that returns constructs exactly one
    executor and calls [invoke] exactly once, on that executor.  After the
    construction it assigns [tools], [task] and [tools_description] on the
    executor, reads the names of the parsed tools, assigns [tools_names],
    calls [invoke], and stops the counter when [max_rpm] is true, in this
    order and with no other call; the value returned is the [output] entry
    of what [invoke] returned, and the executor is the agent's
    [agent_executor] afterwards. *)
Theorem execute_task_invokes_the_executor_it_builds
    (self : Agent.t) (task : obj) (context : option str)
    (tools : option (list obj)) (s : State) (result_ : str) :
  fst (execute_task self task context tools s) = inr result_ ->
  exists d0 runnable_agent kw executor parsed description names task_prompt
         output,
    new_events (execute_task self task context tools) s
    = d0
      ++ [Ev (CrewAgentExecutor_new runnable_agent kw) (inr executor)]
      ++ setup_events executor task parsed description
      ++ name_events parsed names
      ++ invoke_events executor task_prompt (str_join (py ", ") names)
           description output
      ++ stop_events self
    /\ filter is_construction_or_invoke d0 = []
    /\ List.length names = List.length parsed
    /\ dict_get output (py "output") = inr result_
    /\ agent_executor (snd (execute_task self task context tools s))
       = Some executor.
Proof.
  intros Hret.
  destruct (execute_task_events self task context tools s result_ Hret)
    as (p & p0 & p1 & s0 & s1 & s2 & parsed & ex & desc & ns & output & d3
        & Hctx & Hmem & Hparse & Hc & Hex & Hlen & Hev & Hout & Hslot).
  destruct (create_agent_executor_events self _ s2 Hc)
    as (parsed2 & stop & prompts & prompt & ep & bound & r1 & r2 & parser
        & inner & ra & ex' & obs & _ & _ & Hcev & Hex').
  rewrite py_or_again in Hcev.
  assert (ex' = ex) by congruence. subst ex'.
  destruct (construction_events_last self (py_or tools (Agent.tools self))
              parsed2 stop prompts prompt ep bound r1 r2 parser inner ra ex obs)
    as (d1 & Hd1 & Ho1).
  destruct (parse_tools_import_first
              (py_or (py_or tools (Agent.tools self)) (Some [])) s1)
    as (i1 & dl1 & Hp1 & Ho2).
  destruct (parse_tools_import_first (py_or tools (Agent.tools self)) s2)
    as (i2 & dl2 & Hp2 & Ho3).
  exists (handler_events self ++ [Ev (Task_prompt task) (inr p)] ++ d3
          ++ new_events (memory_step self task context p0) s0
          ++ (Ev Import_crewai_tools i1 :: dl1)
          ++ (Ev Import_crewai_tools i2 :: dl2) ++ d1),
    ra, (executor_args self (py_or tools (Agent.tools self)) parsed2), ex,
    parsed, desc, ns, p1, output.
  split; [|split; [|split; [exact Hlen | split; [exact Hout | exact Hslot]]]].
  - rewrite Hev, Hcev, Hd1, Hp1, Hp2. rewrite <- !app_assoc. reflexivity.
  - rewrite !filter_app.
    rewrite (proj1 (ordinary_filters _ (ordinary_handler_events self))).
    rewrite (proj1 (ordinary_filters _ (ordinary_context_step _ _ _ _ _ Hctx))).
    rewrite (proj1 (ordinary_filters _ (ordinary_memory_step self task context p0 s0))).
    rewrite (proj1 (ordinary_filters _ Ho1)).
    simpl.
    rewrite (proj1 (ordinary_filters _ Ho2)).
    rewrite (proj1 (ordinary_filters _ Ho3)).
    reflexivity.
Qed.



End ExecuteTaskProperties.

Section Failures.

Context {C : Collaborators}.

(** A computation that starts with events that satisfy [P]. *)
Lemma prefix_bind {A B} (P : event -> Prop)
    (Q : list event -> result B -> Prop) (m : M A) (k : A -> M B) :
  emits P m ->
  (forall a, traces Q (k a)) ->
  (forall d e, Forall P d -> Q d (inl e)) ->
  (forall d1 d2 r, Forall P d1 -> Q d2 r -> Q (d1 ++ d2) r) ->
  traces Q (bind m k).
Proof.
  intros Hm Hk Hl Hr.
  apply (traces_bind _ (fun _ => Q) _ m k Hm Hk); eauto.
Qed.

(** A computation whose first part always raises. *)
Lemma fails_bind {A B} (P : event -> Prop) (m : M A) (k : A -> M B) :
  traces (fun d r => Forall P d /\ exists e, r = inl e) m ->
  traces (fun d r => Forall P d /\ exists e, r = inl e) (bind m k).
Proof.
  intros Hm s. destruct (Hm s) as (d & Hd & HP & e & He).
  unfold bind. destruct (m s) as [[e'|a] s1]; simpl in *; [|discriminate].
  exists d. split; [exact Hd|]. split; [exact HP|]. now exists e'.
Qed.

Lemma parse_tools_none_fails (P : event -> Prop) :
  (forall ev, parse_event ev -> P ev) ->
  traces (fun d r => Forall P d /\ exists e, r = inl e) (_parse_tools None).
Proof.
  intros HP s. destruct (emits_parse_tools P HP None s) as (d & Hd & HF).
  exists d. split; [exact Hd|]. split; [exact HF|].
  destruct (parse_tools_cases None s) as (imported & dl & _ & _ & Hcases).
  destruct imported as [e|u]; destruct Hcases as [_ Hr]; rewrite Hr.
  - destruct (is_ModuleNotFoundError e); [now eexists | now exists e].
  - now eexists.
Qed.

(** X8: with no tools at all (the agent's [tools] is [None] and the call
    gives none, or an empty list), [execute_task] raises, although its first
    parse is guarded by [tools or []]: [create_agent_executor] parses
    [None].  No executor is constructed and nothing is invoked. *)
Theorem execute_task_without_tools_raises
    (self : Agent.t) (task : obj) (context : option str)
    (tools : option (list obj)) (s : State) :
  Agent.tools self = None ->
  truthy_list tools = false ->
  (exists e, fst (execute_task self task context tools s) = inl e)
  /\ filter is_construction_or_invoke
       (new_events (execute_task self task context tools) s) = []
  /\ exists e, fst (create_agent_executor self tools s) = inl e.
Proof.
  intros Hself Htools.
  set (P := fun ev => is_construction_or_invoke ev = false).
  assert (Hparse : forall ev, parse_event ev -> P ev).
  { intros [R c out]. destruct c; simpl; intros H; try discriminate;
      reflexivity. }
  assert (Hcreate : forall tools',
             truthy_list tools' = false ->
             traces (fun d r => Forall P d /\ exists e, r = inl e)
               (create_agent_executor self tools')).
  { intros tools' Ht. unfold create_agent_executor.
    rewrite (py_or_falsy tools' _ Ht), Hself.
    apply fails_bind, parse_tools_none_fails, Hparse. }
  assert (Hrun : traces (fun d (r : result str) =>
                           Forall P d /\ exists e, r = inl e)
                   (execute_task self task context tools)).
  { assert (Hl : forall d e, Forall P d ->
                             Forall P d /\ exists e', @inl exn str e = inl e')
      by (intros; split; eauto).
    assert (Hr : forall d1 d2 (r : result str),
               Forall P d1 ->
               Forall P d2 /\ (exists e, r = inl e) ->
               Forall P (d1 ++ d2) /\ exists e, r = inl e).
    { intros d1 d2 r H1 [H2 He]. split; [now apply Forall_app | exact He]. }
    unfold execute_task.
    apply (prefix_bind P); auto;
      [unfold P; destruct (Agent.tools_handler self); repeat emits_step|].
    intros _. apply (prefix_bind P); auto; [unfold P; repeat emits_step|].
    intros p. apply (prefix_bind P); auto.
    { unfold P. destruct context as [[|c ctx]|]; repeat emits_step. }
    intros p0. apply (prefix_bind P); auto.
    { unfold memory_step, P.
      destruct (Agent.crew self) as [crew|]; [|apply emits_ret].
      destruct (memory crew); [|apply emits_ret]. repeat emits_step. }
    intros p1. apply (prefix_bind P); auto; [now apply emits_parse_tools|].
    intros parsed. apply fails_bind, Hcreate.
    rewrite (py_or_falsy tools _ Htools), Hself. reflexivity. }
  pose proof (traces_new_events _ _ Hrun s) as [HF He].
  pose proof (traces_new_events _ _ (Hcreate tools Htools) s) as [_ He'].
  split; [exact He|]. split; [|exact He'].
  clear - HF. induction HF as [|ev d Hev _ IH]; [reflexivity|].
  simpl. unfold P in Hev. now rewrite Hev.
Qed.

(** X9: [create_agent_executor] assigns [self.agent_executor] only as its
    last step: when it raises, the agent still has the executor it had. *)
Theorem create_agent_executor_failure_keeps_executor
    (self : Agent.t) (tools : option (list obj)) (s : State) (e : exn) :
  fst (create_agent_executor self tools s) = inl e ->
  agent_executor (snd (create_agent_executor self tools s)) = agent_executor s.
Proof. apply create_agent_executor_keeps_on_error. Qed.

(** X10: the counter is stopped only at the end of a run in which nothing
    raised.  When [execute_task] raises, [stop_rpm_counter] was not called,
    unless it is the call that raised. *)
Theorem counter_not_stopped_on_error
    (self : Agent.t) (task : obj) (context : option str)
    (tools : option (list obj)) (s : State) (e : exn) :
  fst (execute_task self task context tools s) = inl e ->
  forall controller outcome,
    In (Ev (RPMController_stop_rpm_counter controller) outcome)
      (new_events (execute_task self task context tools) s) ->
    outcome = inl e.
Proof.
  set (T := fun _ : Executor.t => True).
  set (Q := fun (d : list event) (r : result str) =>
              forall e, r = inl e ->
              forall controller outcome,
                In (Ev (RPMController_stop_rpm_counter controller) outcome) d ->
                outcome = inl e).
  assert (Hnot : forall d controller outcome,
             Forall (plain T) d ->
             ~ In (Ev (RPMController_stop_rpm_counter controller) outcome) d).
  { intros d c out HF Hin. rewrite Forall_forall in HF.
    destruct (HF _ Hin) as [_ H]. discriminate. }
  assert (Hl : forall d e, Forall (plain T) d -> Q d (inl e)).
  { intros d e0 HF e1 _ c out Hin. now apply Hnot in Hin. }
  assert (Hr : forall d1 d2 r, Forall (plain T) d1 -> Q d2 r -> Q (d1 ++ d2) r).
  { intros d1 d2 r HF HQ e0 He c out Hin.
    apply in_app_or in Hin as [Hin|Hin]; [now apply Hnot in Hin|].
    exact (HQ e0 He c out Hin). }
  assert (Hrun : traces Q (execute_task self task context tools)).
  { unfold execute_task.
    apply (prefix_bind (plain T)); auto;
      [unfold plain; destruct (Agent.tools_handler self); repeat emits_step|].
    intros _. apply (prefix_bind (plain T)); auto;
      [unfold plain; repeat emits_step|].
    intros p. apply (prefix_bind (plain T)); auto.
    { unfold plain. destruct context as [[|c ctx]|]; repeat emits_step. }
    intros p0. apply (prefix_bind (plain T)); auto; [apply memory_step_plain|].
    intros p1. apply (prefix_bind (plain T)); auto.
    { apply emits_parse_tools, parse_event_plain. }
    intros parsed. apply (prefix_bind (plain T)); auto.
    { apply create_agent_executor_plain. intros; exact I. }
    intros _.
    do 7 (apply (prefix_bind (plain T)); auto;
          [unfold plain; repeat emits_step | intros]).
    apply (prefix_bind (plain T)); auto; [apply tools_names_plain|].
    intros names.
    do 5 (apply (prefix_bind (plain T)); auto;
          [unfold plain; repeat emits_step | intros]).
    intros s0. cbv beta delta [bind call ret raise].
    destruct (truthy_int (Agent.max_rpm self)).
    - destruct (Agent._rpm_controller self) as [controller|].
      + destruct (env _ (RPMController_stop_rpm_counter controller) (world s0))
          as [[e0|[]] w]; cbv beta iota.
        * exists [Ev (RPMController_stop_rpm_counter controller) (inl e0)].
          split; [reflexivity|]. intros e1 He1 c out [Heq|[]].
          simpl in He1. injection He1 as <-.
          pose (outcome_of := fun ev : event =>
                  match ev with
                  | Ev c0 o =>
                      match c0 in ext T0 return result T0 -> option (result unit)
                      with
                      | RPMController_stop_rpm_counter _ => fun o' => Some o'
                      | _ => fun _ => None
                      end o
                  end).
          apply (f_equal outcome_of) in Heq. simpl in Heq.
          now injection Heq as <-.
        * exists [Ev (RPMController_stop_rpm_counter controller) (inr tt)].
          split; [reflexivity|]. intros e1 He1. discriminate He1.
      + exists []. rewrite app_nil_r. split; [reflexivity|].
        intros e1 _ c out [].
    - exists []. rewrite app_nil_r. split; [reflexivity|].
      intros e1 _ c out []. }
  intros He. exact (traces_new_events _ _ Hrun s e He).
Qed.

End Failures.

Section MoreOnTheExecutor.

Context {C : Collaborators}.

(** X11: with [max_rpm] true and no rate-limit controller, [execute_task]
    never returns a value: the executor is built and invoked as usual, and
    once [invoke] has returned a dict with an [output], stopping the counter
    of [None] raises [AttributeError] and the output is lost. *)
Theorem execute_task_without_controller_raises
    (self : Agent.t) (task : obj) (context : option str)
    (tools : option (list obj)) (s : State) :
  truthy_int (Agent.max_rpm self) = true ->
  Agent._rpm_controller self = None ->
  (exists e, fst (execute_task self task context tools s) = inl e)
  /\ forall executor inputs output v,
      In (Ev (Executor_invoke executor inputs) (inr output))
        (new_events (execute_task self task context tools) s) ->
      dict_get output (py "output") = inr v ->
      fst (execute_task self task context tools s)
      = inl (PyExn AttributeError
               "'NoneType' object has no attribute 'stop_rpm_counter'").
Proof.
  intros Hrpm Hctl.
  set (P := fun ev => is_invoke ev = false).
  set (Q := fun (d : list event) (r : result str) =>
              (exists e, r = inl e)
              /\ forall executor inputs output v,
                  In (Ev (Executor_invoke executor inputs) (inr output)) d ->
                  dict_get output (py "output") = inr v ->
                  r = inl (PyExn AttributeError
                             "'NoneType' object has no attribute 'stop_rpm_counter'")).
  assert (Hnot : forall d executor inputs output,
             Forall P d ->
             ~ In (Ev (Executor_invoke executor inputs) (inr output)) d).
  { intros d ex inputs output HF Hin. rewrite Forall_forall in HF.
    specialize (HF _ Hin). discriminate. }
  assert (Hl : forall d e, Forall P d -> Q d (inl e)).
  { intros d e HF. split; [now exists e|].
    intros ex inputs output v Hin. now apply Hnot in Hin. }
  assert (Hr : forall d1 d2 r, Forall P d1 -> Q d2 r -> Q (d1 ++ d2) r).
  { intros d1 d2 r HF [He HQ]. split; [exact He|].
    intros ex inputs output v Hin.
    apply in_app_or in Hin as [Hin|Hin]; [now apply Hnot in Hin|].
    exact (HQ ex inputs output v Hin). }
  assert (Hparse : forall ev, parse_event ev -> P ev).
  { intros [R c out]. destruct c; simpl; intros H; try discriminate;
      reflexivity. }
  assert (Hrun : traces Q (execute_task self task context tools)).
  { unfold execute_task.
    apply (prefix_bind P); auto;
      [unfold P; destruct (Agent.tools_handler self); repeat emits_step|].
    intros _. apply (prefix_bind P); auto; [unfold P; repeat emits_step|].
    intros p. apply (prefix_bind P); auto.
    { unfold P. destruct context as [[|c ctx]|]; repeat emits_step. }
    intros p0. apply (prefix_bind P); auto.
    { unfold memory_step, P.
      destruct (Agent.crew self) as [crew|]; [|apply emits_ret].
      destruct (memory crew); [|apply emits_ret]. repeat emits_step. }
    intros p1. apply (prefix_bind P); auto; [now apply emits_parse_tools|].
    intros parsed. apply (prefix_bind P); auto.
    { unfold create_agent_executor.
      apply emits_bind; [now apply emits_parse_tools|].
      intros parsed'. unfold P. repeat emits_step. }
    intros _.
    do 7 (apply (prefix_bind P); auto; [unfold P; repeat emits_step | intros]).
    apply (prefix_bind P); auto.
    { unfold __tools_names. apply emits_bind; [|intros; apply emits_ret].
      apply emits_tool_name_list. intros; reflexivity. }
    intros names.
    do 3 (apply (prefix_bind P); auto; [unfold P; repeat emits_step | intros]).
    intros s0. rewrite Hrpm, Hctl.
    cbv beta delta [bind call ret raise lift].
    match goal with
    | |- context [env _ ?c (world s0)] =>
        destruct (env _ c (world s0)) as [[e0|output] w]; cbv beta iota;
        [exists [Ev c (inl e0)] | exists [Ev c (inr output)]]
    end.
    - split; [reflexivity|]. split; [now exists e0|].
      intros ex inputs output v [Heq|[]].
      apply (f_equal raised) in Heq. discriminate.
    - destruct (dict_get output (py "output")) as [e1|v0] eqn:Hget;
        cbv beta iota; (split; [reflexivity|]);
        (split; [eexists; reflexivity|]).
      + intros ex inputs output' v [Heq|[]] Hv.
        pose (output_of := fun ev : event =>
                match ev with
                | Ev c0 o =>
                    match c0 in ext T0
                          return result T0 -> option (list (str * str))
                    with
                    | Executor_invoke _ _ =>
                        fun o' => match o' with
                                  | inr out => Some out
                                  | inl _ => None
                                  end
                    | _ => fun _ => None
                    end o
                end).
        apply (f_equal output_of) in Heq. simpl in Heq.
        injection Heq as ->. congruence.
      + intros; reflexivity. }
  exact (traces_new_events _ _ Hrun s).
Qed.

(** X12: besides the fields of C1, every executor constructed by
    [create_agent_executor] or inside [execute_task] is given the agent's
    [i18n], [crew] and [verbose] unchanged, the agent itself as
    [crew_agent], and [handle_parsing_errors=True]. *)
Theorem executor_knows_its_agent
    (self : Agent.t) (task : obj) (context : option str)
    (tools : option (list obj)) (s : State) :
  forall runnable_agent kw outcome,
    In (Ev (CrewAgentExecutor_new runnable_agent kw) outcome)
      (new_events (create_agent_executor self tools) s)
    \/ In (Ev (CrewAgentExecutor_new runnable_agent kw) outcome)
         (new_events (execute_task self task context tools) s) ->
    Executor.i18n kw = Agent.i18n self
    /\ Executor.crew kw = Agent.crew self
    /\ Executor.crew_agent kw = self
    /\ Executor.verbose kw = Agent.verbose self
    /\ Executor.handle_parsing_errors kw = true.
Proof.
  set (P := fun kw : Executor.t =>
              Executor.i18n kw = Agent.i18n self
              /\ Executor.crew kw = Agent.crew self
              /\ Executor.crew_agent kw = self
              /\ Executor.verbose kw = Agent.verbose self
              /\ Executor.handle_parsing_errors kw = true).
  assert (HP : forall eff parsed, P (executor_args self eff parsed)).
  { intros eff parsed. unfold P. simpl. auto. }
  intros ra kw outcome [Hin|Hin].
  - apply (emits_In (plain P) _ s _
             (create_agent_executor_plain P self tools (HP _))) in Hin.
    exact (proj1 Hin).
  - pose proof (traces_new_events _ _
                  (execute_task_calls P self task context tools (HP _)) s)
      as [Hall _].
    rewrite Forall_forall in Hall. exact (Hall _ Hin).
Qed.

(** X13: without a response template ([None] or the empty string), the
    model is bound to a single stop word, the [observation] slice of the
    translations as it was returned. *)
Theorem single_stop_word_without_response_template
    (self : Agent.t) (tools : option (list obj)) (s : State) :
  truthy_str (Agent.response_template self) = false ->
  fst (create_agent_executor self tools s) = inr tt ->
  exists observation bound d0 d1,
    new_events (create_agent_executor self tools) s
    = d0
      ++ [ Ev (I18N_slice (Agent.i18n self) (py "observation"))
             (inr observation);
           Ev (LLM_bind (Agent.llm self) [observation]) (inr bound) ]
      ++ d1.
Proof.
  intros Htemplate Hret.
  destruct (create_agent_executor_events self tools s Hret)
    as (parsed & stop & prompts & prompt & ep & bound & r1 & r2 & parser
        & inner & ra & ex & obs & _ & Hstop & Hev & _).
  rewrite (stop_words_of_unset obs _ Htemplate) in Hstop.
  injection Hstop as <-.
  exists obs, bound.
  exists (new_events (_parse_tools (py_or tools (Agent.tools self))) s
          ++ [Ev (Prompts_new (Agent.i18n self) (py_or tools (Agent.tools self))
                    (Agent.system_template self) (Agent.prompt_template self)
                    (Agent.response_template self)) (inr prompts);
              Ev (Prompts_task_execution prompts) (inr prompt);
              Ev (Prompt_partial prompt (Agent.goal self) (Agent.role self)
                    (Agent.backstory self)) (inr ep)]).
  exists [Ev (Runnable_or (Mapping agent_args) ep) (inr r1);
          Ev (Runnable_or (Runnable r1) bound) (inr r2);
          Ev (CrewAgentParser_new self) (inr parser);
          Ev (Runnable_or (Runnable r2) parser) (inr inner);
          Ev (RunnableAgent_new inner) (inr ra);
          Ev (CrewAgentExecutor_new ra
                (executor_args self (py_or tools (Agent.tools self)) parsed))
            (inr ex)].
  rewrite Hev. unfold construction_events. rewrite <- app_assoc. reflexivity.
Qed.

Lemma bind_inl {A B} (m : M A) (k : A -> M B) (s s' : State) (e : exn) :
  bind m k s = (inl e, s') ->
  m s = (inl e, s')
  \/ exists a s1, m s = (inr a, s1) /\ k a s1 = (inl e, s').
Proof.
  unfold bind. destruct (m s) as [[e'|a] s1]; intros H.
  - left. injection H as -> ->. reflexivity.
  - right. now exists a, s1.
Qed.

Lemma call_inl {R} (c : ext R) (s s1 : State) (e : exn) :
  call c s = (inl e, s1) -> trace s1 = trace s ++ [Ev c (inl e)].
Proof.
  unfold call. destruct (env _ c (world s)) as [outcome w].
  intros H. injection H as -> <-. reflexivity.
Qed.

Lemma tool_name_list_inl (tools : list obj) :
  forall s s' e,
    tool_name_list tools s = (inl e, s') ->
    exists t d0,
      In t tools /\ trace s' = trace s ++ d0 ++ [Ev (Tool_name t) (inl e)].
Proof.
  induction tools as [|t rest IH]; intros s s' e H; simpl in H.
  - discriminate H.
  - apply bind_inl in H as [H|(n & s1 & Hc & H)].
    + apply call_inl in H. exists t, []. split; [now left | exact H].
    + apply call_inr in Hc as [T1 _].
      apply bind_inl in H as [H|(ns & s2 & _ & H)]; [|discriminate H].
      destruct (IH _ _ _ H) as (t' & d0 & Hin & Ht).
      exists t', (Ev (Tool_name t) (inr n) :: d0).
      split; [now right|]. rewrite Ht, T1, <- app_assoc. reflexivity.
Qed.

(** X14: [__tools_names] reads the [name] of every tool once, in list
    order, and returns the names joined by a comma and a space; an exception
    of a read ends it. *)
Theorem tools_names_joined (tools : list obj) (s : State) :
  (forall names_,
      fst (__tools_names tools s) = inr names_ ->
      exists names,
        List.length names = List.length tools
        /\ new_events (__tools_names tools) s = name_events tools names
        /\ names_ = str_join (py ", ") names)
  /\ (forall e,
         fst (__tools_names tools s) = inl e ->
         exists t d0,
           In t tools
           /\ new_events (__tools_names tools) s
              = d0 ++ [Ev (Tool_name t) (inl e)]).
Proof.
  split.
  - intros r Hret.
    destruct (__tools_names tools s) as [r0 s'] eqn:Hrun.
    simpl in Hret. subst r0. pose proof Hrun as Hret.
    unfold __tools_names in Hret.
    apply bind_inr in Hret as (names & s1 & Hn & Hret).
    apply ret_inr in Hret as [<- Hs].
    destruct (tool_name_list_inr tools _ _ _ Hn) as [Hlen Ht].
    exists names. split; [exact Hlen|]. split; [|reflexivity].
    apply (new_events_run _ _ _ _ _ Hrun). now rewrite Hs.
  - intros e He.
    destruct (__tools_names tools s) as [r0 s'] eqn:Hrun.
    simpl in He. subst r0. pose proof Hrun as Hfail.
    unfold __tools_names in Hfail.
    apply bind_inl in Hfail as [Hfail|(names & s1 & _ & Hfail)];
      [|discriminate Hfail].
    destruct (tool_name_list_inl tools _ _ _ Hfail) as (t & d0 & Hin & Ht).
    exists t, d0. split; [exact Hin|].
    now apply (new_events_run _ _ _ _ _ Hrun).
Qed.

End MoreOnTheExecutor.

(** * What the module handles itself, and what it leaves to others *)

Section HandledAndDelegated.

Context {C : Collaborators}.


(** C5: the executor is given the controller's [check_or_wait] as
    [request_within_rpm_limit] exactly when the agent has a controller, and
    no such argument otherwise: so it is for every executor constructed, and
    a [create_agent_executor] or an [execute_task] that returns has
    constructed one, which [execute_task] then invokes.  [execute_task]
    itself calls the controller at most once, [stop_rpm_counter] as its last
    call, and only with [max_rpm] true; when it returns with [max_rpm] true,
    it did make that call. *)
Theorem rate_limiting_delegated
    (self : Agent.t) (task : obj) (context : option str)
    (tools : option (list obj)) (s : State) :
  (forall runnable_agent kw outcome,
      In (Ev (CrewAgentExecutor_new runnable_agent kw) outcome)
        (new_events (create_agent_executor self tools) s)
      \/ In (Ev (CrewAgentExecutor_new runnable_agent kw) outcome)
           (new_events (execute_task self task context tools) s) ->
      (forall controller,
          Agent._rpm_controller self = Some controller ->
          Executor.request_within_rpm_limit kw
          = Some (BoundMethod controller "check_or_wait"))
      /\ (Agent._rpm_controller self = None ->
          Executor.request_within_rpm_limit kw = None))
  /\ stops_counter_at_most self
       (new_events (execute_task self task context tools) s)
  /\ filter rpm_event (new_events (create_agent_executor self tools) s) = []
  /\ (forall result_,
        fst (execute_task self task context tools s) = inr result_ ->
        truthy_int (Agent.max_rpm self) = true ->
        exists controller d0,
          Agent._rpm_controller self = Some controller
          /\ new_events (execute_task self task context tools) s
             = d0 ++ [Ev (RPMController_stop_rpm_counter controller) (inr tt)])
  /\ (fst (create_agent_executor self tools s) = inr tt ->
      exists d0 runnable_agent kw executor,
        new_events (create_agent_executor self tools) s
        = d0 ++ [Ev (CrewAgentExecutor_new runnable_agent kw) (inr executor)]
        /\ Executor.request_within_rpm_limit kw
           = match Agent._rpm_controller self with
             | Some controller => Some (BoundMethod controller "check_or_wait")
             | None => None
             end)
  /\ (forall result_,
        fst (execute_task self task context tools s) = inr result_ ->
        exists runnable_agent kw executor inputs output,
          In (Ev (CrewAgentExecutor_new runnable_agent kw) (inr executor))
            (new_events (execute_task self task context tools) s)
          /\ Executor.request_within_rpm_limit kw
             = match Agent._rpm_controller self with
               | Some controller =>
                   Some (BoundMethod controller "check_or_wait")
               | None => None
               end
          /\ In (Ev (Executor_invoke executor inputs) (inr output))
               (new_events (execute_task self task context tools) s)).
Proof.
  set (P := fun kw : Executor.t =>
              (forall controller,
                  Agent._rpm_controller self = Some controller ->
                  Executor.request_within_rpm_limit kw
                  = Some (BoundMethod controller "check_or_wait"))
              /\ (Agent._rpm_controller self = None ->
                  Executor.request_within_rpm_limit kw = None)).
  assert (HP : forall eff parsed, P (executor_args self eff parsed)).
  { intros eff parsed. unfold P. simpl. split.
    - now intros controller ->.
    - now intros ->. }
  pose proof (traces_new_events _ _
                (execute_task_calls P self task context tools (HP _)) s)
    as [Hall Hstop].
  pose proof (traces_new_events _ _
                (create_agent_executor_plain P self tools (HP _)) s) as Hplain.
  simpl in Hplain.
  split; [|split; [|split; [|split; [|split]]]].
  - intros ra kw outcome [Hin|Hin].
    + rewrite Forall_forall in Hplain. exact (proj1 (Hplain _ Hin)).
    + rewrite Forall_forall in Hall. exact (Hall _ Hin).
  - exact Hstop.
  - induction Hplain as [|ev d [_ Hr] _ IH]; [reflexivity|].
    simpl. now rewrite Hr.
  - intros result_ Hret Hrpm. apply run_inr in Hret.
    destruct (execute_task_inr self task context tools s _ result_ Hret)
      as (p0 & s0 & p1 & s1 & ex & names & desc & output & d1 & d2
          & _ & _ & Ht & _ & Hctl).
    destruct (Hctl Hrpm) as [controller Hc].
    exists controller.
    exists (d1 ++ new_events (memory_step self task context p0) s0 ++ d2
            ++ [Ev (Executor_invoke ex
                      [(py "input", p1); (py "tool_names", names);
                       (py "tools", desc)])
                  (inr output)]).
    split; [exact Hc|].
    apply new_events_of. rewrite Ht. unfold stop_events. rewrite Hrpm, Hc.
    rewrite <- !app_assoc. reflexivity.
  - intros Hret.
    destruct (create_agent_executor_events self tools s Hret)
      as (parsed & stop & prompts & prompt & ep & bound & r1 & r2 & parser
          & inner & ra & ex & obs & _ & _ & Hev & _).
    destruct (construction_events_last self (py_or tools (Agent.tools self))
                parsed stop prompts prompt ep bound r1 r2 parser inner ra ex obs)
      as (d1 & Hd1 & _).
    exists (new_events (_parse_tools (py_or tools (Agent.tools self))) s ++ d1),
      ra, (executor_args self (py_or tools (Agent.tools self)) parsed), ex.
    split; [now rewrite Hev, Hd1, app_assoc|].
    simpl. now destruct (Agent._rpm_controller self).
  - intros result_ Hret.
    destruct (execute_task_events self task context tools s result_ Hret)
      as (p & p0 & p1 & s0 & s1 & s2 & parsed & ex & desc & ns & output & d3
          & _ & _ & _ & Hc & Hex & _ & Hev & _ & _).
    destruct (create_agent_executor_events self _ s2 Hc)
      as (parsed2 & stop & prompts & prompt & ep & bound & r1 & r2 & parser
          & inner & ra & ex' & obs & _ & _ & Hcev & Hex').
    assert (ex' = ex) by congruence. subst ex'.
    destruct (construction_events_last self
                (py_or (py_or tools (Agent.tools self)) (Agent.tools self))
                parsed2 stop prompts prompt ep bound r1 r2 parser inner ra ex obs)
      as (d1 & Hd1 & _).
    exists ra,
      (executor_args self
         (py_or (py_or tools (Agent.tools self)) (Agent.tools self)) parsed2),
      ex,
      [(py "input", p1); (py "tool_names", str_join (py ", ") ns);
       (py "tools", desc)],
      output.
    split; [|split].
    + rewrite Hev, Hcev, Hd1.
      do 5 (apply in_or_app; right). apply in_or_app. left.
      apply in_or_app. right. apply in_or_app. right. now left.
    + simpl. now destruct (Agent._rpm_controller self).
    + rewrite Hev. do 8 (apply in_or_app; right). apply in_or_app. left.
      right. now left.
Qed.

(** [tools or []] on a list that is there. *)
Lemma py_or_empty (own : list obj) : py_or (Some own) (Some []) = Some own.
Proof. now destruct own. Qed.

(** C10: an empty list of tools is the same call as no list and as the
    agent's own list, for [execute_task] and for [create_agent_executor],
    and every executor constructed is then given the agent's own tools as
    [original_tools].  A run of [execute_task] with the empty list that
    returns is on an agent that has a list of tools, and that list is what
    it uses: before the tools are parsed it neither imports [crewai_tools]
    nor constructs or invokes anything; it parses the agent's list, twice;
    [Prompts] and the executor are constructed from the agent's list and
    from the second parse of it; and the first parse of it is what the
    executor gets as [tools], what the description is rendered from and what
    the names are read from, the description and the joined names being
    the [tools] and [tool_names] given to [invoke].  Neither parse is
    shorter than the agent's list. *)
Theorem empty_tools_mean_own_tools
    (self : Agent.t) (task : obj) (context : option str) :
  execute_task self task context (Some [])
  = execute_task self task context None
  /\ execute_task self task context (Some [])
     = execute_task self task context (Agent.tools self)
  /\ create_agent_executor self (Some [])
     = create_agent_executor self None
  /\ create_agent_executor self (Some [])
     = create_agent_executor self (Agent.tools self)
  /\ (forall s runnable_agent kw outcome,
        In (Ev (CrewAgentExecutor_new runnable_agent kw) outcome)
          (new_events (execute_task self task context (Some [])) s) ->
        Executor.original_tools kw = Agent.tools self)
  /\ forall s result_,
      fst (execute_task self task context (Some []) s) = inr result_ ->
      exists own d_before s1 parsed parsed' stop prompts prompt
             execution_prompt bound r1 r2 parser inner_agent runnable_agent
             executor observation description names task_prompt output,
        Agent.tools self = Some own
        /\ Forall ordinary d_before
        /\ fst (_parse_tools (Some own) s1) = inr parsed
        /\ fst (_parse_tools (Some own) (snd (_parse_tools (Some own) s1)))
           = inr parsed'
        /\ new_events (execute_task self task context (Some [])) s
           = d_before
             ++ new_events (_parse_tools (Some own)) s1
             ++ new_events (_parse_tools (Some own))
                  (snd (_parse_tools (Some own) s1))
             ++ construction_events self (Some own) parsed' stop prompts
                  prompt execution_prompt bound r1 r2 parser inner_agent
                  runnable_agent executor observation
             ++ setup_events executor task parsed description
             ++ name_events parsed names
             ++ invoke_events executor task_prompt (str_join (py ", ") names)
                  description output
             ++ stop_events self
        /\ List.length names = List.length parsed
        /\ List.length own <= List.length parsed
        /\ List.length own <= List.length parsed'.
Proof.
  split; [reflexivity|]. split; [|split; [reflexivity|split; [|split]]].
  - unfold execute_task. rewrite (py_or_same (Agent.tools self)). reflexivity.
  - unfold create_agent_executor. rewrite (py_or_same (Agent.tools self)).
    reflexivity.
  - intros s ra kw outcome Hin.
    pose proof (traces_new_events _ _
                  (execute_task_calls
                     (fun kw => Executor.original_tools kw = Agent.tools self)
                     self task context (Some []) (fun _ => eq_refl)) s)
      as [Hall _].
    rewrite Forall_forall in Hall. exact (Hall _ Hin).
  - intros s result_ Hret.
    destruct (execute_task_events self task context (Some []) s result_ Hret)
      as (p & p0 & p1 & s0 & s1 & s2 & parsed & ex & desc & ns & output & d3
          & Hctx & Hmem & Hparse & Hc & Hex & Hlen & Hev & _ & _).
    assert (Heff : py_or (Some []) (Agent.tools self) = Agent.tools self)
      by reflexivity.
    rewrite Heff in Hparse, Hc, Hex, Hev.
    destruct (create_agent_executor_events self _ s2 Hc)
      as (parsed2 & stop & prompts & prompt & ep & bound & r1 & r2 & parser
          & inner & ra & ex' & obs & Hp2 & _ & Hcev & Hex').
    assert (ex' = ex) by congruence. subst ex'.
    rewrite (py_or_same (Agent.tools self)) in Hp2, Hcev.
    destruct (Agent.tools self) as [own|] eqn:Hown.
    + rewrite py_or_empty in Hparse, Hev.
      assert (Hs2 : s2 = snd (_parse_tools (Some own) s1))
        by now rewrite Hparse.
      exists own,
        (handler_events self ++ [Ev (Task_prompt task) (inr p)] ++ d3
         ++ new_events (memory_step self task context p0) s0),
        s1, parsed, parsed2, stop, prompts, prompt, ep, bound, r1, r2, parser,
        inner, ra, ex, obs, desc, ns, p1, output.
      split; [reflexivity|]. split.
      { apply Forall_app. split; [apply ordinary_handler_events|].
        apply Forall_app. split; [repeat constructor|].
        apply Forall_app. split; [exact (ordinary_context_step _ _ _ _ _ Hctx)|].
        apply ordinary_memory_step. }
      split; [now rewrite Hparse|].
      split; [now rewrite <- Hs2|].
      split; [rewrite Hev, Hcev, <- Hs2, <- !app_assoc; reflexivity|].
      split; [exact Hlen|].
      split.
      * apply (parse_tools_length own parsed s1). now rewrite Hparse.
      * exact (parse_tools_length own parsed2 s2 Hp2).
    + exfalso.
      destruct (parse_tools_cases None s2) as (imported & dl & _ & _ & Hcases).
      destruct imported as [e|u]; destruct Hcases as [_ Hr];
        rewrite Hr in Hp2; [destruct (is_ModuleNotFoundError e)|];
        discriminate Hp2.
Qed.

End HandledAndDelegated.

(** ** The constructor *)

Lemma str_eqb_eq (a b : str) : str_eqb a b = true <-> a = b.
Proof.
  revert b. induction a as [|c a IH]; intros [|d b]; simpl;
    try (split; [discriminate | discriminate]); [now split|].
  unfold codepoint_eqb. rewrite andb_true_iff, N.eqb_eq, IH.
  split; [intros [-> ->]; reflexivity | intros H; injection H; auto].
Qed.

Lemma str_eqb_refl (a : str) : str_eqb a a = true.
Proof. now apply str_eqb_eq. Qed.

Lemma has_key_get {V} (d : list (str * V)) (key : str) :
  has_key d key = true <-> exists v, kwargs_get d key = Some v.
Proof.
  induction d as [|[k v] d IH]; simpl.
  - split; [discriminate | intros [v H]; discriminate].
  - destruct (str_eqb k key); simpl; [split; eauto | exact IH].
Qed.

Lemma has_key_In {V} (d : list (str * V)) (key : str) :
  has_key d key = true <-> In key (map fst d).
Proof.
  induction d as [|[k v] d IH]; simpl.
  - split; [discriminate | intros []].
  - rewrite orb_true_iff, IH, str_eqb_eq. reflexivity.
Qed.

Lemma dict_pop_get (d : kwargs) (key : str) :
  fst (dict_pop d key) = kwargs_get d key.
Proof.
  induction d as [|[k v] d IH]; simpl; [reflexivity|].
  destruct (str_eqb k key); [reflexivity|].
  destruct (dict_pop d key) as [found rest]. exact IH.
Qed.

Lemma dict_pop_absent (d : kwargs) (key : str) :
  kwargs_get d key = None -> snd (dict_pop d key) = d.
Proof.
  induction d as [|[k v] d IH]; simpl; [reflexivity|].
  destruct (str_eqb k key); [discriminate|].
  intros H. specialize (IH H). destruct (dict_pop d key) as [found rest].
  simpl in *. now rewrite IH.
Qed.

(** What is left of a dict after [pop]: the other entries, as they were. *)
Lemma dict_pop_rest (d : kwargs) (key k : str) :
  NoDup (map fst d) ->
  kwargs_get (snd (dict_pop d key)) k
  = if str_eqb k key then None else kwargs_get d k.
Proof.
  induction d as [|[k0 v] d IH]; simpl; intros Hnd.
  - now destruct (str_eqb k key).
  - inversion Hnd as [|? ? Hnotin Hnd']; subst.
    destruct (str_eqb k0 key) eqn:E0.
    + apply str_eqb_eq in E0. subst k0. simpl.
      destruct (str_eqb k key) eqn:E.
      * apply str_eqb_eq in E. subst k.
        destruct (kwargs_get d key) as [v'|] eqn:G; [|reflexivity].
        exfalso. apply Hnotin. apply has_key_In. apply has_key_get. eauto.
      * destruct (str_eqb key k) eqn:E'; [|reflexivity].
        apply str_eqb_eq in E'. subst k. now rewrite str_eqb_refl in E.
    + specialize (IH Hnd'). destruct (dict_pop d key) as [found rest].
      simpl in *. destruct (str_eqb k0 k) eqn:E1; [|exact IH].
      apply str_eqb_eq in E1. subst k0.
      destruct (str_eqb k key) eqn:E; [congruence | reflexivity].
Qed.

Lemma repeated_key_none (config : list (str * obj)) (data : kwargs) :
  repeated_key config data = None <->
  forall k, has_key config k = true -> has_key data k = false.
Proof.
  induction data as [|[k0 v] data IH]; simpl.
  - split; auto.
  - destruct (has_key config k0) eqn:E.
    + split; [discriminate|]. intros H. specialize (H k0 E).
      now rewrite str_eqb_refl in H.
    + rewrite IH. split; intros H k Hk.
      * rewrite (H k Hk), orb_false_r.
        destruct (str_eqb k0 k) eqn:E1; [|reflexivity].
        apply str_eqb_eq in E1. congruence.
      * specialize (H k Hk). now apply orb_false_elim in H as [_ H].
Qed.

Lemma repeated_key_nil (data : kwargs) : repeated_key [] data = None.
Proof. induction data as [|[k v] data IH]; simpl; auto. Qed.

Lemma kwargs_get_app {V} (a b : list (str * V)) (k : str) :
  kwargs_get (a ++ b) k
  = match kwargs_get a k with
    | Some v => Some v
    | None => kwargs_get b k
    end.
Proof.
  induction a as [|[k0 v] a IH]; simpl; [reflexivity|].
  now destruct (str_eqb k0 k).
Qed.

Lemma kwargs_get_map (entries : list (str * obj)) (k : str) :
  kwargs_get (map (fun kv => (fst kv, Opaque (snd kv))) entries) k
  = option_map Opaque (kwargs_get entries k).
Proof.
  induction entries as [|[k0 v] entries IH]; simpl; [reflexivity|].
  now destruct (str_eqb k0 k).
Qed.

(** X15: a keyword may be given to the constructor directly or inside
    [config], not both.  Without a [config], [__init__] passes the keywords
    on as they are.  With a dict as [config], [__init__] reaches
    [super().__init__] exactly when no key of [config] is also a keyword
    given directly (other than [config] itself), and otherwise raises
    [TypeError]; with a [config] that is not a dict it raises [TypeError]
    too. *)
Theorem init_rejects_repeated_keywords (data : kwargs) :
  NoDup (map fst data) ->
  (kwargs_get data (py "config") = None -> __init__ data = inr data)
  /\ (forall o,
      kwargs_get data (py "config") = Some (Opaque o) ->
      __init__ data = inl (PyExn TypeError "argument after ** must be a mapping"))
  /\ (forall entries,
         kwargs_get data (py "config") = Some (Dict entries) ->
         ((exists kw, __init__ data = inr kw) <->
          (forall k, has_key entries k = true ->
                     k <> py "config" -> has_key data k = false))
         /\ ((exists kw, __init__ data = inr kw)
             \/ exists k,
                 has_key entries k = true /\ has_key data k = true
                 /\ k <> py "config"
                 /\ __init__ data
                    = inl (PyExn TypeError
                             ("got multiple values for keyword argument "
                              ++ repr k)))).
Proof.
  intros Hnd.
  assert (Hrest : forall k,
             has_key (snd (dict_pop data (py "config"))) k
             = if str_eqb k (py "config") then false else has_key data k).
  { intros k. pose proof (dict_pop_rest data (py "config") k Hnd) as H.
    destruct (str_eqb k (py "config")).
    - destruct (has_key (snd (dict_pop data (py "config"))) k) eqn:E;
        [|reflexivity].
      apply has_key_get in E as [v E]. congruence.
    - destruct (has_key data k) eqn:E.
      + apply has_key_get in E as [v E]. apply has_key_get.
        exists v. congruence.
      + destruct (has_key (snd (dict_pop data (py "config"))) k) eqn:E';
          [|reflexivity].
        apply has_key_get in E' as [v E']. rewrite H in E'.
        assert (has_key data k = true) by (apply has_key_get; eauto).
        congruence. }
  split; [|split].
  - intros Hget. unfold __init__.
    pose proof (dict_pop_get data (py "config")) as Hp.
    pose proof (dict_pop_absent data (py "config") Hget) as Habs.
    destruct (dict_pop data (py "config")) as [popped rest]. simpl in Hp, Habs.
    rewrite Hp, Hget, repeated_key_nil, Habs. reflexivity.
  - intros o Hget. unfold __init__.
    pose proof (dict_pop_get data (py "config")) as Hp.
    destruct (dict_pop data (py "config")) as [popped rest]. simpl in Hp.
    rewrite Hp, Hget. reflexivity.
  - intros entries Hget. unfold __init__.
    pose proof (dict_pop_get data (py "config")) as Hp.
    destruct (dict_pop data (py "config")) as [popped rest] eqn:Hpop.
    simpl in Hp, Hrest. rewrite Hp, Hget.
    destruct (repeated_key entries rest) as [k|] eqn:Hrep.
    + assert (Hk : has_key entries k = true /\ has_key rest k = true).
      { clear - Hrep. induction rest as [|[k0 v] rest IH]; simpl in Hrep;
          [discriminate|].
        destruct (has_key entries k0) eqn:E.
        - injection Hrep as <-. split; [exact E|]. simpl.
          now rewrite str_eqb_refl.
        - destruct (IH Hrep) as [H1 H2]. split; [exact H1|].
          simpl. rewrite H2. apply orb_true_r. }
      destruct Hk as [Hk1 Hk2]. rewrite Hrest in Hk2.
      destruct (str_eqb k (py "config")) eqn:Ek; [discriminate|].
      assert (Hne : k <> py "config").
      { intros ->. now rewrite str_eqb_refl in Ek. }
      split.
      * split; [intros [kw H]; discriminate|].
        intros H. specialize (H k Hk1 Hne). congruence.
      * right. exists k. auto.
    + split; [|left; eauto].
      split; [|eauto]. intros _ k Hk Hne.
      apply repeated_key_none with (k := k) in Hrep; [|exact Hk].
      rewrite Hrest in Hrep.
      destruct (str_eqb k (py "config")) eqn:Ek; [|exact Hrep].
      apply str_eqb_eq in Ek. contradiction.
Qed.

(** X16: when [__init__] reaches [super().__init__], every keyword arrives
    with the one value it was given: the value in [config] for a key of
    [config], and otherwise the value given directly, except that the
    keyword [config] itself is not passed on.  Without a [config] the
    keywords are passed on as they are. *)
Theorem init_passes_each_keyword_once (data kw : kwargs) :
  NoDup (map fst data) ->
  __init__ data = inr kw ->
  (kwargs_get data (py "config") = None -> kw = data)
  /\ exists entries,
      (kwargs_get data (py "config") = Some (Dict entries)
       \/ (kwargs_get data (py "config") = None /\ entries = []))
      /\ forall k,
          kwargs_get kw k
          = match kwargs_get entries k with
            | Some o => Some (Opaque o)
            | None =>
                if str_eqb k (py "config") then None else kwargs_get data k
            end.
Proof.
  intros Hnd Hinit. unfold __init__ in Hinit.
  pose proof (dict_pop_get data (py "config")) as Hp.
  pose proof (dict_pop_rest data (py "config")) as Hrest.
  pose proof (dict_pop_absent data (py "config")) as Habs.
  destruct (dict_pop data (py "config")) as [popped rest]. simpl in *.
  assert (Hget : forall entries k,
             kwargs_get
               (map (fun kv => (fst kv, Opaque (snd kv))) entries ++ rest) k
             = match kwargs_get entries k with
               | Some o => Some (Opaque o)
               | None =>
                   if str_eqb k (py "config") then None else kwargs_get data k
               end).
  { intros entries k. rewrite kwargs_get_app, kwargs_get_map, (Hrest k Hnd).
    now destruct (kwargs_get entries k). }
  destruct popped as [[o|entries]|].
  - discriminate.
  - destruct (repeated_key entries rest); [discriminate|].
    injection Hinit as <-. split; [intros H; congruence|].
    exists entries. split; [left; now symmetry|]. apply Hget.
  - rewrite repeated_key_nil in Hinit. simpl in Hinit. injection Hinit as <-.
    split; [intros H; now apply Habs|].
    exists []. split; [right; split; [now symmetry | reflexivity]|].
    apply (Hget []).
Qed.

(** ** The validator *)

Section ValidatorProperties.

Import Validator.

Context {C : Collaborators}.

Lemma skipn_trace (t d : list event) : skipn (List.length t) (t ++ d) = d.
Proof. now rewrite skipn_app, skipn_all, Nat.sub_diag. Qed.

Lemma skipn_trace_nil (t : list event) : skipn (List.length t) t = [].
Proof. apply skipn_all. Qed.

(** Every run of the first block, by its cases. *)
Lemma set_token_handler_cases (self : Agent) (s : State) :
  match model_name (llm self) with
  | None => set_token_handler self s = (inr self, s)
  | Some name =>
      exists constructed,
        fst (env _ (TokenCalcHandler_new name (token_process self)) (world s))
        = constructed
        /\ new_events (set_token_handler self) s
           = [Ev (TokenCalcHandler_new name (token_process self)) constructed]
        /\ match constructed with
           | inl e => fst (set_token_handler self s) = inl e
           | inr handler =>
               match callbacks (llm self) with
               | NoAttribute =>
                   fst (set_token_handler self s)
                   = inl (PyExn AttributeError
                            "object has no attribute 'callbacks'")
               | _ =>
                   fst (set_token_handler self s)
                   = inr (with_callbacks self
                            (if existsb isinstance_TokenCalcHandler
                                  (handlers_of self)
                             then handlers_of self
                             else handlers_of self ++ [handler]))
               end
           end
  end.
Proof.
  unfold set_token_handler, new_events, handlers_of.
  destruct (model_name (llm self)) as [name|]; [|reflexivity].
  cbv beta delta [bind call ret raise].
  destruct (env _ (TokenCalcHandler_new name (token_process self)) (world s))
    as [[e|handler] w]; cbv beta iota.
  - exists (inl e). split; [reflexivity|].
    split; [apply skipn_trace | reflexivity].
  - exists (inr handler). split; [reflexivity|].
    destruct (callbacks (llm self)) as [|value|handlers]; cbv beta iota.
    + split; [apply skipn_trace | reflexivity].
    + simpl. split; [apply skipn_trace | reflexivity].
    + destruct (existsb isinstance_TokenCalcHandler handlers);
        (split; [apply skipn_trace | reflexivity]).
Qed.

Lemma set_token_handler_result
    (self self' : Agent) (s : State) (name : obj) :
  model_name (llm self) = Some name ->
  fst (set_token_handler self s) = inr self' ->
  exists handler,
    fst (env _ (TokenCalcHandler_new name (token_process self)) (world s))
    = inr handler
    /\ new_events (set_token_handler self) s
       = [Ev (TokenCalcHandler_new name (token_process self)) (inr handler)]
    /\ self' = with_callbacks self
                 (if existsb isinstance_TokenCalcHandler (handlers_of self)
                  then handlers_of self
                  else handlers_of self ++ [handler]).
Proof.
  intros Hname Hret.
  pose proof (set_token_handler_cases self s) as H. rewrite Hname in H.
  destruct H as (constructed & Henv & Hev & Hcases).
  destruct constructed as [e|handler]; [congruence|].
  exists handler. split; [exact Henv|]. split; [exact Hev|].
  destruct (callbacks (llm self)); congruence.
Qed.

Lemma token_handlers_app (a b : list obj) :
  token_handlers (a ++ b) = token_handlers a ++ token_handlers b.
Proof. apply filter_app. Qed.

Lemma existsb_token_handlers (l : list obj) :
  existsb isinstance_TokenCalcHandler l = true <-> token_handlers l <> [].
Proof.
  unfold token_handlers. induction l as [|h l IH]; simpl.
  - split; [discriminate | congruence].
  - destruct (isinstance_TokenCalcHandler h); simpl.
    + split; [discriminate | reflexivity].
    + exact IH.
Qed.

(** X17: the validator appends at most one handler, after the callbacks
    the model had, and none when an instance of [TokenCalcHandler] is among
    them; the other fields of the agent and the model's name are left
    alone.  When what the constructor returns is an instance of the class,
    the model ends with as many such handlers as it had, or with one if it
    had none. *)
Theorem token_handler_appended_at_most_once
    (self self' : Agent) (s : State) (name : obj) :
  model_name (llm self) = Some name ->
  fst (set_token_handler self s) = inr self' ->
  exists handler extra,
    new_events (set_token_handler self) s
    = [Ev (TokenCalcHandler_new name (token_process self)) (inr handler)]
    /\ self' = with_callbacks self (handlers_of self ++ extra)
    /\ (extra = [] \/ extra = [handler])
    /\ (token_handlers (handlers_of self) <> [] -> extra = [])
    /\ (isinstance_TokenCalcHandler handler = true ->
        List.length (token_handlers (handlers_of self ++ extra))
        = Nat.max 1 (List.length (token_handlers (handlers_of self)))).
Proof.
  intros Hname Hret.
  destruct (set_token_handler_result self self' s name Hname Hret)
    as (handler & _ & Hev & ->).
  exists handler.
  destruct (existsb isinstance_TokenCalcHandler (handlers_of self)) eqn:Hex.
  - exists []. rewrite app_nil_r.
    split; [exact Hev|]. split; [reflexivity|]. split; [now left|].
    split; [reflexivity|]. intros _.
    apply existsb_token_handlers in Hex.
    destruct (token_handlers (handlers_of self)); [congruence | reflexivity].
  - exists [handler].
    split; [exact Hev|]. split; [reflexivity|]. split; [now right|].
    split.
    + intros Hne. apply existsb_token_handlers in Hne. congruence.
    + intros Hinst. rewrite token_handlers_app.
      assert (Hnone : token_handlers (handlers_of self) = []).
      { destruct (token_handlers (handlers_of self)) eqn:E; [reflexivity|].
        assert (Hne : token_handlers (handlers_of self) <> [])
          by (rewrite E; discriminate).
        apply existsb_token_handlers in Hne. congruence. }
      rewrite Hnone. unfold token_handlers. simpl. now rewrite Hinst.
Qed.

(** X18: validating again changes nothing in the model: after a first run
    that returned, in which what the constructor returned is an instance of
    [TokenCalcHandler], any later run of the first block that returns
    leaves the agent as the first run left it. *)
Theorem token_handler_idempotent
    (self self1 self2 : Agent) (s s' : State) :
  (forall name handler,
      fst (env _ (TokenCalcHandler_new name (token_process self)) (world s))
      = inr handler ->
      isinstance_TokenCalcHandler handler = true) ->
  fst (set_token_handler self s) = inr self1 ->
  fst (set_token_handler self1 s') = inr self2 ->
  self2 = self1.
Proof.
  intros Hinst H1 H2.
  destruct (model_name (llm self)) as [name|] eqn:Hname.
  - destruct (set_token_handler_result self self1 s name Hname H1)
      as (handler & Henv & _ & ->).
    apply Hinst in Henv.
    set (l1 := if existsb isinstance_TokenCalcHandler (handlers_of self)
               then handlers_of self
               else handlers_of self ++ [handler]) in *.
    assert (Hhas : existsb isinstance_TokenCalcHandler l1 = true).
    { unfold l1.
      destruct (existsb isinstance_TokenCalcHandler (handlers_of self)) eqn:E;
        [exact E|].
      rewrite existsb_app. simpl. rewrite Henv. apply orb_true_r. }
    assert (Hname1 : model_name (llm (with_callbacks self l1)) = Some name)
      by exact Hname.
    destruct (set_token_handler_result _ self2 s' name Hname1 H2)
      as (handler2 & _ & _ & ->).
    change (handlers_of (with_callbacks self l1)) with l1.
    rewrite Hhas. reflexivity.
  - pose proof (set_token_handler_cases self s) as Hc1. rewrite Hname in Hc1.
    rewrite Hc1 in H1. simpl in H1. injection H1 as <-.
    pose proof (set_token_handler_cases self s') as Hc2. rewrite Hname in Hc2.
    rewrite Hc2 in H2. simpl in H2. now injection H2 as <-.
Qed.

(** Every run of the second block, by its cases. *)
Lemma set_cache_cases (self : Agent) (s : State) :
  match agent_executor self, true_cache_handler self with
  | Some _, _ => set_cache self s = (inr self, s)
  | None, Some handler =>
      exists outcome,
        new_events (set_cache self) s
        = [Ev (set_cache_handler self handler) outcome]
        /\ fst (set_cache self s) = outcome
  | None, None =>
      exists constructed,
        match constructed with
        | inl e =>
            new_events (set_cache self) s = [Ev CacheHandler_new (inl e)]
            /\ fst (set_cache self s) = inl e
        | inr handler =>
            exists outcome,
              new_events (set_cache self) s
              = [Ev CacheHandler_new (inr handler);
                 Ev (set_cache_handler (with_cache_handler self handler) handler)
                   outcome]
              /\ fst (set_cache self s) = outcome
        end
  end.
Proof.
  assert (Hnew : exists constructed,
             match constructed with
             | inl e =>
                 new_events
                   (bind (new_cache_handler self)
                      (fun current =>
                         call (set_cache_handler (fst current) (snd current))))
                   s
                 = [Ev CacheHandler_new (inl e)]
                 /\ fst (bind (new_cache_handler self)
                           (fun current =>
                              call (set_cache_handler (fst current)
                                      (snd current)))
                           s)
                    = inl e
             | inr handler =>
                 exists outcome,
                   new_events
                     (bind (new_cache_handler self)
                        (fun current =>
                           call (set_cache_handler (fst current) (snd current))))
                     s
                   = [Ev CacheHandler_new (inr handler);
                      Ev (set_cache_handler (with_cache_handler self handler)
                            handler)
                        outcome]
                   /\ fst (bind (new_cache_handler self)
                             (fun current =>
                                call (set_cache_handler (fst current)
                                        (snd current)))
                             s)
                      = outcome
             end).
  { unfold new_events, new_cache_handler.
    cbv beta delta [bind call ret].
    destruct (env _ CacheHandler_new (world s)) as [[e|handler] w];
      cbv beta iota.
    - exists (inl e). split; [apply skipn_trace | reflexivity].
    - exists (inr handler). simpl.
      match goal with
      | |- context [env _ ?c w] => destruct (env _ c w) as [outcome w1]
      end.
      exists outcome. simpl. rewrite <- app_assoc.
      split; [apply skipn_trace | reflexivity]. }
  unfold set_cache, true_cache_handler.
  destruct (agent_executor self); [reflexivity|].
  destruct (cache_handler self) as [handler|]; [|exact Hnew].
  destruct (truthy handler); [|exact Hnew].
  unfold new_events. cbv beta delta [bind call ret]. simpl.
  destruct (env _ (set_cache_handler self handler) (world s)) as [outcome w].
  exists outcome. split; [apply skipn_trace | reflexivity].
Qed.

(** X19: the validator leaves an agent that has an executor alone, and
    replaces a cache handler only when it is false.  [set_cache_handler] is
    called only for an agent without an executor; it is given the agent's
    own cache handler when that handler is true (the agent is then passed
    as it is), and otherwise, for [None] and for a handler that is false, a
    newly constructed [CacheHandler] that is first stored in the agent.  A
    [CacheHandler] is constructed in that last case only, and what
    [set_cache_handler] returns or raises is the result. *)
Theorem cache_handler_replaced_only_when_false (self : Agent) (s : State) :
  (agent_executor self <> None -> set_cache self s = (inr self, s))
  /\ (forall self' handler outcome,
         In (Ev (set_cache_handler self' handler) outcome)
           (new_events (set_cache self) s) ->
         agent_executor self = None
         /\ cache_handler self' = Some handler
         /\ llm self' = llm self
         /\ agent_executor self' = None
         /\ (forall own,
                cache_handler self = Some own -> truthy own = true ->
                handler = own /\ self' = self)
         /\ ((cache_handler self = None
              \/ exists own, cache_handler self = Some own
                             /\ truthy own = false) ->
             self' = with_cache_handler self handler
             /\ new_events (set_cache self) s
                = [Ev CacheHandler_new (inr handler);
                   Ev (set_cache_handler self' handler) outcome])
         /\ fst (set_cache self s) = outcome)
  /\ (forall constructed,
         In (Ev CacheHandler_new constructed) (new_events (set_cache self) s) ->
         agent_executor self = None
         /\ (cache_handler self = None
             \/ exists own, cache_handler self = Some own
                            /\ truthy own = false))
  /\ (agent_executor self = None ->
      (cache_handler self = None
       \/ exists own, cache_handler self = Some own /\ truthy own = false) ->
      exists constructed rest,
        new_events (set_cache self) s = Ev CacheHandler_new constructed :: rest)
  /\ (forall self',
         fst (set_cache self s) = inr self' ->
         agent_executor self = None ->
         exists agent handler,
           In (Ev (set_cache_handler agent handler) (inr self'))
             (new_events (set_cache self) s)).
Proof.
  pose proof (set_cache_cases self s) as H.
  pose (handed := fun ev : event =>
          match ev with
          | Ev c o =>
              match c in ext T return result T -> option (Agent * obj * result Agent)
              with
              | set_cache_handler a h => fun o' => Some (a, h, o')
              | _ => fun _ => None
              end o
          end).
  pose (is_new := fun ev : event =>
          match ev with
          | Ev c _ =>
              match c with
              | CacheHandler_new => true
              | _ => false
              end
          end).
  assert (Htrue : forall own,
             true_cache_handler self = Some own <->
             cache_handler self = Some own /\ truthy own = true).
  { intros own. unfold true_cache_handler.
    destruct (cache_handler self) as [h|]; [|split; [discriminate | intros [? _]; discriminate]].
    destruct (truthy h) eqn:Eh; split.
    - intros Heq. injection Heq as <-. now split.
    - intros [Heq _]. exact Heq.
    - discriminate.
    - intros [Heq Ht]. injection Heq as <-. congruence. }
  assert (Hfalse : true_cache_handler self = None <->
                   (cache_handler self = None
                    \/ exists own, cache_handler self = Some own
                                   /\ truthy own = false)).
  { unfold true_cache_handler.
    destruct (cache_handler self) as [h|]; [|split; [now left | reflexivity]].
    destruct (truthy h) eqn:Eh; split.
    - discriminate.
    - intros [Heq|(own & Heq & Ht)]; [discriminate|].
      injection Heq as <-. congruence.
    - intros _. right. now exists h.
    - reflexivity. }
  destruct (agent_executor self) as [ex|] eqn:Hex.
  - split; [intros _; exact H|]. rewrite H. unfold new_events.
    assert (Hnil : skipn (List.length (trace s)) (trace s) = [])
      by apply skipn_all.
    split; [|split; [|split]].
    + intros self' handler outcome Hin. rewrite H in Hin. simpl in Hin.
      rewrite Hnil in Hin. destruct Hin.
    + intros constructed Hin. rewrite H in Hin. simpl in Hin.
      rewrite Hnil in Hin. destruct Hin.
    + discriminate.
    + intros self' _ Hcontra. discriminate.
  - split; [congruence|].
    destruct (true_cache_handler self) as [own|] eqn:Hown.
    + destruct H as (outcome & Hev & Hr). rewrite Hev, Hr.
      destruct (proj1 (Htrue own) eq_refl) as [Hown' Htruthy].
      clear Hown. rename Hown' into Hown.
      split; [|split; [|split]].
      * intros self' handler out [Heq|[]].
        apply (f_equal handed) in Heq. simpl in Heq.
        injection Heq as <- <- <-.
        split; [reflexivity|]. split; [exact Hown|].
        split; [reflexivity|]. split; [exact Hex|].
        split; [|split; [|reflexivity]].
        -- intros own' Ho _. rewrite Hown in Ho. injection Ho as <-. now split.
        -- intros [Hnone|(own' & Ho & Hf)]; [congruence|].
           rewrite Hown in Ho. injection Ho as <-. congruence.
      * intros constructed [Heq|[]].
        apply (f_equal is_new) in Heq. discriminate.
      * intros _ [Hnone|(own' & Ho & Hf)]; [congruence|].
        rewrite Hown in Ho. injection Ho as <-. congruence.
      * intros self' -> _. exists self, own. now left.
    + pose proof (proj1 Hfalse eq_refl) as Hno.
      assert (Hnot : forall own,
                 cache_handler self = Some own -> truthy own = true -> False).
      { intros own Ho Ht.
        assert (Hsome : None = Some own) by (apply Htrue; now split).
        discriminate Hsome. }
      destruct H as (constructed & H). destruct constructed as [e|handler].
      * destruct H as [Hev Hr]. rewrite Hev, Hr. split; [|split; [|split]].
        -- intros self' h out [Heq|[]].
           apply (f_equal handed) in Heq. discriminate.
        -- intros; auto.
        -- intros _ _. now exists (inl e), [].
        -- intros self' Hcontra. discriminate.
      * destruct H as (outcome & Hev & Hr). rewrite Hev, Hr.
        split; [|split; [|split]].
        -- intros self' h out [Heq|[Heq|[]]];
             apply (f_equal handed) in Heq; simpl in Heq; [discriminate|].
           injection Heq as <- <- <-.
           split; [reflexivity|]. split; [reflexivity|].
           split; [reflexivity|]. split; [exact Hex|].
           split; [|split; [|reflexivity]].
           ++ intros own' Ho Ht. destruct (Hnot own' Ho Ht).
           ++ intros _. split; reflexivity.
        -- intros; auto.
        -- intros _ _. eexists (inr handler), [_]. reflexivity.
        -- intros self' -> _.
           exists (with_cache_handler self handler), handler. right. now left.
Qed.

(** The trace only grows. *)
Lemma set_token_handler_extends (self : Agent) (s : State) :
  trace (snd (set_token_handler self s))
  = trace s ++ new_events (set_token_handler self) s.
Proof.
  unfold new_events, set_token_handler.
  destruct (model_name (llm self)) as [name|].
  - cbv beta delta [bind call ret raise].
    destruct (env _ (TokenCalcHandler_new name (token_process self)) (world s))
      as [[e|handler] w]; cbv beta iota.
    + simpl. now rewrite skipn_trace.
    + destruct (callbacks (llm self)) as [|value|handlers]; cbv beta iota;
        try destruct (existsb isinstance_TokenCalcHandler _);
        simpl; now rewrite skipn_trace.
  - simpl. now rewrite skipn_trace_nil, app_nil_r.
Qed.

Lemma set_cache_extends (self : Agent) (s : State) :
  trace (snd (set_cache self s)) = trace s ++ new_events (set_cache self) s.
Proof.
  assert (Hnew : trace (snd (bind (new_cache_handler self)
                               (fun current =>
                                  call (set_cache_handler (fst current)
                                          (snd current)))
                               s))
                 = trace s
                   ++ new_events
                        (bind (new_cache_handler self)
                           (fun current =>
                              call (set_cache_handler (fst current)
                                      (snd current))))
                        s).
  { unfold new_events, new_cache_handler.
    cbv beta delta [bind call ret].
    destruct (env _ CacheHandler_new (world s)) as [[e|handler] w];
      cbv beta iota.
    - simpl. now rewrite skipn_trace.
    - simpl.
      match goal with
      | |- context [env _ ?c w] => destruct (env _ c w) as [o w1]
      end.
      simpl. rewrite <- app_assoc. now rewrite skipn_trace. }
  unfold set_cache.
  destruct (agent_executor self).
  - unfold new_events. simpl. now rewrite skipn_trace_nil, app_nil_r.
  - destruct (cache_handler self) as [handler|]; [|exact Hnew].
    destruct (truthy handler); [|exact Hnew].
    unfold new_events. cbv beta delta [bind call ret]. simpl.
    destruct (env _ (set_cache_handler self handler) (world s)) as [o w].
    simpl. now rewrite skipn_trace.
Qed.

(** The events of the validator are those of its first block followed, when
    that block returns, by those of the second. *)
Lemma set_agent_executor_events (self : Agent) (s : State) :
  new_events (set_agent_executor self) s
  = new_events (set_token_handler self) s
    ++ match fst (set_token_handler self s) with
       | inl _ => []
       | inr self1 =>
           new_events (set_cache self1) (snd (set_token_handler self s))
       end.
Proof.
  pose proof (set_token_handler_extends self s) as H1.
  set (d := new_events (set_token_handler self) s) in *. clearbody d.
  unfold set_agent_executor, bind.
  unfold new_events at 1.
  destruct (set_token_handler self s) as [[e|self1] s1]; simpl in *.
  - rewrite H1, skipn_trace, app_nil_r. reflexivity.
  - rewrite set_cache_extends, H1, <- app_assoc, skipn_trace. reflexivity.
Qed.

(** X20: the two blocks of the validator compose in that order.  An error
    of the first block is the validator's and no cache handler is then set;
    [set_cache_handler] is called on an agent whose model is the one the
    first block returned, so with the token handler already in its
    callbacks, and what it returns or raises is the validator's result; an
    agent with an executor whose model has no [model_name] goes through the
    validator without a call and unchanged. *)
Theorem validator_sets_cache_after_token_handler (self : Agent) (s : State) :
  (forall e,
      fst (set_token_handler self s) = inl e ->
      fst (set_agent_executor self s) = inl e
      /\ new_events (set_agent_executor self) s
         = new_events (set_token_handler self) s)
  /\ (forall self' handler outcome,
         In (Ev (set_cache_handler self' handler) outcome)
           (new_events (set_agent_executor self) s) ->
         exists self1,
           fst (set_token_handler self s) = inr self1
           /\ llm self' = llm self1
           /\ token_process self' = token_process self
           /\ agent_executor self = None
           /\ fst (set_agent_executor self s) = outcome)
  /\ (model_name (llm self) = None ->
      agent_executor self <> None ->
      set_agent_executor self s = (inr self, s)).
Proof.
  pose (handed := fun ev : event =>
          match ev with
          | Ev c o =>
              match c in ext T return result T -> option (Agent * obj * result Agent)
              with
              | set_cache_handler a h => fun o' => Some (a, h, o')
              | _ => fun _ => None
              end o
          end).
  split; [|split].
  - intros e He. rewrite set_agent_executor_events, He, app_nil_r.
    split; [|reflexivity].
    unfold set_agent_executor, bind.
    destruct (set_token_handler self s) as [[e'|a] s1]; simpl in *; congruence.
  - intros self' handler outcome Hin.
    rewrite set_agent_executor_events in Hin.
    assert (Hfirst : ~ In (Ev (set_cache_handler self' handler) outcome)
                       (new_events (set_token_handler self) s)).
    { pose proof (set_token_handler_cases self s) as Hc.
      destruct (model_name (llm self)) as [name|].
      - destruct Hc as (constructed & _ & -> & _).
        intros [Heq|[]]. apply (f_equal handed) in Heq. discriminate.
      - unfold new_events. rewrite Hc. simpl. rewrite skipn_trace_nil.
        intros []. }
    apply in_app_or in Hin. destruct Hin as [Hin|Hin]; [contradiction|].
    assert (Hresult : fst (set_agent_executor self s)
                      = match fst (set_token_handler self s) with
                        | inl e => inl e
                        | inr self1 =>
                            fst (set_cache self1 (snd (set_token_handler self s)))
                        end).
    { unfold set_agent_executor, bind.
      destruct (set_token_handler self s) as [[e|a] s1]; reflexivity. }
    destruct (fst (set_token_handler self s)) as [e|self1] eqn:Hfst;
      [destruct Hin|].
    exists self1. split; [reflexivity|].
    assert (Hkept : token_process self1 = token_process self
                    /\ agent_executor self1 = agent_executor self
                    /\ cache_handler self1 = cache_handler self).
    { pose proof (set_token_handler_cases self s) as Hc.
      destruct (model_name (llm self)) as [name|] eqn:Hname.
      - destruct (set_token_handler_result self self1 s name Hname Hfst)
          as (h & _ & _ & ->). now repeat split.
      - rewrite Hc in Hfst. simpl in Hfst. injection Hfst as <-.
        now repeat split. }
    destruct Hkept as (Hp & Hx & Hc).
    pose proof (set_cache_cases self1 (snd (set_token_handler self s))) as H.
    rewrite Hresult.
    destruct (agent_executor self1) as [ex|] eqn:Hex.
    + unfold new_events in Hin. rewrite H in Hin. simpl in Hin.
      rewrite skipn_trace_nil in Hin. destruct Hin.
    + destruct (true_cache_handler self1) as [own|] eqn:Hown.
      * destruct H as (out & Hev & Hr). rewrite Hev in Hin.
        destruct Hin as [Heq|[]].
        apply (f_equal handed) in Heq. simpl in Heq.
        injection Heq as <- <- <-.
        split; [reflexivity|]. split; [exact Hp|].
        split; [now rewrite <- Hx|exact Hr].
      * destruct H as (constructed & H). destruct constructed as [e|h].
        -- destruct H as [Hev _]. rewrite Hev in Hin.
           destruct Hin as [Heq|[]].
           apply (f_equal handed) in Heq. discriminate.
        -- destruct H as (out & Hev & Hr). rewrite Hev in Hin.
           destruct Hin as [Heq|[Heq|[]]];
             apply (f_equal handed) in Heq; simpl in Heq; [discriminate|].
           injection Heq as <- <- <-.
           split; [reflexivity|]. split; [exact Hp|].
           split; [now rewrite <- Hx|exact Hr].
  - intros Hname Hex. unfold set_agent_executor, bind, set_token_handler.
    rewrite Hname. simpl. unfold set_cache.
    destruct (agent_executor self); [reflexivity | congruence].
Qed.

End ValidatorProperties.

(** ** The further properties on runs of the scripted worlds *)

(** X1 on two langchain tools. *)
Lemma parse_tools_passes_other_tools_run :
  exists imported,
    new_events (_parse_tools (Some [1; 2]%N)) (fresh_state true)
    = [Ev Import_crewai_tools imported]
    /\ fst (_parse_tools (Some [1; 2]%N) (fresh_state true))
       = match imported with
         | inr _ => inr [1; 2]%N
         | inl e => if is_ModuleNotFoundError e then inr [1; 2]%N else inl e
         end.
Proof.
  apply (parse_tools_passes_other_tools [1; 2]%N (fresh_state true)).
  repeat constructor.
Defined.

(** X2 on the researcher's tools. *)
Lemma parse_tools_keeps_length_run :
  fst (_parse_tools (Some [1; 100]%N) (fresh_state true)) = inr [1; 1000]%N
  /\ List.length [1; 1000]%N = List.length [1; 100]%N.
Proof.
  assert (Hret : fst (_parse_tools (Some [1; 100]%N) (fresh_state true))
                 = inr [1; 1000]%N) by (vm_compute; reflexivity).
  split; [exact Hret|].
  apply (parse_tools_keeps_length [1; 100]%N [1; 1000]%N (fresh_state true) Hret).
  intros t e Hin. vm_compute in Hin.
  destruct Hin as [Heq|[Heq|[]]]; apply (f_equal raised) in Heq; discriminate.
Defined.

(** X3 where the conversion of the third tool fails. *)
Lemma parse_tools_after_failed_conversion_run :
  In 101%N [100; 1; 101]%N
  /\ isinstance_CrewAITool (Collaborators := failing_conversion) 101%N = true
  /\ exists pre post ps,
      [100; 1; 101]%N = pre ++ 101%N :: post
      /\ Forall2
           (parsed_from (C := failing_conversion)
              (new_events (_parse_tools (Some [100; 1; 101]%N))
                 fresh_failing_state))
           pre ps
      /\ List.length ps < List.length [100; 1; 101]%N
      /\ fst (_parse_tools (Some [100; 1; 101]%N) fresh_failing_state)
         = inr (ps ++ [100; 1; 101]%N).
Proof.
  apply (parse_tools_after_failed_conversion [100; 1; 101]%N
           fresh_failing_state 101%N
           (PyExn ModuleNotFoundError "No module named 'langchain_community'")).
  vm_compute. right. right. left. reflexivity.
Defined.

(** X5 on a run of the researcher. *)
Lemma execute_task_invokes_the_executor_it_builds_run :
  exists d0 runnable_agent kw executor parsed description names task_prompt
         output,
    new_events (execute_task researcher 7%N None None) (fresh_state true)
    = d0
      ++ [Ev (CrewAgentExecutor_new runnable_agent kw) (inr executor)]
      ++ setup_events executor 7%N parsed description
      ++ name_events parsed names
      ++ invoke_events executor task_prompt (str_join (py ", ") names)
           description output
      ++ stop_events researcher
    /\ filter is_construction_or_invoke d0 = []
    /\ List.length names = List.length parsed
    /\ dict_get output (py "output") = inr (py "done")
    /\ agent_executor (snd (execute_task researcher 7%N None None
                              (fresh_state true)))
       = Some executor.
Proof.
  apply (execute_task_invokes_the_executor_it_builds researcher 7%N None None
           (fresh_state true) (py "done")).
  vm_compute. reflexivity.
Defined.



(** X8 on the researcher without tools. *)
Lemma execute_task_without_tools_raises_run :
  (exists e, fst (execute_task unequipped 7%N None None (fresh_state true))
             = inl e)
  /\ filter is_construction_or_invoke
       (new_events (execute_task unequipped 7%N None None) (fresh_state true))
     = []
  /\ exists e, fst (create_agent_executor unequipped None (fresh_state true))
               = inl e.
Proof.
  apply (execute_task_without_tools_raises unequipped 7%N None None
           (fresh_state true)); reflexivity.
Defined.

(** X9 where the response template has no marker and the agent already has
    an executor. *)
Lemma create_agent_executor_failure_keeps_executor_run :
  agent_executor
    (snd (create_agent_executor
            (with_response_template (py "Answer:") researcher) None
            later_state))
  = Some 77%N.
Proof.
  apply (create_agent_executor_failure_keeps_executor
           (with_response_template (py "Answer:") researcher) None later_state
           (PyExn IndexError "list index out of range")).
  vm_compute. reflexivity.
Defined.

(** X10 on the same agent. *)
Lemma counter_not_stopped_on_error_run :
  fst (execute_task (with_response_template (py "Answer:") researcher)
         7%N None None (fresh_state true))
  = inl (PyExn IndexError "list index out of range")
  /\ forall controller outcome,
      In (Ev (RPMController_stop_rpm_counter controller) outcome)
        (new_events
           (execute_task (with_response_template (py "Answer:") researcher)
              7%N None None)
           (fresh_state true)) ->
      outcome = inl (PyExn IndexError "list index out of range").
Proof.
  assert (Hfail : fst (execute_task
                         (with_response_template (py "Answer:") researcher)
                         7%N None None (fresh_state true))
                  = inl (PyExn IndexError "list index out of range"))
    by (vm_compute; reflexivity).
  split; [exact Hfail|].
  exact (counter_not_stopped_on_error
           (with_response_template (py "Answer:") researcher) 7%N None None
           (fresh_state true) _ Hfail).
Defined.

(** X11 on the researcher without a controller. *)
Lemma execute_task_without_controller_raises_run :
  (exists e, fst (execute_task uncontrolled 7%N None None (fresh_state true))
             = inl e)
  /\ forall executor inputs output v,
      In (Ev (Executor_invoke executor inputs) (inr output))
        (new_events (execute_task uncontrolled 7%N None None)
           (fresh_state true)) ->
      dict_get output (py "output") = inr v ->
      fst (execute_task uncontrolled 7%N None None (fresh_state true))
      = inl (PyExn AttributeError
               "'NoneType' object has no attribute 'stop_rpm_counter'").
Proof.
  apply (execute_task_without_controller_raises uncontrolled 7%N None None
           (fresh_state true)); reflexivity.
Defined.

(** X12 on the executor that the researcher constructs. *)
Lemma executor_knows_its_agent_run :
  exists runnable_agent kw executor,
    In (Ev (CrewAgentExecutor_new runnable_agent kw) (inr executor))
      (new_events (create_agent_executor researcher None) (fresh_state true))
    /\ Executor.i18n kw = 20%N
    /\ Executor.crew kw = Some research_crew
    /\ Executor.crew_agent kw = researcher
    /\ Executor.verbose kw = false
    /\ Executor.handle_parsing_errors kw = true.
Proof.
  assert (Hin : In (Ev (CrewAgentExecutor_new 1009%N
                          (executor_args researcher (Some [1; 100]%N)
                             [1; 1000]%N))
                      (inr 1010%N))
                  (new_events (create_agent_executor researcher None)
                     (fresh_state true))).
  { vm_compute. do 12 right. left. reflexivity. }
  exists 1009%N, (executor_args researcher (Some [1; 100]%N) [1; 1000]%N),
    1010%N.
  split; [exact Hin|].
  exact (executor_knows_its_agent researcher 7%N None None (fresh_state true)
           _ _ _ (or_introl Hin)).
Defined.

(** X13 on the researcher, who has no response template. *)
Lemma single_stop_word_without_response_template_run :
  exists observation bound d0 d1,
    new_events (create_agent_executor researcher None) (fresh_state true)
    = d0
      ++ [ Ev (I18N_slice (Agent.i18n researcher) (py "observation"))
             (inr observation);
           Ev (LLM_bind (Agent.llm researcher) [observation]) (inr bound) ]
      ++ d1.
Proof.
  apply (single_stop_word_without_response_template researcher None
           (fresh_state true)).
  - reflexivity.
  - vm_compute. reflexivity.
Defined.

(** X15 and X16 on a constructor call that gives [role] and [llm] directly
    and [goal] in [config], and on one that gives [role] twice. *)
Lemma init_rejects_repeated_keywords_run :
  __init__ [(py "role", Opaque 1%N);
            (py "config", Dict [(py "role", 2%N)]);
            (py "llm", Opaque 3%N)]
  = inl (PyExn TypeError
           ("got multiple values for keyword argument " ++ repr (py "role"))).
Proof.
  assert (Hnd : NoDup (map fst [(py "role", Opaque 1%N);
                                (py "config", Dict [(py "role", 2%N)]);
                                (py "llm", Opaque 3%N)])).
  { repeat constructor; simpl; intros H;
      repeat (destruct H as [H|H]; [discriminate H|]); exact H. }
  destruct (init_rejects_repeated_keywords _ Hnd) as (_ & _ & Hdict).
  destruct (Hdict [(py "role", 2%N)] eq_refl) as [_ [[kw Hkw]|(k & _ & _ & _ & Hk)]].
  - vm_compute in Hkw. discriminate Hkw.
  - vm_compute. reflexivity.
Defined.

Lemma init_passes_each_keyword_once_run :
  __init__ [(py "role", Opaque 1%N);
            (py "config", Dict [(py "goal", 2%N)]);
            (py "llm", Opaque 3%N)]
  = inr [(py "goal", Opaque 2%N); (py "role", Opaque 1%N);
         (py "llm", Opaque 3%N)]
  /\ exists entries,
      (kwargs_get [(py "role", Opaque 1%N);
                   (py "config", Dict [(py "goal", 2%N)]);
                   (py "llm", Opaque 3%N)] (py "config")
       = Some (Dict entries)
       \/ (kwargs_get [(py "role", Opaque 1%N);
                       (py "config", Dict [(py "goal", 2%N)]);
                       (py "llm", Opaque 3%N)] (py "config") = None
           /\ entries = []))
      /\ forall k,
          kwargs_get [(py "goal", Opaque 2%N); (py "role", Opaque 1%N);
                      (py "llm", Opaque 3%N)] k
          = match kwargs_get entries k with
            | Some o => Some (Opaque o)
            | None =>
                if str_eqb k (py "config") then None
                else kwargs_get [(py "role", Opaque 1%N);
                                 (py "config", Dict [(py "goal", 2%N)]);
                                 (py "llm", Opaque 3%N)] k
            end.
Proof.
  assert (Hnd : NoDup (map fst [(py "role", Opaque 1%N);
                                (py "config", Dict [(py "goal", 2%N)]);
                                (py "llm", Opaque 3%N)])).
  { repeat constructor; simpl; intros H;
      repeat (destruct H as [H|H]; [discriminate H|]); exact H. }
  split; [reflexivity|].
  exact (proj2 (init_passes_each_keyword_once _ _ Hnd eq_refl)).
Defined.

(** X17 and X18 on an agent whose model has one other callback. *)
Lemma token_handler_appended_at_most_once_run :
  exists handler extra,
    Validator.new_events (Validator.set_token_handler Validator.fresh_agent)
      Validator.start
    = [Validator.Ev (Validator.TokenCalcHandler_new 1%N 3%N) (inr handler)]
    /\ Validator.with_callbacks Validator.fresh_agent [2; 500]%N
       = Validator.with_callbacks Validator.fresh_agent
           (Validator.handlers_of Validator.fresh_agent ++ extra)
    /\ (extra = [] \/ extra = [handler])
    /\ (Validator.token_handlers (C := Validator.counting)
           (Validator.handlers_of Validator.fresh_agent)
        <> [] -> extra = [])
    /\ (Validator.isinstance_TokenCalcHandler
          (Collaborators := Validator.counting) handler = true ->
        List.length
          (Validator.token_handlers (C := Validator.counting)
             (Validator.handlers_of Validator.fresh_agent ++ extra))
        = Nat.max 1
            (List.length
               (Validator.token_handlers (C := Validator.counting)
                  (Validator.handlers_of Validator.fresh_agent)))).
Proof.
  apply (token_handler_appended_at_most_once Validator.fresh_agent
           (Validator.with_callbacks Validator.fresh_agent [2; 500]%N)
           Validator.start 1%N).
  - reflexivity.
  - vm_compute. reflexivity.
Defined.

Lemma token_handler_idempotent_run :
  fst (Validator.set_token_handler Validator.fresh_agent Validator.start)
  = inr (Validator.with_callbacks Validator.fresh_agent [2; 500]%N)
  /\ fst (Validator.set_token_handler
            (Validator.with_callbacks Validator.fresh_agent [2; 500]%N)
            (snd (Validator.set_token_handler Validator.fresh_agent
                    Validator.start)))
     = inr (Validator.with_callbacks Validator.fresh_agent [2; 500]%N)
  /\ Validator.with_callbacks Validator.fresh_agent [2; 500]%N
     = Validator.with_callbacks Validator.fresh_agent [2; 500]%N.
Proof.
  assert (H1 : fst (Validator.set_token_handler Validator.fresh_agent
                      Validator.start)
               = inr (Validator.with_callbacks Validator.fresh_agent
                        [2; 500]%N)) by (vm_compute; reflexivity).
  assert (H2 : fst (Validator.set_token_handler
                      (Validator.with_callbacks Validator.fresh_agent
                         [2; 500]%N)
                      (snd (Validator.set_token_handler Validator.fresh_agent
                              Validator.start)))
               = inr (Validator.with_callbacks Validator.fresh_agent
                        [2; 500]%N)) by (vm_compute; reflexivity).
  split; [exact H1|]. split; [exact H2|].
  refine (token_handler_idempotent Validator.fresh_agent _ _ Validator.start
            _ _ H1 H2).
  intros name handler H. vm_compute in H. injection H as <-. reflexivity.
Defined.

(** ** Error handling, rate limits and the empty tool list on runs *)


(** C5 on the researcher, whose controller is 30 and whose [max_rpm] is 10:
    the executor is constructed with the [check_or_wait] of that controller,
    and [execute_task] stops the controller's counter by its last call. *)
Lemma rate_limiting_delegated_run :
  (exists d0 runnable_agent kw executor,
      new_events (create_agent_executor researcher None) (fresh_state true)
      = d0 ++ [Ev (CrewAgentExecutor_new runnable_agent kw) (inr executor)]
      /\ Executor.request_within_rpm_limit kw
         = Some (BoundMethod 30%N "check_or_wait"))
  /\ exists controller d0,
      Agent._rpm_controller researcher = Some controller
      /\ new_events (execute_task researcher 7%N None None) (fresh_state true)
         = d0 ++ [Ev (RPMController_stop_rpm_counter controller) (inr tt)].
Proof.
  destruct (rate_limiting_delegated researcher 7%N None None (fresh_state true))
    as (_ & _ & _ & Hstop & Hcreate & _).
  split.
  - apply Hcreate. vm_compute. reflexivity.
  - apply (Hstop (py "done")); vm_compute; reflexivity.
Defined.

(** C10 on the researcher, called with an empty list of tools. *)
Lemma empty_tools_mean_own_tools_run :
  fst (execute_task researcher 7%N None (Some []) (fresh_state true))
  = inr (py "done")
  /\ exists own d_before (s1 : @State (scripted true)) parsed parsed' stop
            prompts prompt execution_prompt bound r1 r2 parser inner_agent
            runnable_agent executor observation description names task_prompt
            output,
      Agent.tools researcher = Some own
      /\ Forall ordinary d_before
      /\ fst (_parse_tools (Some own) s1) = inr parsed
      /\ fst (_parse_tools (Some own) (snd (_parse_tools (Some own) s1)))
         = inr parsed'
      /\ new_events (execute_task researcher 7%N None (Some []))
           (fresh_state true)
         = d_before
           ++ new_events (_parse_tools (Some own)) s1
           ++ new_events (_parse_tools (Some own))
                (snd (_parse_tools (Some own) s1))
           ++ construction_events researcher (Some own) parsed' stop prompts
                prompt execution_prompt bound r1 r2 parser inner_agent
                runnable_agent executor observation
           ++ setup_events executor 7%N parsed description
           ++ name_events parsed names
           ++ invoke_events executor task_prompt (str_join (py ", ") names)
                description output
           ++ stop_events researcher
      /\ List.length names = List.length parsed
      /\ List.length own <= List.length parsed
      /\ List.length own <= List.length parsed'.
Proof.
  assert (Hret : fst (execute_task researcher 7%N None (Some [])
                        (fresh_state true))
                 = inr (py "done")) by (vm_compute; reflexivity).
  split; [exact Hret|].
  exact (proj2 (proj2 (proj2 (proj2 (proj2
           (empty_tools_mean_own_tools researcher 7%N None)))))
           (fresh_state true) (py "done") Hret).
Defined.

(** X19 on an agent whose cache handler is the false object 0: a new
    [CacheHandler] is constructed first. *)
Lemma cache_handler_replaced_only_when_false_run :
  exists constructed rest,
    Validator.new_events
      (Validator.set_cache
         (Validator.with_cache_handler Validator.fresh_agent 0%N))
      Validator.start
    = Validator.Ev Validator.CacheHandler_new constructed :: rest.
Proof.
  apply (proj1 (proj2 (proj2 (proj2
           (cache_handler_replaced_only_when_false
              (Validator.with_cache_handler Validator.fresh_agent 0%N)
              Validator.start))))).
  - reflexivity.
  - right. exists 0%N. split; reflexivity.
Defined.
